(** * Personal library manager: a shallow embedding of [library_manager.py]

    The script keeps one Python value, [st.session_state.library], in step
    with one file, [library.json].  This development embeds the store
    ([load_library], [save_library]), the catalog operations ([add_book],
    [remove_book], the read-status toggle of the "View Library" page,
    [search_books]) and the statistics ([get_library_stats]) as functions on
    an explicit world state, and proves the properties the specification
    states about them.

    Python values are dynamically typed, so the embedding keeps them
    dynamically typed: what the interpreter raises on an ill-shaped value is
    an explicit [Raise] in the model. *)

From Stdlib Require Import ZArith NArith List Bool Lia String Ascii DecimalString.
From Stdlib Require Import Reals Lra Sorted.
From stdpp Require Import base option list sorting.

Local Open Scope Z_scope.

(** ** Text *)

(** A Python [str] is a sequence of Unicode code points. *)
Definition str : Type := list N.

(** Code points of an ASCII literal. *)
Definition lit (s : string) : str :=
  List.map N_of_ascii (list_ascii_of_string s).

(** [str.isspace] on one code point: the characters Python treats as
    white space (bidirectional classes WS, B, S and category Zs). *)
Definition py_isspace (c : N) : bool :=
  ((9 <=? c) && (c <=? 13) || (28 <=? c) && (c <=? 32)
   || (c =? 133) || (c =? 160) || (c =? 5760)
   || (8192 <=? c) && (c <=? 8202)
   || (c =? 8232) || (c =? 8233) || (c =? 8239) || (c =? 8287)
   || (c =? 12288))%N.

Fixpoint lstrip (s : str) : str :=
  match s with
  | c :: s' => if py_isspace c then lstrip s' else s
  | [] => []
  end.

Definition rstrip (s : str) : str := rev (lstrip (rev s)).

(** [s.strip()] *)
Definition strip (s : str) : str := rstrip (lstrip s).

(** [all(c.isspace() for c in s)]: true on the empty text too. *)
Definition blank (s : str) : bool := forallb py_isspace s.

Fixpoint starts_with (p s : str) : bool :=
  match p, s with
  | [], _ => true
  | a :: p', b :: s' => (a =? b)%N && starts_with p' s'
  | _ :: _, [] => false
  end.

(** [p in s] for two texts: [p] occurs in [s] as a contiguous run. *)
Fixpoint str_contains (p s : str) : bool :=
  starts_with p s ||
  match s with
  | [] => false
  | _ :: s' => str_contains p s'
  end.

(** ** Exceptions and results

    The exceptions the embedded code can meet.  [Raise e] is an exception
    leaving the function; the world is then the one the function started
    in, since every function below does its only assignment last before
    saving. *)
Inductive exn : Type :=
  | IndexError
  | KeyError
  | TypeError
  | AttributeError
  | ValueError
  | OverflowError
  | ZeroDivisionError
  | RecursionError
  | JSONDecodeError.

Inductive result (A : Type) : Type :=
  | Ok (a : A)
  | Raise (e : exn).
Arguments Ok {A} a.
Arguments Raise {A} e.

#[global] Instance result_ret : MRet result := fun A a => Ok a.
#[global] Instance result_bind : MBind result := fun A B f r =>
  match r with
  | Ok a => f a
  | Raise e => Raise e
  end.
#[global] Instance result_fmap : FMap result := fun A B f r =>
  match r with
  | Ok a => Ok (f a)
  | Raise e => Raise e
  end.

(** ** Floats

    A Python [float] is an IEEE binary64.  A finite one is kept as
    [(-1)^neg * m * 2^e]; the sign lives apart so that -0.0 exists. *)
Inductive pyfloat : Type :=
  | FNan
  | FInf (neg : bool)
  | FFin (neg : bool) (m : N) (e : Z).

(** Strip the trailing zero bits of a positive mantissa. *)
Fixpoint odd_part (p : positive) (e : Z) : positive * Z :=
  match p with
  | xO p' => odd_part p' (e + 1)
  | _ => (p, e)
  end.

(** One representative per value: odd mantissa, and exponent 0 for zero. *)
Definition fcanon (f : pyfloat) : pyfloat :=
  match f with
  | FFin neg (Npos p) e => let '(p', e') := odd_part p e in FFin neg (Npos p') e'
  | FFin neg N0 _ => FFin neg 0 0
  | _ => f
  end.

(** Round the rational [n/d] ([0 <= n], [0 < d]) to the nearest binary64,
    ties to even: 53 bits of mantissa, exponents from -1074, and anything
    that rounds to [2^1024] or more becomes an infinity. *)
Definition b64_round (neg : bool) (n d : Z) : pyfloat :=
  if n =? 0 then FFin neg 0 0 else
  let l := Z.log2 n - Z.log2 d in
  let above := if 0 <=? l then d * 2 ^ l <=? n else d <=? n * 2 ^ (- l) in
  let fl := if above then l else l - 1 in
  let e := Z.max (fl - 52) (-1074) in
  let num := if e <? 0 then n * 2 ^ (- e) else n in
  let den := if e <? 0 then d else d * 2 ^ e in
  let q := num / den in
  let r := num mod den in
  let q' := if 2 * r <? den then q
            else if den <? 2 * r then q + 1
            else if Z.even q then q else q + 1 in
  if 1024 <=? Z.log2 q' + e then FInf neg
  else fcanon (FFin neg (Z.to_N q') e).

(** [float(z)] *)
Definition float_of_int (z : Z) : pyfloat :=
  b64_round (z <? 0) (Z.abs z) 1.

(** [a / b] on two ints: the correctly rounded quotient. *)
Definition int_truediv (a b : Z) : result pyfloat :=
  if b =? 0 then Raise ZeroDivisionError
  else match b64_round (xorb (a <? 0) (b <? 0)) (Z.abs a) (Z.abs b) with
       | FInf _ => Raise OverflowError
       | q => Ok q
       end.

(** [x * y] on two floats. *)
Definition float_mul (x y : pyfloat) : pyfloat :=
  match x, y with
  | FNan, _ | _, FNan => FNan
  | FInf s, FInf t => FInf (xorb s t)
  | FInf s, FFin t m _ | FFin t m _, FInf s =>
      if (m =? 0)%N then FNan else FInf (xorb s t)
  | FFin s m1 e1, FFin t m2 e2 =>
      let m := Z.of_N m1 * Z.of_N m2 in
      let e := e1 + e2 in
      if 0 <=? e then b64_round (xorb s t) (m * 2 ^ e) 1
      else b64_round (xorb s t) m (2 ^ (- e))
  end.

(** [round(x, 1)] on a float: the decimal with one digit after the point
    nearest to the exact value of [x] (ties to even), read back as a
    binary64.  NaN and the infinities are returned unchanged. *)
Definition float_round1 (x : pyfloat) : pyfloat :=
  match x with
  | FFin s m e =>
      let num := if 0 <=? e then 10 * Z.of_N m * 2 ^ e else 10 * Z.of_N m in
      let den := if 0 <=? e then 1 else 2 ^ (- e) in
      let q := num / den in
      let r := num mod den in
      let k := if 2 * r <? den then q
               else if den <? 2 * r then q + 1
               else if Z.even q then q else q + 1 in
      b64_round s k 10
  | _ => x
  end.

(** The real number a float stands for (0 for NaN and the infinities,
    which have none). *)
Definition scale2 (e : Z) : R :=
  if 0 <=? e then IZR (2 ^ e) else (/ IZR (2 ^ (- e)))%R.

Definition float_value (f : pyfloat) : R :=
  match f with
  | FFin s m e => ((if s then -1 else 1) * IZR (Z.of_N m) * scale2 e)%R
  | _ => 0%R
  end.

(** [int(x)] on a float truncates toward zero; NaN and the infinities
    have no integer value. *)
Definition float_trunc (x : pyfloat) : option Z :=
  match x with
  | FFin s m e =>
      let a := if 0 <=? e then Z.of_N m * 2 ^ e else Z.of_N m / 2 ^ (- e) in
      Some (if s then - a else a)
  | _ => None
  end.

Definition float_is_zero (x : pyfloat) : bool :=
  match x with
  | FFin _ m _ => (m =? 0)%N
  | _ => false
  end.

(** [x == z] for a float and an int, compared exactly. *)
Definition float_eq_int (x : pyfloat) (z : Z) : bool :=
  match x with
  | FFin s m e =>
      let v := if s then - Z.of_N m else Z.of_N m in
      if 0 <=? e then v * 2 ^ e =? z else v =? z * 2 ^ (- e)
  | _ => false
  end.

(** Whether two floats are the same dict key: [x is y or x == y].  Every
    NaN [json.loads] returns is the one object [json.decoder.NaN], so two
    NaN keys are the same key; -0.0 and 0.0 are equal. *)
Definition float_eq (x y : pyfloat) : bool :=
  match x, y with
  | FNan, FNan => true
  | FInf s, FInf t => Bool.eqb s t
  | FFin s m1 e1, FFin t m2 e2 =>
      let v1 := if s then - Z.of_N m1 else Z.of_N m1 in
      let v2 := if t then - Z.of_N m2 else Z.of_N m2 in
      if e1 <=? e2 then v1 =? v2 * 2 ^ (e2 - e1)
      else v1 * 2 ^ (e1 - e2) =? v2
  | _, _ => false
  end.


(** ** Values

    The values [json.loads] can build and [json.dump] can write: [None],
    booleans, ints, floats, texts, lists, and dicts with text keys.  A dict
    keeps its items in insertion order, as Python's does. *)
#[warnings="-register-all"] Inductive pyval : Type :=
  | VNone
  | VBool (b : bool)
  | VInt (z : Z)
  | VFloat (f : pyfloat)
  | VStr (s : str)
  | VList (l : list pyval)
  | VDict (d : list (str * pyval)).

(** Truth value of a value, as [if v:] and [not v] take it. *)
Definition truthy (v : pyval) : bool :=
  match v with
  | VNone => false
  | VBool b => b
  | VInt z => negb (z =? 0)
  | VFloat f => negb (float_is_zero f)
  | VStr s => match s with [] => false | _ => true end
  | VList l => match l with [] => false | _ => true end
  | VDict d => match d with [] => false | _ => true end
  end.

Definition str_eqb (a b : str) : bool := bool_decide (a = b).

(** Items of a dict: lookup by key, and assignment, which overwrites the
    value of a present key where it stands and appends a new key. *)
Fixpoint dict_get (d : list (str * pyval)) (k : str) : option pyval :=
  match d with
  | [] => None
  | (k', v) :: d' => if str_eqb k' k then Some v else dict_get d' k
  end.

Fixpoint dict_set (d : list (str * pyval)) (k : str) (v : pyval)
  : list (str * pyval) :=
  match d with
  | [] => [(k, v)]
  | (k', v') :: d' =>
      if str_eqb k' k then (k', v) :: d' else (k', v') :: dict_set d' k v
  end.

(** [v[k]] for a text key [k]. *)
Definition getitem (v : pyval) (k : str) : result pyval :=
  match v with
  | VDict d => match dict_get d k with
               | Some x => Ok x
               | None => Raise KeyError
               end
  | _ => Raise TypeError
  end.

(** [v[k] = x] for a text key [k]. *)
Definition setitem (v : pyval) (k : str) (x : pyval) : result pyval :=
  match v with
  | VDict d => Ok (VDict (dict_set d k x))
  | _ => Raise TypeError
  end.

(** The items [for b in v] goes through: the elements of a list, the keys
    of a dict, the characters of a text. *)
Definition py_iter (v : pyval) : result (list pyval) :=
  match v with
  | VList l => Ok l
  | VDict d => Ok (List.map (fun kv => VStr (fst kv)) d)
  | VStr s => Ok (List.map (fun c => VStr [c]) s)
  | _ => Raise TypeError
  end.

(** [len(v)] *)
Definition py_len (v : pyval) : result Z :=
  match v with
  | VList l => Ok (Z.of_nat (length l))
  | VDict d => Ok (Z.of_nat (length d))
  | VStr s => Ok (Z.of_nat (length s))
  | _ => Raise TypeError
  end.

(** Position a list index [i] denotes in a list of [n] items: a negative
    index counts from the end, and an index outside [-n, n) denotes none. *)
Definition py_index (i : Z) (n : nat) : option nat :=
  if (0 <=? i) && (i <? Z.of_nat n) then Some (Z.to_nat i)
  else if (- Z.of_nat n <=? i) && (i <? 0) then Some (Z.to_nat (Z.of_nat n + i))
  else None.

(** ** What the interpreter supplies

    Four library functions are taken as they come, since their tables and
    grammars are the interpreter's and not the script's: [str.lower], the
    parsing of a text by [int], [json.loads], and the text [json.dump]
    writes with [indent=4]. *)
Class Runtime : Type := {
  str_lower : str -> str;
  int_of_str : str -> option Z;
  json_loads : str -> result pyval;
  json_dumps : pyval -> str
}.

(** ** The world *)

(** What the script shows the user with [st.error] and [st.success]. *)
Inductive notice : Type :=
  | ErrorCorrupted   (* st.error: library.json is corrupted. Resetting the library. *)
  | SuccessAdded     (* st.success: Book added successfully! *)
  | SuccessRemoved.  (* st.success: Book removed successfully! *)

(** [library] is [st.session_state.library]; [file] is the text of
    [library.json], [None] while the file does not exist; [shown] lists
    the notices shown so far, oldest first.  The file is held as the
    text [file.read()] returns: a file whose bytes are no text, on which
    [file.read()] itself raises, is no world of this model. *)
Record world : Type := World {
  library : pyval;
  file : option str;
  shown : list notice
}.

Definition set_library (v : pyval) (w : world) : world :=
  World v (file w) (shown w).

Definition show (n : notice) (w : world) : world :=
  World (library w) (file w) (shown w ++ [n]).

(** The keys of a book. *)
Definition k_title : str := Eval cbv in lit "title".
Definition k_author : str := Eval cbv in lit "author".
Definition k_publication_year : str := Eval cbv in lit "publication_year".
Definition k_genre : str := Eval cbv in lit "genre".
Definition k_read_status : str := Eval cbv in lit "read_status".
Definition k_added_date : str := Eval cbv in lit "added_date".

Definition or_raise {A} (e : exn) (o : option A) : result A :=
  match o with
  | Some a => Ok a
  | None => Raise e
  end.

(** A list comprehension [[x for x in l if p(x)]] whose condition can
    raise: the first exception ends it. *)
Fixpoint filter_result {A} (p : A -> result bool) (l : list A)
  : result (list A) :=
  match l with
  | [] => Ok []
  | x :: l' =>
      b ← p x;
      r ← filter_result p l';
      Ok (if b : bool then x :: r else r)
  end.

(** ** Counting dicts

    [c[k] = c.get(k, 0) + 1] on a dict kept as its items in insertion
    order: a present key keeps its place and its count grows by one, a new
    key goes last with count 1. *)
Fixpoint counter_incr {K} (eqb : K -> K -> bool) (c : list (K * Z)) (k : K)
  : list (K * Z) :=
  match c with
  | [] => [(k, 1)]
  | (k', n) :: c' =>
      if eqb k' k then (k', n + 1) :: c'
      else (k', n) :: counter_incr eqb c' k
  end.

Fixpoint counter_get {K} (eqb : K -> K -> bool) (c : list (K * Z)) (k : K)
  : option Z :=
  match c with
  | [] => None
  | (k', n) :: c' => if eqb k' k then Some n else counter_get eqb c' k
  end.

(** Lists and dicts cannot be dict keys. *)
Definition hashable (v : pyval) : bool :=
  match v with
  | VList _ | VDict _ => false
  | _ => true
  end.

Definition as_int (v : pyval) : option Z :=
  match v with
  | VBool b => Some (if b then 1 else 0)
  | VInt z => Some z
  | _ => None
  end.

(** Whether two hashable values are the same dict key.  Numbers compare by
    value across bool, int and float. *)
Definition key_eqb (a b : pyval) : bool :=
  match a, b with
  | VNone, VNone => true
  | VStr s, VStr t => str_eqb s t
  | VFloat x, VFloat y => float_eq x y
  | VFloat x, _ => match as_int b with
                   | Some z => float_eq_int x z
                   | None => false
                   end
  | _, VFloat y => match as_int a with
                   | Some z => float_eq_int y z
                   | None => false
                   end
  | _, _ => match as_int a, as_int b with
            | Some x, Some y => x =? y
            | _, _ => false
            end
  end.

(** [c[k] = c.get(k, 0) + 1] for a key that is any value. *)
Definition count_key (c : list (pyval * Z)) (k : pyval)
  : result (list (pyval * Z)) :=
  if hashable k then Ok (counter_incr key_eqb c k) else Raise TypeError.

(** What [get_library_stats] returns. *)
Record stats : Type := Stats {
  total : Z;
  read : Z;
  percent : pyval;
  genres : list (pyval * Z);
  authors : list (pyval * Z);
  decades : list (Z * Z)
}.

Section Program.
Context {RT : Runtime}.

(** *** Store *)

(** [save_library]: the file is opened for writing, which empties it, and
    receives the whole library. *)
Definition save_library (w : world) : world :=
  World (library w) (Some (json_dumps (library w))) (shown w).

(** [load_library] *)
Definition load_library (w : world) : result world :=
  match file w with
  | Some text =>
      let content := strip text in
      match content with
      | _ :: _ =>
          match json_loads content with
          | Ok v => Ok (set_library v w)
          | Raise JSONDecodeError =>
              Ok (save_library (set_library (VList []) (show ErrorCorrupted w)))
          | Raise e => Raise e
          end
      | [] => Ok (set_library (VList []) w)
      end
  | None => Ok (set_library (VList []) w)
  end.

(** *** Catalog operations *)

(** The dict [add_book] builds; [now] is
    [datetime.now().strftime("%Y-%m-%d %H:%M:%S")]. *)
Definition new_book (now : str) (title author publication_year genre
                                 read_status : pyval) : pyval :=
  VDict [ (k_title, title);
          (k_author, author);
          (k_publication_year, publication_year);
          (k_genre, genre);
          (k_read_status, read_status);
          (k_added_date, VStr now) ].

(** [add_book(title, author, publication_year, genre, read_status)], run
    when the clock reads [now]. *)
Definition add_book (now : str) (title author publication_year genre
                                 read_status : pyval) (w : world)
  : result world :=
  match library w with
  | VList l =>
      let book := new_book now title author publication_year genre read_status in
      Ok (show SuccessAdded (save_library (set_library (VList (l ++ [book])) w)))
  | _ => Raise AttributeError
  end.

(** [remove_book(index)] *)
Definition remove_book (index : Z) (w : world) : result world :=
  match library w with
  | VList l =>
      k ← or_raise IndexError (py_index index (length l));
      Ok (show SuccessRemoved (save_library (set_library (VList (delete k l)) w)))
  | VDict _ => Raise KeyError
  | _ => Raise TypeError
  end.

(** The toggle button of the "View Library" page, pressed on the card the
    loop [for i, book in enumerate(library)] draws at [i]. *)
Definition toggle_read_status (i : nat) (w : world) : result world :=
  items ← py_iter (library w);
  book ← or_raise IndexError (items !! i);
  status ← getitem book k_read_status;
  let new_status := VBool (negb (truthy status)) in
  match library w with
  | VList l =>
      book' ← setitem book k_read_status new_status;
      Ok (save_library (set_library (VList (<[i:=book']> l)) w))
  | _ => Raise TypeError
  end.

(** [v.lower()] *)
Definition py_lower (v : pyval) : result str :=
  match v with
  | VStr s => Ok (str_lower s)
  | _ => Raise AttributeError
  end.

(** The condition of the comprehension in [search_books]:
    [term.lower() in book[by].lower()]. *)
Definition search_hit (term by_ : str) (book : pyval) : result bool :=
  let needle := str_lower term in
  v ← getitem book by_;
  hay ← py_lower v;
  Ok (str_contains needle hay).

(** [search_books(term, by)] *)
Definition search_books (term by_ : str) (w : world) : result (list pyval) :=
  items ← py_iter (library w);
  filter_result (search_hit term by_) items.

(** *** Statistics *)

(** [int(v)] *)
Definition py_int (v : pyval) : result Z :=
  match v with
  | VInt z => Ok z
  | VBool b => Ok (if b then 1 else 0)
  | VFloat FNan => Raise ValueError
  | VFloat (FInf _) => Raise OverflowError
  | VFloat f => or_raise OverflowError (float_trunc f)
  | VStr s => or_raise ValueError (int_of_str s)
  | VNone | VList _ | VDict _ => Raise TypeError
  end.

(** [sum(1 for b in library if b["read_status"])] *)
Fixpoint count_read (items : list pyval) : result Z :=
  match items with
  | [] => Ok 0
  | b :: rest =>
      v ← getitem b k_read_status;
      n ← count_read rest;
      Ok (if truthy v then 1 + n else n)
  end.

(** The body of the [try]: [(int(b["publication_year"]) // 10) * 10]. *)
Definition decade_of (b : pyval) : result Z :=
  y ← getitem b k_publication_year;
  n ← py_int y;
  Ok (n / 10 * 10).

(** One turn of the loop of [get_library_stats] over the three dicts. *)
Definition stats_step (b : pyval)
    (acc : list (pyval * Z) * list (pyval * Z) * list (Z * Z))
  : result (list (pyval * Z) * list (pyval * Z) * list (Z * Z)) :=
  let '(gs, aus, ds) := acc in
  g ← getitem b k_genre;
  gs' ← count_key gs g;
  a ← getitem b k_author;
  aus' ← count_key aus a;
  match decade_of b with
  | Ok d => Ok (gs', aus', counter_incr Z.eqb ds d)
  | Raise _ => Ok (gs', aus', ds)
  end.

Fixpoint stats_loop (items : list pyval)
    (acc : list (pyval * Z) * list (pyval * Z) * list (Z * Z))
  : result (list (pyval * Z) * list (pyval * Z) * list (Z * Z)) :=
  match items with
  | [] => Ok acc
  | b :: rest => acc' ← stats_step b acc; stats_loop rest acc'
  end.

(** [round((read / total * 100) if total > 0 else 0, 1)] *)
Definition percent_of (read total : Z) : result pyval :=
  if 0 <? total then
    q ← int_truediv read total;
    Ok (VFloat (float_round1 (float_mul q (float_of_int 100))))
  else Ok (VInt 0).

(** [get_library_stats()] *)
Definition get_library_stats (w : world) : result stats :=
  total ← py_len (library w);
  items ← py_iter (library w);
  read ← count_read items;
  '(gs, aus, ds) ← stats_loop items ([], [], []);
  pct ← percent_of read total;
  Ok (Stats total read pct gs aus ds).

End Program.

(** ** A reference runtime

    One concrete [Runtime], used to run the program on examples: the ASCII
    part of [str.lower] and of [int], and a JSON reader and writer.  The
    writer lays a value out as [json.dump(..., indent=4)] does; it writes a
    float with all of its decimal digits, where Python stops at the
    shortest run that reads back. *)
Module Ref.

Definition lower_char (c : N) : N :=
  if ((65 <=? c) && (c <=? 90))%N then (c + 32)%N else c.

Definition lower (s : str) : str := List.map lower_char s.

Definition digit_of (c : N) : option Z :=
  if ((48 <=? c) && (c <=? 57))%N then Some (Z.of_N c - 48) else None.

(** Digits with single underscores between them, after the first digit. *)
Fixpoint digits_tail (acc : Z) (s : str) : option Z :=
  match s with
  | [] => Some acc
  | c :: s' =>
      if (c =? 95)%N then
        match s' with
        | c' :: s'' =>
            match digit_of c' with
            | Some d => digits_tail (10 * acc + d) s''
            | None => None
            end
        | [] => None
        end
      else match digit_of c with
           | Some d => digits_tail (10 * acc + d) s'
           | None => None
           end
  end.

Definition digits (s : str) : option Z :=
  match s with
  | c :: s' => match digit_of c with
               | Some d => digits_tail d s'
               | None => None
               end
  | [] => None
  end.

(** The white space [int] drops around a literal: what [str.isspace]
    accepts, the four ASCII separators U+001C to U+001F apart. *)
Definition int_space (c : N) : bool :=
  py_isspace c && negb ((28 <=? c) && (c <=? 31))%N.

Fixpoint ltrim (s : str) : str :=
  match s with
  | c :: s' => if int_space c then ltrim s' else s
  | [] => []
  end.

(** [int(s)] for an ASCII decimal literal: white space around it, a sign,
    digits. *)
Definition int_of_str (s : str) : option Z :=
  match rev (ltrim (rev (ltrim s))) with
  | 43%N :: r => digits r
  | 45%N :: r => Z.opp <$> digits r
  | r => digits r
  end.

(** *** Writing *)

Definition str_of_Z (z : Z) : str :=
  lit (DecimalString.NilZero.string_of_int (Z.to_int z)).

Definition hex_digit (n : N) : N :=
  if (n <? 10)%N then (48 + n)%N else (87 + n)%N.

Definition hex4 (n : N) : str :=
  [ hex_digit (n / 4096 mod 16); hex_digit (n / 256 mod 16);
    hex_digit (n / 16 mod 16); hex_digit (n mod 16) ]%N.

Definition escape_u (n : N) : str := lit "\u" ++ hex4 n.

(** One character of a text inside its quotes ([ensure_ascii=True]). *)
Definition escape_char (c : N) : str :=
  if (c =? 34)%N then [92; 34]%N
  else if (c =? 92)%N then lit "\\"
  else if (c =? 10)%N then lit "\n"
  else if (c =? 13)%N then lit "\r"
  else if (c =? 9)%N then lit "\t"
  else if (c =? 8)%N then lit "\b"
  else if (c =? 12)%N then lit "\f"
  else if ((32 <=? c) && (c <=? 126))%N then [c]
  else if (c <? 65536)%N then escape_u c
  else let v := (c - 65536)%N in
       escape_u (55296 + v / 1024 mod 1024) ++ escape_u (56320 + v mod 1024).

Definition quote (s : str) : str :=
  [34%N] ++ concat (List.map escape_char s) ++ [34%N].

Fixpoint pad_zeros (n : nat) (s : str) : str :=
  match n with
  | O => s
  | S n' => if (length s <? n)%nat then pad_zeros n' (48%N :: s) else s
  end.

Definition str_of_float (f : pyfloat) : str :=
  match f with
  | FNan => lit "NaN"
  | FInf false => lit "Infinity"
  | FInf true => lit "-Infinity"
  | FFin s m e =>
      (if s then [45%N] else []) ++
      (if 0 <=? e then str_of_Z (Z.of_N m * 2 ^ e) ++ lit ".0"
       else
         let k := Z.to_nat (- e) in
         let n := Z.of_N m * 5 ^ (- e) in
         str_of_Z (n / 10 ^ (- e)) ++ [46%N] ++
         pad_zeros k (str_of_Z (n mod 10 ^ (- e))))
  end.

(** A line break and the indentation of nesting depth [depth]. *)
Definition newline_indent (depth : nat) : str :=
  10%N :: repeat 32%N (4 * depth).

Fixpoint dumps_at (depth : nat) (v : pyval) {struct v} : str :=
  match v with
  | VNone => lit "null"
  | VBool true => lit "true"
  | VBool false => lit "false"
  | VInt z => str_of_Z z
  | VFloat f => str_of_float f
  | VStr s => quote s
  | VList [] => lit "[]"
  | VList (x :: l) =>
      [91%N] ++ newline_indent (S depth) ++ dumps_at (S depth) x ++
      (fix rest (l : list pyval) : str :=
         match l with
         | [] => []
         | y :: l' =>
             [44%N] ++ newline_indent (S depth) ++ dumps_at (S depth) y ++ rest l'
         end) l ++
      newline_indent depth ++ [93%N]
  | VDict [] => lit "{}"
  | VDict ((k, x) :: d) =>
      [123%N] ++ newline_indent (S depth) ++
      quote k ++ lit ": " ++ dumps_at (S depth) x ++
      (fix rest (d : list (str * pyval)) : str :=
         match d with
         | [] => []
         | (k', y) :: d' =>
             [44%N] ++ newline_indent (S depth) ++
             quote k' ++ lit ": " ++ dumps_at (S depth) y ++ rest d'
         end) d ++
      newline_indent depth ++ [125%N]
  end.

Definition dumps (v : pyval) : str := dumps_at 0 v.

(** *** Reading *)

(** The white space JSON allows between tokens. *)
Definition json_ws (c : N) : bool :=
  ((c =? 32) || (c =? 9) || (c =? 10) || (c =? 13))%N.

Fixpoint skip_ws (s : str) : str :=
  match s with
  | c :: s' => if json_ws c then skip_ws s' else s
  | [] => []
  end.

Definition hex_value (c : N) : option N :=
  if ((48 <=? c) && (c <=? 57))%N then Some (c - 48)%N
  else if ((97 <=? c) && (c <=? 102))%N then Some (c - 87)%N
  else if ((65 <=? c) && (c <=? 70))%N then Some (c - 55)%N
  else None.

Definition read_hex4 (s : str) : option (N * str) :=
  match s with
  | a :: b :: c :: d :: r =>
      a ← hex_value a; b ← hex_value b; c ← hex_value c; d ← hex_value d;
      Some (4096 * a + 256 * b + 16 * c + d, r)%N
  | _ => None
  end.

(** The character a one-letter escape stands for. *)
Definition unescape (c : N) : option N :=
  if (c =? 34)%N then Some 34%N
  else if (c =? 92)%N then Some 92%N
  else if (c =? 47)%N then Some 47%N
  else if (c =? 98)%N then Some 8%N
  else if (c =? 102)%N then Some 12%N
  else if (c =? 110)%N then Some 10%N
  else if (c =? 114)%N then Some 13%N
  else if (c =? 116)%N then Some 9%N
  else None.

(** The rest of a text after its opening quote, up to the closing one.  A
    high surrogate escape followed by a low one is one character. *)
Fixpoint read_string (fuel : nat) (s : str) : option (str * str) :=
  match fuel with
  | O => None
  | S fuel' =>
      match s with
      | [] => None
      | 34%N :: r => Some ([], r)
      | 92%N :: 117%N :: r =>
          '(hi, r1) ← read_hex4 r;
          let pair :=
            if ((55296 <=? hi) && (hi <=? 56319))%N then
              match r1 with
              | 92%N :: 117%N :: r2 =>
                  '(lo, r3) ← read_hex4 r2;
                  if ((56320 <=? lo) && (lo <=? 57343))%N
                  then Some (65536 + (hi - 55296) * 1024 + (lo - 56320), r3)%N
                  else None
              | _ => None
              end
            else None in
          let '(c, r') := default (hi, r1) pair in
          '(t, r'') ← read_string fuel' r';
          Some (c :: t, r'')
      | 92%N :: e :: r =>
          c ← unescape e;
          '(t, r') ← read_string fuel' r;
          Some (c :: t, r')
      | c :: r =>
          if (c <? 32)%N || (c =? 92)%N then None
          else '(t, r') ← read_string fuel' r; Some (c :: t, r')
      end
  end.

Fixpoint span_digits (s : str) : str * str :=
  match s with
  | c :: s' =>
      match digit_of c with
      | Some _ => let '(ds, r) := span_digits s' in (c :: ds, r)
      | None => ([], s)
      end
  | [] => ([], [])
  end.

Definition Z_of_digits (ds : str) : Z :=
  fold_left (fun acc c => 10 * acc + default 0 (digit_of c)) ds 0.

(** The integer part of a number: [0], or digits that do not start
    with 0. *)
Definition read_int_part (s : str) : option (str * str) :=
  match s with
  | 48%N :: r => Some ([48%N], r)
  | _ => match span_digits s with
         | ([], _) => None
         | p => Some p
         end
  end.

(** A fraction [.ddd] or an exponent [e+dd] is part of the number only
    when it is complete. *)
Definition read_frac (s : str) : option (str * str) :=
  match s with
  | 46%N :: r => match span_digits r with
                 | ([], _) => None
                 | p => Some p
                 end
  | _ => None
  end.

Definition read_exp (s : str) : option (Z * str) :=
  match s with
  | c :: r =>
      if (c =? 101)%N || (c =? 69)%N then
        let '(sign, r1) :=
          match r with
          | 43%N :: r1 => (1, r1)
          | 45%N :: r1 => (-1, r1)
          | _ => (1, r)
          end in
        match span_digits r1 with
        | ([], _) => None
        | (ds, r2) => Some (sign * Z_of_digits ds, r2)
        end
      else None
  | [] => None
  end.

Definition read_number (s : str) : option (pyval * str) :=
  let '(neg, s1) := match s with
                    | 45%N :: r => (true, r)
                    | _ => (false, s)
                    end in
  '(ip, s2) ← read_int_part s1;
  let '(fp, s3) := default ([], s2) (read_frac s2) in
  let ex := read_exp s3 in
  match fp, ex with
  | [], None =>
      let z := Z_of_digits ip in Some (VInt (if neg then - z else z), s3)
  | _, _ =>
      let '(e, s4) := default (0, s3) ex in
      let n := Z_of_digits (ip ++ fp) in
      let e10 := e - Z.of_nat (length fp) in
      Some (VFloat (if 0 <=? e10 then b64_round neg (n * 10 ^ e10) 1
                    else b64_round neg n (10 ^ (- e10))), s4)
  end.

Fixpoint parse_value (fuel : nat) (s : str) : option (pyval * str) :=
  match fuel with
  | O => None
  | S fuel' =>
      match s with
      | 34%N :: r => '(t, r') ← read_string (length r) r; Some (VStr t, r')
      | 91%N :: r =>
          match skip_ws r with
          | 93%N :: r' => Some (VList [], r')
          | r' => parse_array fuel' r' []
          end
      | 123%N :: r =>
          match skip_ws r with
          | 125%N :: r' => Some (VDict [], r')
          | r' => parse_object fuel' r' []
          end
      | _ =>
          if starts_with (lit "null") s then Some (VNone, drop 4 s)
          else if starts_with (lit "true") s then Some (VBool true, drop 4 s)
          else if starts_with (lit "false") s then Some (VBool false, drop 5 s)
          else if starts_with (lit "NaN") s then Some (VFloat FNan, drop 3 s)
          else if starts_with (lit "Infinity") s
               then Some (VFloat (FInf false), drop 8 s)
          else if starts_with (lit "-Infinity") s
               then Some (VFloat (FInf true), drop 9 s)
          else read_number s
      end
  end
with parse_array (fuel : nat) (s : str) (acc : list pyval)
  : option (pyval * str) :=
  match fuel with
  | O => None
  | S fuel' =>
      '(v, r) ← parse_value fuel' s;
      match skip_ws r with
      | 44%N :: r' => parse_array fuel' (skip_ws r') (acc ++ [v])
      | 93%N :: r' => Some (VList (acc ++ [v]), r')
      | _ => None
      end
  end
with parse_object (fuel : nat) (s : str) (acc : list (str * pyval))
  : option (pyval * str) :=
  match fuel with
  | O => None
  | S fuel' =>
      match s with
      | 34%N :: r =>
          '(k, r1) ← read_string (length r) r;
          match skip_ws r1 with
          | 58%N :: r2 =>
              '(v, r3) ← parse_value fuel' (skip_ws r2);
              match skip_ws r3 with
              | 44%N :: r4 => parse_object fuel' (skip_ws r4) (dict_set acc k v)
              | 125%N :: r4 => Some (VDict (dict_set acc k v), r4)
              | _ => None
              end
          | _ => None
          end
      | _ => None
      end
  end.

(** [json.loads]: one value, white space around it, nothing else. *)
Definition loads (s : str) : result pyval :=
  match parse_value (2 + length s) (skip_ws s) with
  | Some (v, r) => match skip_ws r with
                   | [] => Ok v
                   | _ => Raise JSONDecodeError
                   end
  | None => Raise JSONDecodeError
  end.

Definition runtime : Runtime := Build_Runtime lower int_of_str loads dumps.

End Ref.

(** ** Mutations

    The three ways the script changes the collection, as one type, so that
    a statement can range over all of them. *)
Inductive mutation : Type :=
  | MAdd (now : str) (title author publication_year genre read_status : pyval)
  | MRemove (index : Z)
  | MToggle (i : nat).

Definition apply_mutation {RT : Runtime} (m : mutation) (w : world) : result world :=
  match m with
  | MAdd now t a y g r => add_book now t a y g r w
  | MRemove index => remove_book index w
  | MToggle i => toggle_read_status i w
  end.

(** ** The data model, as the specification words it *)

Definition is_text (o : option pyval) : bool :=
  match o with Some (VStr _) => true | _ => false end.

Definition is_flag (o : option pyval) : bool :=
  match o with Some (VBool _) => true | _ => false end.

Definition is_whole (o : option pyval) : bool :=
  match o with Some (VInt _) => true | _ => false end.

(** A record the catalog can search and count: a dict whose title,
    author and genre are texts and whose read status is a boolean.
    Nothing is asked of the year. *)
Definition book_shaped (b : pyval) : bool :=
  match b with
  | VDict d =>
      is_text (dict_get d k_title) && is_text (dict_get d k_author)
      && is_text (dict_get d k_genre) && is_flag (dict_get d k_read_status)
  | _ => false
  end.

Definition book_keys : list str :=
  [k_title; k_author; k_publication_year; k_genre; k_read_status; k_added_date].

(** A Book record: the six fields and no other, the year an integer and
    the date of addition a text. *)
Definition is_book (b : pyval) : bool :=
  match b with
  | VDict d =>
      book_shaped b
      && forallb (fun k => bool_decide (k ∈ book_keys)) (List.map fst d)
      && is_whole (dict_get d k_publication_year)
      && is_text (dict_get d k_added_date)
  | _ => false
  end.

(** The fields the search page offers. *)
Definition recognized_fields : list str := [k_title; k_author; k_genre].

(** The fields of a Book record that hold text. *)
Definition text_fields : list str := [k_title; k_author; k_genre; k_added_date].

(** How many items of [l] pass [p]. *)
Definition count_if {A} (p : A -> bool) (l : list A) : Z :=
  Z.of_nat (length (List.filter p l)).

(** What a counting dict answers for a key counted [n] times: the count,
    and no entry at all for a key never met. *)
Definition some_positive (n : Z) : option Z :=
  if 0 <? n then Some n else None.

(** Every key of a counting dict satisfies [P]; every count is positive. *)
Definition keys_in {K} (P : K -> Prop) (c : list (K * Z)) : Prop :=
  Forall (fun kv => P (fst kv)) c.

Definition counts_positive {K} (c : list (K * Z)) : Prop :=
  Forall (fun kv => 0 < snd kv) c.

(** The sum of the counts of a counting dict. *)
Definition counter_total {K} (c : list (K * Z)) : Z :=
  fold_right Z.add 0 (List.map snd c).

(** The counting dict a run of keys builds, one [counter_incr] a key. *)
Definition tally {K} (eqb : K -> K -> bool) (ks : list K) (c : list (K * Z))
  : list (K * Z) :=
  fold_left (counter_incr eqb) ks c.

(** The values the records of [l] hold under field [k]. *)
Definition field_values (k : str) (l : list pyval) : list pyval :=
  omap (fun b => match getitem b k with
                 | Ok v => Some v
                 | Raise _ => None
                 end) l.

(** The record is marked as read. *)
Definition is_read (b : pyval) : bool :=
  match getitem b k_read_status with
  | Ok v => truthy v
  | Raise _ => false
  end.

(** The record's field [k] is the text [s]. *)
Definition field_is (k s : str) (b : pyval) : bool :=
  match getitem b k with
  | Ok (VStr t) => str_eqb t s
  | _ => false
  end.

(** The greatest multiple of ten that does not exceed [n]. *)
Definition floor10 (d n : Z) : Prop := d mod 10 = 0 /\ d <= n < d + 10.

(** The record's year reads as an integer of decade [d]. *)
Definition in_decade {RT : Runtime} (d : Z) (b : pyval) : bool :=
  match getitem b k_publication_year with
  | Ok y => match py_int y with
            | Ok n => bool_decide (floor10 d n)
            | Raise _ => false
            end
  | Raise _ => false
  end.

(** The record's year reads as an integer at all. *)
Definition year_readable {RT : Runtime} (b : pyval) : bool :=
  match getitem b k_publication_year with
  | Ok y => match py_int y with
            | Ok _ => true
            | Raise _ => false
            end
  | Raise _ => false
  end.

(** The decades of the records of [l] whose year reads as an integer. *)
Definition decade_values {RT : Runtime} (l : list pyval) : list Z :=
  omap (fun b => match decade_of b with
                 | Ok d => Some d
                 | Raise _ => None
                 end) l.

(** A record matches a search when the value of the field, lowered,
    holds the lowered term as a contiguous run. *)
Definition contains_ci {RT : Runtime} (term by_ : str) (b : pyval) : Prop :=
  exists v pre post,
    getitem b by_ = Ok (VStr v) /\ str_lower v = pre ++ str_lower term ++ post.

(** ** Rounding, as the specification has it

    The specification gives [percent] as the percentage "rounded to 1
    decimal".  The percentage of [r] read among [t] is the fraction
    [100 * r / t]; rounded to a whole number of tenths it is the nearer
    of the two whole numbers about [1000 * r / t], and a [tie] says where
    a percentage exactly halfway between two tenths goes: up, down, to
    the even or to the odd tenth. *)
Inductive tie : Type := TieUp | TieDown | TieEven | TieOdd.

Definition rounded_tenths (rule : tie) (r t : Z) : Z :=
  let lo := (1000 * r) / t in
  let twice := 2 * ((1000 * r) mod t) in
  if twice <? t then lo
  else if t <? twice then lo + 1
  else match rule with
       | TieUp => lo + 1
       | TieDown => lo
       | TieEven => if Z.even lo then lo else lo + 1
       | TieOdd => if Z.odd lo then lo else lo + 1
       end.

(** ** Case, as the specification has it

    The specification speaks of a field that contains the term "as a
    substring case-insensitively".  For the letters of ASCII that has one
    meaning, written here without any lowering: some stretch of the
    field, as long as the term, agrees with the term character by
    character, where an upper-case letter agrees with itself and with
    its lower-case letter. *)

Definition is_ascii (s : str) : Prop := Forall (fun c => (c < 128)%N) s.

Definition upper_latin (c : N) : bool := ((65 <=? c) && (c <=? 90))%N.

Definition same_letter (a b : N) : bool :=
  ((a =? b) || upper_latin a && (b =? a + 32)
   || upper_latin b && (a =? b + 32))%N.

Definition occurs_ci (term text : str) : Prop :=
  exists pre mid post,
    text = pre ++ mid ++ post
    /\ Forall2 (fun a b => same_letter a b = true) term mid.

(** ** [str.lower] beyond ASCII

    CPython lowers a text one code point at a time from the Unicode
    tables, but for one letter: the capital sigma U+03A3 becomes the
    final sigma U+03C2 when a cased letter stands before it and none
    after it, case-ignorable characters between them set aside, and the
    small sigma U+03C3 otherwise.  Here the tables are cut down to the
    Latin letters of ASCII and the Greek letters U+0391 to U+03C9; the
    case-ignorable characters of ASCII are the apostrophe, the full
    stop, the colon, the circumflex and the grave accent. *)
Module Greek.

Definition upper (c : N) : bool :=
  ((65 <=? c) && (c <=? 90)
   || (913 <=? c) && (c <=? 937) && negb (c =? 930))%N.

Definition cased (c : N) : bool :=
  (upper c || (97 <=? c) && (c <=? 122) || (945 <=? c) && (c <=? 969))%N.

Definition case_ignorable (c : N) : bool :=
  ((c =? 39) || (c =? 46) || (c =? 58) || (c =? 94) || (c =? 96))%N.

Definition lower_char (c : N) : N := if upper c then (c + 32)%N else c.

(** The first character of [s] that is not case-ignorable is cased. *)
Fixpoint cased_next (s : str) : bool :=
  match s with
  | [] => false
  | c :: s' => if case_ignorable c then cased_next s' else cased c
  end.

(** [before] holds the characters already passed, the nearest first. *)
Fixpoint lower_from (before s : str) : str :=
  match s with
  | [] => []
  | c :: s' =>
      (if (c =? 931)%N
       then if cased_next before && negb (cased_next s') then 962%N else 963%N
       else lower_char c)
      :: lower_from (c :: before) s'
  end.

Definition lower (s : str) : str := lower_from [] s.

Definition runtime : Runtime :=
  Build_Runtime lower Ref.int_of_str Ref.loads Ref.dumps.

End Greek.

(** ** Sample collections *)

Definition dune : pyval :=
  new_book (lit "2025-03-01 10:00:00") (VStr (lit "Dune")) (VStr (lit "Herbert"))
           (VInt 1965) (VStr (lit "Science")) (VBool true).

Definition hobbit : pyval :=
  new_book (lit "2025-03-02 09:30:00") (VStr (lit "The Hobbit"))
           (VStr (lit "Tolkien")) (VInt 1937) (VStr (lit "Fantasy")) (VBool false).

(** A record as a hand-edited file can hold it: the year is not a number. *)
Definition undated : pyval :=
  new_book (lit "2025-03-03 08:00:00") (VStr (lit "Beowulf"))
           (VStr (lit "Anonymous")) (VStr (lit "unknown")) (VStr (lit "Poetry"))
           (VBool true).

(** A title in Greek capitals: alpha, sigma, tau, rho, alpha. *)
Definition astra : pyval :=
  new_book (lit "2025-03-06 11:00:00") (VStr [913; 931; 932; 929; 913]%N)
           (VStr (lit "Anonymous")) (VInt 1900) (VStr (lit "Poetry"))
           (VBool false).

Definition shelf (l : list pyval) : world := World (VList l) None [].

(** A collection of [n] books read and [m] books not read. *)
Definition read_and_unread (n m : nat) : list pyval :=
  replicate n dune ++ replicate m hobbit.

Definition on_disk (text : str) : world := World (VList []) (Some text) [].

Definition add_hobbit : mutation :=
  MAdd (lit "2025-03-02 09:30:00") (VStr (lit "The Hobbit"))
       (VStr (lit "Tolkien")) (VInt 1937) (VStr (lit "Fantasy")) (VBool false).

(** Two concrete texts differ; a concrete text is in none of a concrete
    list. *)
Ltac differ := let H := fresh in intros H; vm_compute in H; discriminate H.
Ltac not_listed :=
  repeat (apply not_elem_of_cons; split; [differ|]); apply not_elem_of_nil.

(** ** The pages of the script

    What the script does between [load_library()] and its last line: the
    four pages of the sidebar, the charts and the list of top authors. *)

(** The lookups the card of a book makes, in the order of its f-string. *)
Definition render_card (book : pyval) : result unit :=
  _ ← getitem book k_title;
  _ ← getitem book k_author;
  _ ← getitem book k_publication_year;
  _ ← getitem book k_genre;
  _ ← getitem book k_read_status;
  _ ← getitem book k_read_status;
  Ok tt.

Fixpoint render_cards (books : list pyval) : result unit :=
  match books with
  | [] => Ok tt
  | book :: rest => _ ← render_card book; render_cards rest
  end.

(** The one button of the "View Library" page that the user pressed to
    start this run, if any: [st.button] is true for that button only. *)
Inductive button : Type :=
  | RemoveButton (i : nat)
  | ToggleButton (i : nat).

Definition is_remove (pressed : option button) (i : nat) : bool :=
  match pressed with
  | Some (RemoveButton j) => Nat.eqb i j
  | _ => false
  end.

Definition is_toggle (pressed : option button) (i : nat) : bool :=
  match pressed with
  | Some (ToggleButton j) => Nat.eqb i j
  | _ => false
  end.

(** [str(z)] for an int, as an f-string writes it. *)
Definition py_str_int (z : Z) : str := Ref.str_of_Z z.

(** What goes into a chart: the labels or abscissas, and the counts. *)
Inductive chart : Type :=
  | Pie (labels : list str) (values : list Z)
  | Bar (genre : list pyval) (count : list Z)
  | Line (decade : list str) (count : list Z).

(** [create_visualizations(stats)]: the charts it draws, in order. *)
Definition create_visualizations (st : stats) : list chart :=
  [Pie [lit "Read"; lit "Unread"] [read st; total st - read st]]
  ++ match genres st with
     | [] => []
     | _ :: _ => [Bar (List.map fst (genres st)) (List.map snd (genres st))]
     end
  ++ match decades st with
     | [] => []
     | _ :: _ =>
         [Line (List.map (fun kv => py_str_int (fst kv) ++ lit "s") (decades st))
               (List.map snd (decades st))]
     end.

(** [sorted(items, key=lambda x: x[1], reverse=True)]: Python's sort is
    stable, also when reversed, so items of equal count keep the order
    they came in.  The insertion sort below is that order. *)
Fixpoint insert_desc {K} (x : K * Z) (l : list (K * Z)) : list (K * Z) :=
  match l with
  | [] => [x]
  | y :: l' => if snd y <=? snd x then x :: l else y :: insert_desc x l'
  end.

Fixpoint sorted_desc {K} (l : list (K * Z)) : list (K * Z) :=
  match l with
  | [] => []
  | x :: l' => insert_desc x (sorted_desc l')
  end.

(** [dict(pairs)]: a later pair of a key already met overwrites its value
    where the key stands. *)
Fixpoint pairs_set (d : list (pyval * Z)) (k : pyval) (n : Z) : list (pyval * Z) :=
  match d with
  | [] => [(k, n)]
  | (k', n') :: d' =>
      if key_eqb k' k then (k', n) :: d' else (k', n') :: pairs_set d' k n
  end.

Definition dict_of_pairs (ps : list (pyval * Z)) : list (pyval * Z) :=
  fold_left (fun d kn => pairs_set d (fst kn) (snd kn)) ps [].

(** [dict(sorted(stats["authors"].items(), ...)[:5])] *)
Definition top_authors (st : stats) : list (pyval * Z) :=
  dict_of_pairs (take 5 (sorted_desc (authors st))).

(** ['s' if count > 1 else ''] *)
Definition plural (count : Z) : str := if 1 <? count then lit "s" else [].

(** What the "Library Stats" page shows when the library is not empty. *)
Record report : Type := Report {
  shown_stats : stats;
  shown_charts : list chart;
  shown_authors : list (pyval * Z * str)
}.

Section Pages.
Context {RT : Runtime}.

(** [st.session_state.library[i]["read_status"] = new_status] and the
    [save_library()] after it. *)
Definition assign_read_status (i : nat) (new_status : pyval) (w : world)
  : result world :=
  match library w with
  | VList l =>
      target ← or_raise IndexError (l !! i);
      target' ← setitem target k_read_status new_status;
      Ok (save_library (set_library (VList (<[i:=target']> l)) w))
  | VDict _ => Raise KeyError
  | VStr s => _ ← or_raise IndexError (s !! i); Raise TypeError
  | _ => Raise TypeError
  end.

(** The loop of the "View Library" page from card [i] on.  A pressed
    button ends the run with [st.rerun()]. *)
Fixpoint view_cards (pressed : option button) (i : nat) (items : list pyval)
    (w : world) : result world :=
  match items with
  | [] => Ok w
  | book :: rest =>
      _ ← render_card book;
      if is_remove pressed i then remove_book (Z.of_nat i) w
      else
        status ← getitem book k_read_status;
        let new_status := VBool (negb (truthy status)) in
        _ ← getitem book k_read_status;
        if is_toggle pressed i then assign_read_status i new_status w
        else view_cards pressed (S i) rest w
  end.

(** The "View Library" page. *)
Definition view_library (pressed : option button) (w : world) : result world :=
  if truthy (library w) then
    items ← py_iter (library w);
    view_cards pressed 0 items w
  else Ok w.

(** The "Add Book" page: [year] is what [st.number_input] returns for
    integer bounds, an int. *)
Definition add_form (submit : bool) (now title author : str) (year : Z)
    (genre status : str) (w : world) : result world :=
  if submit && truthy (VStr title) && truthy (VStr author) then
    add_book now (VStr title) (VStr author) (VInt year) (VStr genre)
             (VBool (str_eqb status (lit "Read"))) w
  else Ok w.

(** The "Search Books" page: the matches it lists, if it searched. *)
Definition search_page (clicked : bool) (term by_ : str) (w : world)
  : result (option (list pyval)) :=
  if clicked && truthy (VStr term) then
    results ← search_books term by_ w;
    _ ← render_cards results;
    Ok (Some results)
  else Ok None.

(** The "Library Stats" page. *)
Definition stats_page (w : world) : result (option report) :=
  if truthy (library w) then
    st ← get_library_stats w;
    Ok (Some (Report st (create_visualizations st)
                (List.map (fun an => (an, plural (snd an))) (top_authors st))))
  else Ok None.

(** One run of the script, started by what the user did on one page.
    The animation of the sidebar is left out: [load_lottieurl] catches
    every exception and touches neither the library nor the file. *)
Inductive event : Type :=
  | AddBookPage (submit : bool) (title author : str) (year : Z)
                (genre status : str)
  | ViewLibraryPage (pressed : option button)
  | SearchBooksPage (clicked : bool) (term by_ : str)
  | LibraryStatsPage.

Definition script_run (now : str) (ev : event) (w : world) : result world :=
  w1 ← load_library w;
  match ev with
  | AddBookPage submit title author year genre status =>
      add_form submit now title author year genre status w1
  | ViewLibraryPage pressed => view_library pressed w1
  | SearchBooksPage clicked term by_ =>
      _ ← search_page clicked term by_ w1; Ok w1
  | LibraryStatsPage => _ ← stats_page w1; Ok w1
  end.

(** A run of mutations, each on the world the one before left. *)
Fixpoint apply_mutations (ms : list mutation) (w : world) : result world :=
  match ms with
  | [] => Ok w
  | m :: ms' => w' ← apply_mutation m w; apply_mutations ms' w'
  end.

End Pages.

(** The record can be counted: it has a read status, a genre and an
    author, and genre and author can be keys of a dict. *)
Definition countable (b : pyval) : bool :=
  match getitem b k_read_status, getitem b k_genre, getitem b k_author with
  | Ok _, Ok g, Ok a => hashable g && hashable a
  | _, _, _ => false
  end.

(** The loop of the statistics can tally the record: genre and author
    are there and can be keys of a dict. *)
Definition tally_ready (b : pyval) : Prop :=
  exists g a, getitem b k_genre = Ok g /\ hashable g = true
              /\ getitem b k_author = Ok a /\ hashable a = true.

(** Counts fall from left to right. *)
Definition descending {K} (l : list (K * Z)) : Prop :=
  StronglySorted (fun x y => snd y <= snd x) l.

(** The record holds a text under the field. *)
Definition text_under (by_ : str) (b : pyval) : Prop :=
  exists v, getitem b by_ = Ok (VStr v).

(** The card of the record can be drawn: its five fields are there. *)
Definition drawable (b : pyval) : bool :=
  match render_card b with
  | Ok _ => true
  | Raise _ => false
  end.

(** What the user did can change nothing: no form submitted, no button
    of a card pressed. *)
Definition read_only (ev : event) : bool :=
  match ev with
  | AddBookPage submit _ _ _ _ _ => negb submit
  | ViewLibraryPage pressed => match pressed with None => true | Some _ => false end
  | SearchBooksPage _ _ _ | LibraryStatsPage => true
  end.

(** A mutation as the pages can start it: the form gives texts, an int
    and a boolean, and the buttons give positions. *)
Definition from_pages (m : mutation) : bool :=
  match m with
  | MAdd _ (VStr _) (VStr _) (VInt _) (VStr _) (VBool _) => true
  | MAdd _ _ _ _ _ _ => false
  | MRemove _ | MToggle _ => true
  end.

(** What a mutation adds to the number of records. *)
Definition growth (m : mutation) : Z :=
  match m with
  | MAdd _ _ _ _ _ _ => 1
  | MRemove _ => -1
  | MToggle _ => 0
  end.

(** The keys of a counting dict met so far, each once, in the order of
    first appearance. *)
Fixpoint first_seen {K} (eqb : K -> K -> bool) (seen : list K) (ks : list K)
  : list K :=
  match ks with
  | [] => seen
  | k :: ks' =>
      first_seen eqb
        (if existsb (fun k' => eqb k' k) seen then seen else seen ++ [k]) ks'
  end.

(** * Properties *)

(** ** Text *)

Lemma lstrip_nil_iff (s : str) : lstrip s = [] <-> blank s = true.
Proof.
  induction s as [|c s IH]; simpl; [tauto|].
  destruct (py_isspace c); simpl; [exact IH|].
  split; discriminate.
Qed.

Lemma blank_rev (s : str) : blank (rev s) = blank s.
Proof.
  unfold blank. induction s as [|c s IH]; simpl; [reflexivity|].
  rewrite forallb_app, IH. simpl. rewrite andb_true_r. apply andb_comm.
Qed.

Lemma blank_lstrip (s : str) : blank (lstrip s) = true -> lstrip s = [].
Proof.
  induction s as [|c s IH]; simpl; [reflexivity|].
  destruct (py_isspace c) eqn:E; [exact IH|].
  simpl. rewrite E. discriminate.
Qed.

(** [s.strip()] is empty exactly when [s] holds white space only. *)
Lemma strip_nil_iff (s : str) : strip s = [] <-> blank s = true.
Proof.
  unfold strip, rstrip. split.
  - intros H. apply (f_equal (@rev N)) in H. rewrite rev_involutive in H.
    simpl in H. apply lstrip_nil_iff in H. rewrite blank_rev in H.
    apply lstrip_nil_iff. now apply blank_lstrip.
  - intros H. apply lstrip_nil_iff in H. rewrite H. reflexivity.
Qed.

Section StoreFacts.
Context {RT : Runtime}.

Lemma library_save (w : world) : library (save_library w) = library w.
Proof. reflexivity. Qed.

Lemma file_save (w : world) :
  file (save_library w) = Some (json_dumps (library (save_library w))).
Proof. reflexivity. Qed.

(** C10: a file that exists and holds nothing but white space (or nothing
    at all) loads as the empty collection; no notice is shown and the file
    keeps its text, so the reset of a corrupted file is not what happens. *)
Theorem load_library_blank (w : world) (text : str) :
  file w = Some text ->
  blank text = true ->
  load_library w = Ok (World (VList []) (Some text) (shown w)).
Proof.
  intros Hf Hb. unfold load_library. rewrite Hf.
  apply strip_nil_iff in Hb. rewrite Hb. unfold set_library. now rewrite Hf.
Qed.

(** C2: a file whose text is more than white space and does not parse
    ([json.loads] raises [JSONDecodeError]) makes [load_library] return
    normally, with the corruption notice shown, the collection empty, and
    the file rewritten as the serialization of the empty list. *)
Theorem load_library_corrupted (w : world) (text : str) :
  file w = Some text ->
  blank text = false ->
  json_loads (strip text) = Raise JSONDecodeError ->
  load_library w =
    Ok (World (VList []) (Some (json_dumps (VList [])))
              (shown w ++ [ErrorCorrupted])).
Proof.
  intros Hf Hb Hp. unfold load_library. rewrite Hf.
  destruct (strip text) as [|c rest] eqn:Hs.
  - apply strip_nil_iff in Hs. congruence.
  - now rewrite Hp.
Qed.

Lemma load_library_blank_eq (w : world) (text : str) :
  file w = Some text -> blank text = true ->
  load_library w = Ok (World (VList []) (Some text) (shown w)).
Proof.
  intros Hf Hb. unfold load_library. rewrite Hf.
  apply strip_nil_iff in Hb. rewrite Hb. unfold set_library. now rewrite Hf.
Qed.

(** A file whose text parses loads as the parsed value, untouched. *)
Lemma load_library_parsed (w : world) (text : str) (v : pyval) :
  file w = Some text ->
  blank text = false ->
  json_loads (strip text) = Ok v ->
  load_library w = Ok (World v (Some text) (shown w)).
Proof.
  intros Hf Hb Hp. unfold load_library. rewrite Hf.
  destruct (strip text) as [|c rest] eqn:Hs.
  - apply strip_nil_iff in Hs. congruence.
  - rewrite Hp. unfold set_library. now rewrite Hf.
Qed.

Lemma load_library_absent (w : world) :
  file w = None ->
  load_library w = Ok (World (VList []) None (shown w)).
Proof.
  intros Hf. unfold load_library. rewrite Hf. unfold set_library. now rewrite Hf.
Qed.

End StoreFacts.

(** ** Dicts *)

Lemma str_eqb_eq (a b : str) : str_eqb a b = true <-> a = b.
Proof. unfold str_eqb. apply bool_decide_eq_true. Qed.

Lemma str_eqb_refl (a : str) : str_eqb a a = true.
Proof. now apply str_eqb_eq. Qed.

Lemma dict_get_set_eq d k v x :
  dict_get d k = Some x -> dict_get (dict_set d k v) k = Some v.
Proof.
  induction d as [|[k' v'] d IH]; simpl; [discriminate|].
  destruct (str_eqb k' k) eqn:E; simpl; rewrite E; auto.
Qed.

Lemma dict_get_set_ne d k k' v :
  k <> k' -> dict_get (dict_set d k v) k' = dict_get d k'.
Proof.
  intros Hne. induction d as [|[k0 v0] d IH]; simpl.
  - destruct (str_eqb k k') eqn:E; [|reflexivity].
    apply str_eqb_eq in E. contradiction.
  - destruct (str_eqb k0 k) eqn:E; simpl.
    + apply str_eqb_eq in E. subst k0.
      destruct (str_eqb k k') eqn:E'; [|reflexivity].
      apply str_eqb_eq in E'. contradiction.
    + now rewrite IH.
Qed.

(** Assigning to a present key leaves the keys and their order alone. *)
Lemma dict_set_keys d k v x :
  dict_get d k = Some x -> List.map fst (dict_set d k v) = List.map fst d.
Proof.
  induction d as [|[k' v'] d IH]; simpl; [discriminate|].
  destruct (str_eqb k' k) eqn:E; simpl; [reflexivity|].
  intros H. now rewrite IH.
Qed.

Lemma dict_set_set d k v v' :
  dict_set (dict_set d k v) k v' = dict_set d k v'.
Proof.
  induction d as [|[k0 v0] d IH]; simpl.
  - now rewrite str_eqb_refl.
  - destruct (str_eqb k0 k) eqn:E; simpl; rewrite E; [reflexivity|].
    now rewrite IH.
Qed.

Lemma dict_set_same d k v : dict_get d k = Some v -> dict_set d k v = d.
Proof.
  induction d as [|[k0 v0] d IH]; simpl; [discriminate|].
  destruct (str_eqb k0 k) eqn:E.
  - now intros [= ->].
  - intros H. now rewrite IH.
Qed.

(** ** List indices *)

Lemma py_index_Some (i : Z) (n : nat) :
  - Z.of_nat n <= i < Z.of_nat n ->
  py_index i n = Some (Z.to_nat (i mod Z.of_nat n))
  /\ (Z.to_nat (i mod Z.of_nat n) < n)%nat.
Proof.
  intros Hr. unfold py_index.
  destruct (Z.leb_spec 0 i) as [Hi|Hi]; simpl.
  - destruct (Z.ltb_spec i (Z.of_nat n)); [|lia].
    rewrite Z.mod_small by lia. split; [reflexivity|lia].
  - destruct (Z.leb_spec (- Z.of_nat n) i); [|lia].
    destruct (Z.ltb_spec i 0); [|lia]. simpl.
    replace (i mod Z.of_nat n) with (Z.of_nat n + i).
    + split; [reflexivity|lia].
    + apply Z.mod_unique with (q := -1); lia.
Qed.

Lemma py_index_None (i : Z) (n : nat) :
  ~ (- Z.of_nat n <= i < Z.of_nat n) -> py_index i n = None.
Proof.
  intros Hr. unfold py_index.
  destruct (Z.leb_spec 0 i); destruct (Z.ltb_spec i (Z.of_nat n));
    destruct (Z.leb_spec (- Z.of_nat n) i); destruct (Z.ltb_spec i 0);
    simpl; try reflexivity; lia.
Qed.

Section CatalogFacts.
Context {RT : Runtime}.

Lemma add_book_Ok w l now t a y g r :
  library w = VList l ->
  add_book now t a y g r w =
    Ok (World (VList (l ++ [new_book now t a y g r]))
              (Some (json_dumps (VList (l ++ [new_book now t a y g r]))))
              (shown w ++ [SuccessAdded])).
Proof. intros Hl. unfold add_book. now rewrite Hl. Qed.

Lemma add_book_Ok_inv w w' now t a y g r :
  add_book now t a y g r w = Ok w' ->
  file w' = Some (json_dumps (library w')).
Proof.
  unfold add_book. destruct (library w); try discriminate.
  now intros [= <-].
Qed.

Lemma remove_book_Ok_inv w w' index :
  remove_book index w = Ok w' ->
  file w' = Some (json_dumps (library w')).
Proof.
  unfold remove_book. destruct (library w) as [| | | | |l|]; try discriminate.
  destruct (py_index index (length l)); simpl; [|discriminate].
  now intros [= <-].
Qed.

(** What a toggle that completes has done. *)
Lemma toggle_Ok_inv w w' i :
  toggle_read_status i w = Ok w' ->
  exists l d status,
    library w = VList l /\ l !! i = Some (VDict d) /\
    dict_get d k_read_status = Some status /\
    w' = save_library (set_library
           (VList (<[i:=VDict (dict_set d k_read_status
                                 (VBool (negb (truthy status))))]> l)) w).
Proof.
  unfold toggle_read_status.
  destruct (library w) as [| | | |s|l|d] eqn:Hl; simpl; try discriminate.
  - destruct (_ !! i) as [b|] eqn:Hb; simpl; [|discriminate].
    apply list_lookup_fmap_Some in Hb as (c & -> & _). discriminate.
  - destruct (l !! i) as [b|] eqn:Hb; simpl; [|discriminate].
    destruct b as [| | | | | |d]; simpl; try discriminate.
    destruct (dict_get d k_read_status) as [status|] eqn:Hs; simpl;
      [|discriminate].
    intros [= <-]. now exists l, d, status.
  - destruct (_ !! i) as [b|] eqn:Hb; simpl; [|discriminate].
    apply list_lookup_fmap_Some in Hb as (c & -> & _). discriminate.
Qed.

Lemma toggle_Ok w l d status i :
  library w = VList l -> l !! i = Some (VDict d) ->
  dict_get d k_read_status = Some status ->
  toggle_read_status i w =
    Ok (save_library (set_library
          (VList (<[i:=VDict (dict_set d k_read_status
                                (VBool (negb (truthy status))))]> l)) w)).
Proof.
  intros Hl Hb Hs. unfold toggle_read_status. rewrite Hl. simpl.
  rewrite Hb. simpl. now rewrite Hs.
Qed.

(** C1: whatever the world and whichever mutation (add, remove, toggle),
    a mutation that completes leaves in the file the serialization of the
    collection as it then stands. *)
Theorem mutation_persisted (m : mutation) (w w' : world) :
  apply_mutation m w = Ok w' ->
  file w' = Some (json_dumps (library w')).
Proof.
  destruct m as [now t a y g r|index|i]; simpl.
  - apply add_book_Ok_inv.
  - apply remove_book_Ok_inv.
  - intros H. apply toggle_Ok_inv in H as (l & d & status & _ & _ & _ & ->).
    reflexivity.
Qed.

(** C3: on a collection that is a list, [add_book] completes whatever its
    five arguments are -- it checks none of them -- with the new dict of
    those five values and the clock's reading under [added_date] appended
    last, and the file rewritten from the result.  When the text written
    reads back as the value written, [load_library] gets the collection
    with the added record last in it, [read_status] and [added_date] as
    given, from the file alone: it does so in every world that holds the
    file [add_book] wrote, whatever library that world's session has,
    and shows nothing on the way. *)
Theorem add_book_then_load (w : world) (l : list pyval) (now : str)
    (title author publication_year genre read_status : pyval) :
  let book := new_book now title author publication_year genre read_status in
  let text := json_dumps (VList (l ++ [book])) in
  library w = VList l ->
  blank text = false ->
  json_loads (strip text) = Ok (VList (l ++ [book])) ->
  exists w1,
    add_book now title author publication_year genre read_status w = Ok w1
    /\ library w1 = VList (l ++ [book])
    /\ file w1 = Some text
    /\ (forall w0, file w0 = file w1 ->
          exists w2,
            load_library w0 = Ok w2
            /\ library w2 = VList (l ++ [book])
            /\ file w2 = file w1
            /\ shown w2 = shown w0)
    /\ (l ++ [book]) !! length l = Some book
    /\ getitem book k_title = Ok title
    /\ getitem book k_author = Ok author
    /\ getitem book k_publication_year = Ok publication_year
    /\ getitem book k_genre = Ok genre
    /\ getitem book k_read_status = Ok read_status
    /\ getitem book k_added_date = Ok (VStr now).
Proof.
  intros book text Hl Hb Hp.
  eexists. split; [apply (add_book_Ok w l); exact Hl|].
  split; [reflexivity|]. split; [reflexivity|].
  split.
  { intros w0 Hf. simpl in Hf. eexists.
    split; [exact (load_library_parsed w0 text _ Hf Hb Hp)|].
    split; [reflexivity|]. split; [reflexivity|]. reflexivity. }
  split; [apply list_lookup_middle; reflexivity|].
  repeat split; reflexivity.
Qed.

(** C4: on a list of [n] records, [remove_book(index)] with [index] in
    Python's range [-n <= index < n] deletes the record at the position
    the index denotes ([index], or [n + index] when negative): the result
    has [n - 1] records, those before the position unmoved and those after
    it moved up by one, so their order is kept and, the records being
    pairwise distinct, the deleted one is gone; the file is rewritten from
    the result.  It raises [IndexError] exactly for the other indices. *)
Theorem remove_book_spec (w : world) (l : list pyval) (index : Z) :
  let n := Z.of_nat (length l) in
  let k := Z.to_nat (index mod n) in
  library w = VList l ->
  (- n <= index < n ->
     remove_book index w =
       Ok (World (VList (delete k l)) (Some (json_dumps (VList (delete k l))))
                 (shown w ++ [SuccessRemoved]))
     /\ delete k l = take k l ++ drop (S k) l
     /\ Z.of_nat (length (delete k l)) = n - 1
     /\ (forall j, (j < k)%nat -> delete k l !! j = l !! j)
     /\ (forall j, (k <= j)%nat -> delete k l !! j = l !! S j)
     /\ (forall b, NoDup l -> l !! k = Some b -> b ∉ delete k l))
  /\ (remove_book index w = Raise IndexError <-> ~ (- n <= index < n)).
Proof.
  intros n k Hl.
  assert (Hin : - n <= index < n ->
     remove_book index w =
       Ok (World (VList (delete k l)) (Some (json_dumps (VList (delete k l))))
                 (shown w ++ [SuccessRemoved]))).
  { intros Hr. unfold remove_book. rewrite Hl.
    destruct (py_index_Some index (length l) Hr) as [-> _]. reflexivity. }
  split.
  - intros Hr. destruct (py_index_Some index (length l) Hr) as [_ Hk].
    fold n k in Hk.
    split; [now apply Hin|].
    split; [apply delete_take_drop|].
    split; [rewrite length_delete by (apply lookup_lt_is_Some; lia); lia|].
    split; [intros j Hj; now apply list_lookup_delete_lt|].
    split; [intros j Hj; now apply list_lookup_delete_ge|].
    intros b Hnd Hb Hin'.
    apply (delete_Permutation l k b) in Hb.
    rewrite Hb in Hnd. apply NoDup_cons in Hnd as [Hnot _]. contradiction.
  - split.
    + intros Hraise Hr. rewrite (Hin Hr) in Hraise. discriminate.
    + intros Hr. unfold remove_book. rewrite Hl.
      now rewrite (py_index_None index (length l) Hr).
Qed.

(** C7: pressing the toggle on a record whose [read_status] is a boolean
    flips that boolean, keeps the record's other fields and every other
    record as they were, and rewrites the file from the result; pressing
    it a second time brings the collection back to what it was, again
    rewriting the file. *)
Theorem toggle_twice (w : world) (l : list pyval) (i : nat)
    (d : list (str * pyval)) (b : bool) :
  library w = VList l ->
  l !! i = Some (VDict d) ->
  dict_get d k_read_status = Some (VBool b) ->
  exists w1 w2 d1,
    toggle_read_status i w = Ok w1
    /\ library w1 = VList (<[i:=VDict d1]> l)
    /\ dict_get d1 k_read_status = Some (VBool (negb b))
    /\ (forall k, k <> k_read_status -> dict_get d1 k = dict_get d k)
    /\ List.map fst d1 = List.map fst d
    /\ (forall j, j <> i -> <[i:=VDict d1]> l !! j = l !! j)
    /\ length (<[i:=VDict d1]> l) = length l
    /\ file w1 = Some (json_dumps (library w1))
    /\ toggle_read_status i w1 = Ok w2
    /\ library w2 = VList l
    /\ file w2 = Some (json_dumps (VList l)).
Proof.
  intros Hl Hi Hs.
  pose proof (lookup_lt_Some _ _ _ Hi) as Hlt.
  set (d1 := dict_set d k_read_status (VBool (negb b))).
  assert (Hs1 : dict_get d1 k_read_status = Some (VBool (negb b)))
    by (eapply dict_get_set_eq; eassumption).
  assert (Hback : <[i:=VDict (dict_set d1 k_read_status (VBool (negb (negb b))))]>
                    (<[i:=VDict d1]> l) = l).
  { rewrite list_insert_insert_eq. unfold d1. rewrite dict_set_set.
    rewrite negb_involutive, (dict_set_same _ _ _ Hs).
    now apply list_insert_id. }
  eexists _, _, d1.
  split; [exact (toggle_Ok w l d (VBool b) i Hl Hi Hs)|].
  split; [reflexivity|]. split; [exact Hs1|].
  split; [intros k Hk; apply dict_get_set_ne; congruence|].
  split; [eapply dict_set_keys; eassumption|].
  split; [intros j Hj; apply list_lookup_insert_ne; congruence|].
  split; [apply length_insert|].
  split; [reflexivity|].
  split.
  - apply toggle_Ok with (l := <[i:=VDict d1]> l) (d := d1) (status := VBool (negb b));
      [reflexivity| now apply list_lookup_insert_eq | exact Hs1].
  - simpl. rewrite Hback. split; reflexivity.
Qed.

End CatalogFacts.

(** ** Search *)

Lemma starts_with_spec (p s : str) :
  starts_with p s = true <-> exists post, s = p ++ post.
Proof.
  revert s. induction p as [|a p IH]; intros s; simpl.
  - split; [intros _; now exists s | reflexivity].
  - destruct s as [|b s].
    + split; [discriminate | intros [post H]; discriminate].
    + rewrite andb_true_iff, N.eqb_eq, IH. split.
      * intros [-> [post ->]]. now exists post.
      * intros [post [= -> ->]]. split; [reflexivity | now exists post].
Qed.

(** The scan [p in s] finds [p] exactly when [s] is some text, then [p],
    then some text. *)
Lemma str_contains_spec (p s : str) :
  str_contains p s = true <-> exists pre post, s = pre ++ p ++ post.
Proof.
  induction s as [|c s IH].
  - simpl. rewrite orb_false_r, starts_with_spec. split.
    + intros [post H]. now exists [], post.
    + intros (pre & post & H). symmetry in H.
      apply app_eq_nil in H as [-> H]. now exists post.
  - cbn [str_contains]. rewrite orb_true_iff, starts_with_spec, IH. split.
    + intros [[post H] | (pre & post & H)].
      * now exists [], post.
      * exists (c :: pre), post. simpl. now rewrite H.
    + intros (pre & post & H). destruct pre as [|c' pre].
      * left. now exists post.
      * right. injection H as _ H. now exists pre, post.
Qed.

Lemma filter_result_filter {A} (p : A -> result bool) (P : A -> Prop)
    (H : forall x, Decision (P x)) (l : list A) :
  (forall x, x ∈ l -> p x = Ok (bool_decide (P x))) ->
  filter_result p l = Ok (filter P l).
Proof.
  induction l as [|x l IH]; intros Hp; [reflexivity|].
  simpl. rewrite (Hp x) by apply list_elem_of_here. simpl.
  rewrite IH by (intros y Hy; apply Hp; now apply list_elem_of_further).
  simpl. rewrite filter_cons. unfold bool_decide, decide.
  now destruct (H x).
Qed.

Section SearchFacts.
Context {RT : Runtime}.

#[global] Instance contains_ci_dec term by_ b : Decision (contains_ci term by_ b).
Proof.
  unfold contains_ci.
  destruct (getitem b by_) as [[| | | |v| |]|e] eqn:Hg;
    try (right; intros (v' & pre & post & [=] & _); fail).
  destruct (str_contains (str_lower term) (str_lower v)) eqn:Hc.
  - left. apply str_contains_spec in Hc as (pre & post & H).
    now exists v, pre, post.
  - right. intros (v' & pre & post & [= <-] & H).
    assert (str_contains (str_lower term) (str_lower v) = true)
      by (apply str_contains_spec; eauto).
    congruence.
Qed.

(** On a text field the comprehension's condition says whether the record
    matches. *)
Lemma search_hit_text term by_ b v :
  getitem b by_ = Ok (VStr v) ->
  search_hit term by_ b = Ok (bool_decide (contains_ci term by_ b)).
Proof.
  intros Hg. unfold search_hit. rewrite Hg. simpl. f_equal.
  destruct (str_contains (str_lower term) (str_lower v)) eqn:Hc; symmetry.
  - apply bool_decide_eq_true. apply str_contains_spec in Hc as (pre & post & H).
    now exists v, pre, post.
  - apply bool_decide_eq_false. intros (v' & pre & post & Hg' & H).
    rewrite Hg in Hg'. injection Hg' as <-.
    assert (str_contains (str_lower term) (str_lower v) = true)
      by (apply str_contains_spec; eauto).
    congruence.
Qed.

Lemma book_shaped_text b by_ :
  book_shaped b = true -> by_ ∈ recognized_fields ->
  exists v, getitem b by_ = Ok (VStr v).
Proof.
  destruct b as [| | | | | |d]; try discriminate. simpl.
  rewrite !andb_true_iff. intros [[[Ht Ha] Hg] _] Hin.
  assert (Hk : forall k, is_text (dict_get d k) = true ->
                 exists v, getitem (VDict d) k = Ok (VStr v)).
  { intros k. simpl. destruct (dict_get d k) as [[]|]; try discriminate. eauto. }
  unfold recognized_fields in Hin.
  repeat (apply elem_of_cons in Hin as [->|Hin]; [now apply Hk|]).
  now apply elem_of_nil in Hin.
Qed.

(** Lowering the letters of ASCII and setting case aside are one thing:
    two characters lower to the same one exactly when they are the same
    letter. *)
Lemma same_letter_lower (a b : N) :
  same_letter a b = true <-> Ref.lower_char a = Ref.lower_char b.
Proof.
  unfold same_letter, upper_latin, Ref.lower_char.
  rewrite !orb_true_iff, !andb_true_iff, !N.eqb_eq, !N.leb_le.
  destruct (N.leb_spec 65 a), (N.leb_spec a 90), (N.leb_spec 65 b),
    (N.leb_spec b 90); simpl; lia.
Qed.

Lemma lower_same_letters (term mid : str) :
  Ref.lower mid = Ref.lower term <->
  Forall2 (fun a b => same_letter a b = true) term mid.
Proof.
  unfold Ref.lower. revert mid.
  induction term as [|a term IH]; intros [|b mid]; simpl.
  - split; [constructor | reflexivity].
  - split; [discriminate | intros H; inversion H].
  - split; [discriminate | intros H; inversion H].
  - split.
    + intros [= Hab Hrest]. constructor.
      * apply same_letter_lower. congruence.
      * now apply IH.
    + intros H. inversion H as [|? ? ? ? Hab Hrest]; subst.
      apply same_letter_lower in Hab. apply IH in Hrest. congruence.
Qed.

(** The lowered term stands in the lowered text exactly when the term
    occurs in the text with case set aside. *)
Lemma lower_occurs (term text : str) :
  (exists pre post, Ref.lower text = pre ++ Ref.lower term ++ post)
  <-> occurs_ci term text.
Proof.
  unfold occurs_ci. split.
  - intros (pre & post & H). unfold Ref.lower in H at 1.
    apply map_eq_app in H as (pre' & rest & -> & <- & H).
    apply map_eq_app in H as (mid & post' & -> & Hmid & <-).
    exists pre', mid, post'. split; [reflexivity|].
    now apply lower_same_letters.
  - intros (pre & mid & post & -> & H). apply lower_same_letters in H.
    exists (Ref.lower pre), (Ref.lower post).
    unfold Ref.lower in *. now rewrite !List.map_app, H.
Qed.

Lemma Greek_lower_from_ascii (before s : str) :
  is_ascii s -> Greek.lower_from before s = Ref.lower s.
Proof.
  revert before. induction s as [|c s IH]; intros before Hs; [reflexivity|].
  apply Forall_cons in Hs as [Hc Hs]. simpl. rewrite (IH _ Hs). f_equal.
  destruct (N.eqb_spec c 931); [lia|].
  unfold Greek.lower_char, Greek.upper, Ref.lower_char.
  destruct (N.leb_spec 913 c); [lia|]. simpl. now rewrite orb_false_r.
Qed.

(** On ASCII text the two models of [str.lower] agree. *)
Lemma Greek_lower_ascii (s : str) : is_ascii s -> Greek.lower s = Ref.lower s.
Proof. apply Greek_lower_from_ascii. Qed.

(** C5, as the code has it: on a collection of book-shaped records and
    for each of the three offered fields, [search_books] returns the
    records for which the lowered term stands in the lowered field value:
    all of them and no other, each as often as it stands in the
    collection and in the collection's order, the collection itself left
    as it was; with no match the result is the empty list.  Lowering is
    [str.lower], of which one law is used: on ASCII text it turns the
    letters A to Z into a to z and leaves the rest.  So, for a term and a
    field value of ASCII characters, a record is returned exactly when
    its field value contains the term with case set aside. *)
Theorem search_books_spec (w : world) (l : list pyval) (term by_ : str) :
  (forall s, is_ascii s -> str_lower s = Ref.lower s) ->
  library w = VList l ->
  Forall (fun b => book_shaped b = true) l ->
  by_ ∈ recognized_fields ->
  exists res,
    search_books term by_ w = Ok res
    /\ res = filter (contains_ci term by_) l
    /\ (forall b, b ∈ res <-> b ∈ l /\ contains_ci term by_ b)
    /\ res `sublist_of` l
    /\ ((forall b, b ∈ l -> ~ contains_ci term by_ b) -> res = [])
    /\ (is_ascii term ->
        forall b v, b ∈ l -> getitem b by_ = Ok (VStr v) -> is_ascii v ->
          (b ∈ res <-> occurs_ci term v)).
Proof.
  intros Hlow Hl Hshape Hby.
  exists (filter (contains_ci term by_) l).
  split.
  - unfold search_books. rewrite Hl. simpl.
    apply filter_result_filter. intros b Hb.
    rewrite Forall_forall in Hshape.
    destruct (book_shaped_text b by_ (Hshape b Hb) Hby) as [v Hv].
    now apply search_hit_text with (v := v).
  - split; [reflexivity|].
    split; [intros b; rewrite list_elem_of_filter; tauto|].
    split; [apply sublist_filter|].
    split.
    + intros Hnone. apply elem_of_nil_inv. intros b Hb.
      apply list_elem_of_filter in Hb as [HP Hin]. exact (Hnone b Hin HP).
    + intros Hterm b v Hb Hv Hascii.
      rewrite list_elem_of_filter, <- lower_occurs.
      rewrite <- (Hlow term Hterm), <- (Hlow v Hascii).
      unfold contains_ci. split.
      * intros [(v' & pre & post & Hv' & Heq) _].
        rewrite Hv in Hv'. injection Hv' as <-. eauto.
      * intros (pre & post & Heq). split; [|exact Hb].
        exists v, pre, post. split; [exact Hv | exact Heq].
Qed.

Lemma dict_get_keys d k v :
  dict_get d k = Some v -> k ∈ List.map fst d.
Proof.
  induction d as [|[k' v'] d IH]; simpl; [discriminate|].
  destruct (str_eqb k' k) eqn:E.
  - apply str_eqb_eq in E as ->. intros _. apply list_elem_of_here.
  - intros H. apply list_elem_of_further. auto.
Qed.

(** C6, as the code has it: [search_books] checks its field nowhere, and
    fails only through the first record it looks at.  On the empty
    collection it returns the empty list for every field; on a collection
    of Book records and a field that is none of their four text fields it
    raises [AttributeError] when the field is the year or the read status
    (an integer and a boolean have no [lower]) and [KeyError] when the
    field is no field at all. *)
Theorem search_books_other_field (w : world) (l : list pyval) (term by_ : str) :
  library w = VList l ->
  Forall (fun b => is_book b = true) l ->
  by_ ∉ text_fields ->
  search_books term by_ w =
    match l with
    | [] => Ok []
    | _ :: _ =>
        Raise (if bool_decide (by_ ∈ book_keys) then AttributeError else KeyError)
    end.
Proof.
  intros Hl Hbooks Hby. unfold search_books. rewrite Hl. simpl.
  destruct l as [|b l]; [reflexivity|].
  apply Forall_cons in Hbooks as [Hb _].
  destruct b as [| | | | | |d]; try discriminate.
  unfold is_book in Hb. rewrite !andb_true_iff in Hb.
  destruct Hb as [[[Hshape Hkeys] Hyear] _].
  unfold book_shaped in Hshape. rewrite !andb_true_iff in Hshape.
  destruct Hshape as [_ Hread].
  unfold text_fields in Hby. rewrite !not_elem_of_cons in Hby.
  destruct Hby as (Ht & Ha & Hge & Hd & _).
  simpl. unfold search_hit. simpl.
  case_bool_decide as Hin.
  - unfold book_keys in Hin. rewrite !elem_of_cons in Hin.
    destruct Hin as [->| [->| [->| [->| [->| [->|Hin]]]]]]; try contradiction.
    + destruct (dict_get d k_publication_year) as [[]|]; try discriminate.
      reflexivity.
    + destruct (dict_get d k_read_status) as [[]|]; try discriminate.
      reflexivity.
    + now apply elem_of_nil in Hin.
  - destruct (dict_get d by_) as [v|] eqn:Hg; [|reflexivity].
    exfalso. apply Hin. apply dict_get_keys in Hg.
    rewrite forallb_forall in Hkeys.
    apply list_elem_of_In, Hkeys in Hg. now apply bool_decide_eq_true in Hg.
Qed.

End SearchFacts.

(** ** Counting dicts *)

Lemma floor10_unique (n : Z) : floor10 (n / 10 * 10) n.
Proof.
  unfold floor10. pose proof (Z.div_mod n 10 ltac:(lia)).
  pose proof (Z.mod_pos_bound n 10 ltac:(lia)).
  split; [apply Z.mod_mul; lia | lia].
Qed.

Lemma floor10_eq (d n : Z) : floor10 d n <-> d = n / 10 * 10.
Proof.
  split; [|intros ->; apply floor10_unique].
  intros [Hm Hr]. apply Z.mod_divide in Hm as [q ->]; [|lia].
  f_equal. apply Z.div_unique with (r := n - q * 10); lia.
Qed.

Lemma count_if_cons {A} (p : A -> bool) (x : A) (l : list A) :
  count_if p (x :: l) = (if p x then 1 else 0) + count_if p l.
Proof. unfold count_if. simpl. destruct (p x); simpl; lia. Qed.

Lemma count_if_nonneg {A} (p : A -> bool) (l : list A) : 0 <= count_if p l.
Proof. unfold count_if. lia. Qed.

Lemma count_if_le {A} (p : A -> bool) (l : list A) :
  count_if p l <= Z.of_nat (length l).
Proof. unfold count_if. pose proof (List.filter_length_le p l). lia. Qed.

Section Counter.
Context {K : Type} (eqb : K -> K -> bool) (P : K -> Prop).
Hypothesis eqb_eq : forall a b, P a -> P b -> (eqb a b = true <-> a = b).

Lemma counter_get_incr c k k' :
  keys_in P c -> P k -> P k' ->
  counter_get eqb (counter_incr eqb c k) k' =
    if eqb k k' then Some (default 0 (counter_get eqb c k') + 1)
    else counter_get eqb c k'.
Proof.
  intros Hc Hk Hk'. induction Hc as [|[k0 n] c Hk0 Hc IH]; simpl.
  - now destruct (eqb k k').
  - simpl in Hk0. destruct (eqb k0 k) eqn:E0; simpl.
    + apply eqb_eq in E0 as ->; [|assumption..].
      now destruct (eqb k k').
    + rewrite IH. destruct (eqb k0 k') eqn:E1; [|reflexivity].
      destruct (eqb k k') eqn:E2; [|reflexivity].
      apply eqb_eq in E1; [|assumption..]. apply eqb_eq in E2; [|assumption..].
      assert (eqb k0 k = true) by (apply eqb_eq; [assumption..|congruence]).
      congruence.
Qed.

Lemma counter_incr_keys c k : keys_in P c -> P k -> keys_in P (counter_incr eqb c k).
Proof.
  intros Hc Hk. induction Hc as [|[k0 n] c Hk0 Hc IH]; simpl.
  - now repeat constructor.
  - destruct (eqb k0 k); constructor; assumption.
Qed.

Lemma counter_incr_positive c k :
  counts_positive c -> counts_positive (counter_incr eqb c k).
Proof.
  intros Hc. induction Hc as [|[k0 n] c Hn Hc IH]; simpl.
  - repeat constructor.
  - simpl in Hn. destruct (eqb k0 k); constructor; simpl; try assumption; lia.
Qed.

Lemma counter_incr_total c k :
  counter_total (counter_incr eqb c k) = counter_total c + 1.
Proof.
  unfold counter_total. induction c as [|[k0 n] c IH]; simpl; [reflexivity|].
  destruct (eqb k0 k); simpl; lia.
Qed.

Lemma counter_get_positive c k :
  counts_positive c ->
  counter_get eqb c k = some_positive (default 0 (counter_get eqb c k)).
Proof.
  intros Hc. induction Hc as [|[k0 n] c Hn Hc IH]; simpl; [reflexivity|].
  simpl in Hn. destruct (eqb k0 k); [|exact IH].
  simpl. unfold some_positive. destruct (Z.ltb_spec 0 n); [reflexivity|lia].
Qed.

(** What a run of keys adds to a counting dict. *)
Lemma tally_spec ks c :
  keys_in P c -> Forall P ks -> counts_positive c ->
  keys_in P (tally eqb ks c) /\ counts_positive (tally eqb ks c)
  /\ counter_total (tally eqb ks c) = counter_total c + Z.of_nat (length ks)
  /\ forall k', P k' ->
       default 0 (counter_get eqb (tally eqb ks c) k') =
       default 0 (counter_get eqb c k') + count_if (fun k => eqb k k') ks.
Proof.
  unfold tally. revert c.
  induction ks as [|k ks IH]; intros c Hc Hks Hpos; simpl.
  - repeat split; try assumption; [lia|]. intros k' _. unfold count_if. simpl. lia.
  - apply Forall_cons in Hks as [Hk Hks].
    destruct (IH (counter_incr eqb c k)) as (IH1 & IH2 & IH3 & IH4);
      [now apply counter_incr_keys | assumption
      | now apply counter_incr_positive |].
    repeat split; try assumption.
    + rewrite IH3, counter_incr_total. lia.
    + intros k' Hk'. rewrite (IH4 k' Hk'), counter_get_incr by assumption.
      rewrite count_if_cons. destruct (eqb k k'); simpl; lia.
Qed.

End Counter.

Lemma key_eqb_text (a b : pyval) :
  (exists s, a = VStr s) -> (exists s, b = VStr s) ->
  key_eqb a b = true <-> a = b.
Proof.
  intros [s ->] [t ->]. simpl. rewrite str_eqb_eq. split; congruence.
Qed.

Lemma Z_eqb_any (a b : Z) : True -> True -> (a =? b) = true <-> a = b.
Proof. intros _ _. apply Z.eqb_eq. Qed.

(** ** Rounding to binary64 *)

Lemma fcanon_finite neg m e : exists m' e', fcanon (FFin neg m e) = FFin neg m' e'.
Proof.
  destruct m as [|p]; simpl; [now eexists _, _|].
  destruct (odd_part p e) as [p' e']. now eexists _, _.
Qed.

(** For a ratio below [2^k], [k] at most 52, rounding picks a negative
    exponent [e <= k - 53] and the multiple [q * 2^e] nearest to the
    ratio, and does not overflow. *)
Lemma b64_round_near (neg : bool) (n d k : Z) :
  0 < n -> 0 < d -> 0 <= k <= 52 -> n < 2 ^ k * d ->
  exists q e,
    b64_round neg n d = fcanon (FFin neg (Z.to_N q) e)
    /\ 0 <= q /\ -1074 <= e <= k - 53
    /\ 2 * Z.abs (q * d - n * 2 ^ (- e)) <= d.
Proof.
  intros Hn Hd Hk Hlt. unfold b64_round.
  destruct (Z.eqb_spec n 0) as [|_]; [lia|].
  set (l := Z.log2 n - Z.log2 d).
  set (above := if 0 <=? l then d * 2 ^ l <=? n else d <=? n * 2 ^ (- l)).
  set (fl := if above then l else l - 1).
  assert (Hl : l <= k).
  { pose proof (Z.log2_nonneg d) as Hd0.
    destruct (Z.log2_spec d Hd) as [_ Hd1].
    assert (Hn1 : n < 2 ^ (k + Z.succ (Z.log2 d))).
    { rewrite Z.pow_add_r by lia.
      assert (0 < 2 ^ k) by (apply Z.pow_pos_nonneg; lia). nia. }
    apply Z.log2_lt_pow2 in Hn1; [|assumption]. unfold l. lia. }
  assert (Hfl : fl <= k - 1).
  { unfold fl. destruct above eqn:Ha; [|lia].
    unfold above in Ha. destruct (Z.leb_spec 0 l) as [Hl0|Hl0]; [|lia].
    apply Z.leb_le in Ha.
    assert (H2 : 2 ^ l < 2 ^ k) by nia.
    apply Z.pow_lt_mono_r_iff in H2; lia. }
  set (e := Z.max (fl - 52) (-1074)).
  assert (He : -1074 <= e <= k - 53) by (unfold e; lia).
  destruct (Z.ltb_spec e 0) as [_|]; [|lia].
  set (num := n * 2 ^ (- e)).
  assert (Hp : 0 < 2 ^ (- e)) by (apply Z.pow_pos_nonneg; lia).
  pose proof (Z.div_mod num d ltac:(lia)) as Hdm.
  pose proof (Z.mod_pos_bound num d Hd) as Hr.
  set (q := num / d) in *. set (r := num mod d) in *.
  assert (Hq0 : 0 <= q) by (apply Z.div_pos; nia).
  set (q' := if 2 * r <? d then q
             else if d <? 2 * r then q + 1
             else if Z.even q then q else q + 1).
  assert (Hq' : 0 <= q' /\ q' <= q + 1 /\ 2 * Z.abs (q' * d - num) <= d).
  { unfold q'. destruct (Z.ltb_spec (2 * r) d); [nia|].
    destruct (Z.ltb_spec d (2 * r)); [nia|].
    destruct (Z.even q); nia. }
  destruct Hq' as (Hq'0 & Hq'1 & Hq'2).
  assert (Hq'k : q' <= 2 ^ (k - e)).
  { assert (num < 2 ^ (k - e) * d).
    { unfold num. replace (k - e) with (k + - e) by lia.
      rewrite Z.pow_add_r by lia. nia. }
    assert (q < 2 ^ (k - e)) by nia. lia. }
  destruct (Z.leb_spec 1024 (Z.log2 q' + e)) as [Hov|_].
  - exfalso. destruct (Z.eq_dec q' 0) as [Hz|Hz].
    + rewrite Hz in Hov. simpl in Hov. lia.
    + assert (Hlt' : q' < 2 ^ (k - e + 1)).
      { rewrite Z.pow_add_r by lia.
        assert (0 < 2 ^ (k - e)) by (apply Z.pow_pos_nonneg; lia). lia. }
      apply Z.log2_lt_pow2 in Hlt'; lia.
  - exists q', e. repeat split; try assumption; lia.
Qed.

(** The quotient of two ints, the first between 0 and the second, is
    finite. *)
Lemma int_truediv_unit (a b : Z) :
  0 <= a <= b -> 0 < b ->
  exists m e, int_truediv a b = Ok (FFin false m e).
Proof.
  intros Ha Hb. unfold int_truediv.
  destruct (Z.eqb_spec b 0) as [|_]; [lia|].
  rewrite !Z.abs_eq by lia.
  destruct (Z.ltb_spec a 0); [lia|]. destruct (Z.ltb_spec b 0); [lia|]. simpl.
  destruct (Z.eq_dec a 0) as [->|Hnz].
  - unfold b64_round. simpl. now eexists _, _.
  - destruct (b64_round_near false a b 1) as (q & e & -> & _); try lia.
    destruct (fcanon_finite false (Z.to_N q) e) as (m' & e' & ->).
    now eexists _, _.
Qed.

(** *** The value of a rounded float *)

Lemma IZR_pow2_pos (k : Z) : 0 <= k -> (0 < IZR (2 ^ k))%R.
Proof. intros Hk. apply IZR_lt. apply Z.pow_pos_nonneg; lia. Qed.

Lemma scale2_pos (e : Z) : (0 < scale2 e)%R.
Proof.
  unfold scale2. destruct (Z.leb_spec 0 e).
  - now apply IZR_pow2_pos.
  - apply Rinv_0_lt_compat, IZR_pow2_pos. lia.
Qed.

Lemma scale2_succ (e : Z) : scale2 (e + 1) = (2 * scale2 e)%R.
Proof.
  unfold scale2.
  destruct (Z.leb_spec 0 e) as [He|He]; destruct (Z.leb_spec 0 (e + 1)) as [He'|He'];
    try lia.
  - rewrite Z.pow_add_r by lia. rewrite mult_IZR. change (2 ^ 1) with 2. lra.
  - replace e with (-1) by lia.
    change (2 ^ (-1 + 1)) with 1. change (2 ^ (- -1)) with 2. lra.
  - replace (- e) with (- (e + 1) + 1) by lia.
    rewrite Z.pow_add_r by lia. rewrite mult_IZR. change (2 ^ 1) with 2.
    pose proof (IZR_pow2_pos (- (e + 1)) ltac:(lia)).
    field. lra.
Qed.

Lemma odd_part_value (p : positive) (e : Z) :
  (IZR (Z.pos (fst (odd_part p e))) * scale2 (snd (odd_part p e))
   = IZR (Z.pos p) * scale2 e)%R.
Proof.
  revert e. induction p as [p IH|p IH|]; intros e; try reflexivity.
  simpl odd_part. rewrite IH, scale2_succ.
  change (Z.pos p~0) with (2 * Z.pos p). rewrite mult_IZR. lra.
Qed.

Lemma fcanon_value (f : pyfloat) : float_value (fcanon f) = float_value f.
Proof.
  destruct f as [| |s m e]; try reflexivity.
  destruct m as [|p]; simpl.
  - lra.
  - pose proof (odd_part_value p e) as H.
    destruct (odd_part p e) as [p' e']. simpl in *. rewrite !Rmult_assoc, H.
    reflexivity.
Qed.

(** Rounding a ratio below [2^k] is off by at most [2^(k-54)], half a
    unit in the last of 53 bits. *)
Lemma b64_round_value (n d k : Z) :
  0 < n -> 0 < d -> 0 <= k <= 52 -> n < 2 ^ k * d ->
  exists m e,
    b64_round false n d = FFin false m e
    /\ (Rabs (float_value (FFin false m e) - IZR n / IZR d)
        <= / IZR (2 ^ (54 - k)))%R.
Proof.
  intros Hn Hd Hk Hlt.
  destruct (b64_round_near false n d k Hn Hd Hk Hlt)
    as (q & e & Heq & Hq0 & He & Hclose).
  destruct (fcanon_finite false (Z.to_N q) e) as (m' & e' & Hc).
  exists m', e'. split; [now rewrite Heq|].
  rewrite <- Hc, fcanon_value. unfold float_value, scale2.
  rewrite Z2N.id by assumption.
  destruct (Z.leb_spec 0 e) as [|_]; [lia|].
  set (P := 2 ^ (- e)) in *.
  assert (HP : (0 < IZR P)%R) by (apply IZR_pow2_pos; lia).
  assert (HD : (0 < IZR d)%R) by now apply IZR_lt.
  assert (HB : (0 < IZR (2 ^ (54 - k)))%R) by (apply IZR_pow2_pos; lia).
  assert (HBP : (IZR (2 ^ (54 - k)) <= 2 * IZR P)%R).
  { rewrite <- mult_IZR. apply IZR_le. unfold P.
    replace (54 - k) with (1 + (53 - k)) by lia.
    rewrite Z.pow_add_r by lia. change (2 ^ 1) with 2.
    assert (2 ^ (53 - k) <= 2 ^ (- e)) by (apply Z.pow_le_mono_r; lia). lia. }
  assert (Hc1 : (- IZR d <= 2 * (IZR q * IZR d - IZR n * IZR P) <= IZR d)%R).
  { rewrite <- !mult_IZR, <- minus_IZR, <- mult_IZR, <- opp_IZR.
    split; apply IZR_le; lia. }
  set (x := (1 * IZR q * / IZR P - IZR n / IZR d)%R).
  assert (Hx : (x * (2 * IZR P * IZR d)
                = 2 * (IZR q * IZR d - IZR n * IZR P))%R)
    by (unfold x; field; lra).
  assert (Hpos : (0 < 2 * IZR P * IZR d)%R) by (apply Rmult_lt_0_compat; lra).
  assert (Hhalf : (/ (2 * IZR P) <= / IZR (2 ^ (54 - k)))%R)
    by (apply Rinv_le_contravar; lra).
  assert (Hid : (/ (2 * IZR P) * (2 * IZR P * IZR d) = IZR d)%R)
    by (field; lra).
  apply Rabs_le. split.
  - apply Rle_trans with (- / (2 * IZR P))%R; [lra|].
    apply Rmult_le_reg_r with (2 * IZR P * IZR d)%R; [assumption|].
    rewrite Hx, <- Ropp_mult_distr_l, Hid. lra.
  - apply Rle_trans with (/ (2 * IZR P))%R; [|lra].
    apply Rmult_le_reg_r with (2 * IZR P * IZR d)%R; [assumption|].
    rewrite Hx, Hid. lra.
Qed.

(** The integers [a * 2^e] are handed to the rounding as a numerator and
    a denominator. *)
Lemma ratio_scale2 (a e : Z) :
  let n := if 0 <=? e then a * 2 ^ e else a in
  let d := if 0 <=? e then 1 else 2 ^ (- e) in
  0 < d /\ (0 < a -> 0 < n) /\ (IZR n / IZR d = IZR a * scale2 e)%R.
Proof.
  unfold scale2. destruct (Z.leb_spec 0 e) as [He|He]; cbv zeta.
  - assert (0 < 2 ^ e) by (apply Z.pow_pos_nonneg; lia).
    split; [lia|]. split; [nia|]. rewrite mult_IZR. field.
  - assert (0 < 2 ^ (- e)) by (apply Z.pow_pos_nonneg; lia).
    split; [lia|]. split; [lia|]. reflexivity.
Qed.

Lemma b64_round_zero (d : Z) : b64_round false 0 d = FFin false 0 0.
Proof. reflexivity. Qed.

Lemma Rabs_le_between (x b : R) : (Rabs x <= b -> - b <= x <= b)%R.
Proof. unfold Rabs. destruct (Rcase_abs x); lra. Qed.

Lemma float_value_zero : float_value (FFin false 0 0) = 0%R.
Proof. unfold float_value. change (Z.of_N 0) with 0. lra. Qed.

Lemma inv_pow2_pos (k : Z) : 0 <= k -> (0 < / IZR (2 ^ k))%R.
Proof. intros Hk. now apply Rinv_0_lt_compat, IZR_pow2_pos. Qed.

Lemma float_of_int_100 : float_of_int 100 = FFin false 25 2.
Proof. reflexivity. Qed.

(** [a / b] for [0 <= a <= b] is off the true quotient by [2^-53] at
    most. *)
Lemma int_truediv_value (a b : Z) :
  0 <= a <= b -> 0 < b ->
  exists m e,
    int_truediv a b = Ok (FFin false m e)
    /\ (Rabs (float_value (FFin false m e) - IZR a / IZR b)
        <= / IZR (2 ^ 53))%R.
Proof.
  intros Ha Hb. unfold int_truediv.
  destruct (Z.eqb_spec b 0) as [|_]; [lia|].
  rewrite !Z.abs_eq by lia.
  destruct (Z.ltb_spec a 0); [lia|]. destruct (Z.ltb_spec b 0); [lia|]. simpl xorb.
  destruct (Z.eq_dec a 0) as [->|Hnz].
  - rewrite b64_round_zero. exists 0%N, 0. split; [reflexivity|].
    rewrite float_value_zero.
    replace (0 - IZR 0 / IZR b)%R with 0%R by (unfold Rdiv; lra).
    rewrite Rabs_R0. left. apply inv_pow2_pos. lia.
  - destruct (b64_round_value a b 1) as (m & e & -> & Hv); try lia.
    exists m, e. split; [reflexivity | exact Hv].
Qed.

(** A float up to 1.2, times 100, is off the true product by [2^-47] at
    most. *)
Lemma float_mul_100_value (m : N) (e : Z) :
  (float_value (FFin false m e) <= 12 / 10)%R ->
  exists m' e',
    float_mul (FFin false m e) (float_of_int 100) = FFin false m' e'
    /\ (Rabs (float_value (FFin false m' e') - 100 * float_value (FFin false m e))
        <= / IZR (2 ^ 47))%R.
Proof.
  intros Hle. rewrite float_of_int_100. unfold float_mul. simpl xorb.
  change (Z.of_N 25) with 25.
  destruct (ratio_scale2 (Z.of_N m * 25) (e + 2)) as (Hd & Hn & Hr).
  assert (Hs : scale2 (e + 2) = (4 * scale2 e)%R).
  { replace (e + 2) with (e + 1 + 1) by lia. rewrite !scale2_succ. lra. }
  rewrite Hs, mult_IZR in Hr.
  simpl float_value in Hle |- *.
  destruct (N.eq_dec m 0%N) as [->|Hm].
  - change (Z.of_N 0 * 25) with 0. rewrite Z.mul_0_l.
    exists 0%N, 0. split; [now destruct (0 <=? e + 2)|].
    change (Z.of_N 0) with 0.
    replace (1 * 0 * scale2 0 - 100 * (1 * 0 * scale2 e))%R with 0%R by lra.
    rewrite Rabs_R0. left. apply inv_pow2_pos. lia.
  - assert (Hpos : 0 < Z.of_N m * 25) by lia. specialize (Hn Hpos).
    pose proof (scale2_pos e) as Hsc.
    set (n := if 0 <=? e + 2 then Z.of_N m * 25 * 2 ^ (e + 2) else Z.of_N m * 25) in *.
    set (d := if 0 <=? e + 2 then 1 else 2 ^ (- (e + 2))) in *.
    assert (HD : (0 < IZR d)%R) by now apply IZR_lt.
    assert (Hlt : n < 2 ^ 7 * d).
    { change (2 ^ 7) with 128. apply lt_IZR. rewrite mult_IZR.
      apply Rmult_lt_reg_r with (/ IZR d)%R; [now apply Rinv_0_lt_compat|].
      fold (Rdiv (IZR n) (IZR d)). rewrite Hr.
      replace (128 * IZR d * / IZR d)%R with 128%R by (field; lra). lra. }
    destruct (b64_round_value n d 7 Hn Hd ltac:(lia) Hlt) as (m' & e' & Hb & Hv).
    exists m', e'. split.
    + rewrite <- Hb. unfold n, d. now destruct (0 <=? e + 2).
    + rewrite Hr in Hv. change (54 - 7) with 47 in Hv.
      replace (100 * (1 * IZR (Z.of_N m) * scale2 e))%R
        with (IZR (Z.of_N m) * 25 * (4 * scale2 e))%R by lra.
      exact Hv.
Qed.

(** [round(x, 1)] on a float up to 100.01 is the float nearest to [k / 10]
    for a whole number [k] of tenths, at most 1000 of them, that lies
    within 0.05 of [x]; reading the decimal back costs [2^-47] at most. *)
Lemma float_round1_value (m : N) (e : Z) :
  (float_value (FFin false m e) <= 100 + 1 / 100)%R ->
  exists k m' e',
    0 <= k <= 1000
    /\ float_round1 (FFin false m e) = b64_round false k 10
    /\ b64_round false k 10 = FFin false m' e'
    /\ (Rabs (IZR k / 10 - float_value (FFin false m e)) <= 5 / 100)%R
    /\ (Rabs (float_value (FFin false m' e') - IZR k / 10) <= / IZR (2 ^ 47))%R.
Proof.
  intros Hle. unfold float_round1.
  destruct (ratio_scale2 (10 * Z.of_N m) e) as (Hd & _ & Hr).
  rewrite mult_IZR in Hr. simpl float_value in Hle.
  change (float_value (FFin false m e)) with (1 * IZR (Z.of_N m) * scale2 e)%R.
  set (num := if 0 <=? e then 10 * Z.of_N m * 2 ^ e else 10 * Z.of_N m) in *.
  set (den := if 0 <=? e then 1 else 2 ^ (- e)) in *.
  set (v := (IZR (Z.of_N m) * scale2 e)%R) in *.
  assert (Hv0 : (0 <= v)%R).
  { unfold v. apply Rmult_le_pos; [apply IZR_le; lia | left; apply scale2_pos]. }
  replace (1 * IZR (Z.of_N m) * scale2 e)%R with v in * by (unfold v; lra).
  assert (HD : (0 < IZR den)%R) by now apply IZR_lt.
  assert (Hnum : (IZR num = 10 * v * IZR den)%R).
  { unfold Rdiv in Hr. replace (10 * v * IZR den)%R
      with (IZR num * / IZR den * IZR den)%R by (rewrite Hr; unfold v; lra).
    field. lra. }
  assert (Hnum0 : 0 <= num).
  { apply le_IZR. rewrite Hnum. apply Rmult_le_pos; lra. }
  assert (Hnum1 : 10 * num <= 10001 * den).
  { apply le_IZR. rewrite !mult_IZR, Hnum.
    replace (10 * (10 * v * IZR den))%R with (100 * v * IZR den)%R by lra.
    apply Rmult_le_compat_r; lra. }
  pose proof (Z.div_mod num den ltac:(lia)) as Hdm.
  pose proof (Z.mod_pos_bound num den Hd) as Hrem.
  set (q := num / den) in *. set (r := num mod den) in *.
  assert (Hq : 0 <= q <= 1000) by (split; [apply Z.div_pos; lia | nia]).
  set (k := if 2 * r <? den then q
            else if den <? 2 * r then q + 1
            else if Z.even q then q else q + 1).
  assert (Hk : 0 <= k <= 1000 /\ 2 * Z.abs (k * den - num) <= den).
  { unfold k. destruct (Z.ltb_spec (2 * r) den); [split; nia|].
    destruct (Z.ltb_spec den (2 * r)); [split; nia|].
    destruct (Z.even q); split; nia. }
  destruct Hk as [Hk Hclose].
  assert (Hkv : (Rabs (IZR k / 10 - v) <= 5 / 100)%R).
  { assert (Hc : (- IZR den <= 2 * (IZR k * IZR den - IZR num) <= IZR den)%R).
    { rewrite <- !mult_IZR, <- minus_IZR, <- mult_IZR, <- opp_IZR.
      split; apply IZR_le; lia. }
    rewrite Hnum in Hc.
    assert (Hc' : (- 1 <= 2 * (IZR k - 10 * v) <= 1)%R).
    { split; apply Rmult_le_reg_r with (IZR den); try assumption; lra. }
    apply Rabs_le. lra. }
  exists k.
  destruct (Z.eq_dec k 0) as [Hz|Hz].
  - rewrite Hz in *. rewrite b64_round_zero. exists 0%N, 0.
    split; [lia|]. split; [reflexivity|]. split; [reflexivity|].
    split; [exact Hkv|]. rewrite float_value_zero.
    replace (0 - 0 / 10)%R with 0%R by lra. rewrite Rabs_R0.
    left. apply inv_pow2_pos. lia.
  - destruct (b64_round_value k 10 7) as (m' & e' & Hb & Hv); try lia.
    exists m', e'. split; [exact Hk|]. split; [reflexivity|].
    split; [exact Hb|]. split; [exact Hkv|]. exact Hv.
Qed.

(** What [percent] is worth: the float nearest to a whole number of
    tenths that is the percentage read to within 0.05 and the two
    roundings of binary64 before it. *)
Lemma percent_of_value (r t : Z) :
  0 <= r <= t -> 0 < t ->
  exists k x,
    percent_of r t = Ok (VFloat x)
    /\ 0 <= k <= 1000
    /\ x = b64_round false k 10
    /\ (Rabs (IZR k / 10 - 100 * IZR r / IZR t) <= 5 / 100 + / IZR (2 ^ 45))%R
    /\ (Rabs (float_value x - IZR k / 10) <= / IZR (2 ^ 47))%R.
Proof.
  intros Hr Ht. unfold percent_of.
  destruct (Z.ltb_spec 0 t) as [_|]; [|lia].
  destruct (int_truediv_value r t Hr Ht) as (m & e & -> & Hq).
  unfold mbind, result_bind.
  assert (HT : (0 < IZR t)%R) by now apply IZR_lt.
  assert (Hu : (0 <= IZR r / IZR t <= 1)%R).
  { split.
    - apply Rmult_le_pos; [apply IZR_le; lia | left; now apply Rinv_0_lt_compat].
    - apply Rmult_le_reg_r with (IZR t); [assumption|].
      replace (IZR r / IZR t * IZR t)%R with (IZR r) by (field; lra).
      rewrite Rmult_1_l. apply IZR_le. lia. }
  change (2 ^ 53) with 9007199254740992 in Hq.
  apply Rabs_le_between in Hq.
  destruct (float_mul_100_value m e) as (m1 & e1 & -> & H1); [lra|].
  change (2 ^ 47) with 140737488355328 in H1.
  apply Rabs_le_between in H1.
  destruct (float_round1_value m1 e1) as (k & m2 & e2 & Hk & -> & Hb & H2 & H3);
    [lra|].
  apply Rabs_le_between in H2.
  exists k, (FFin false m2 e2).
  split; [now rewrite Hb|]. split; [exact Hk|]. split; [now rewrite Hb|].
  split; [|exact H3].
  change (2 ^ 45) with 35184372088832.
  replace (100 * IZR r / IZR t)%R with (100 * (IZR r / IZR t))%R by (field; lra).
  apply Rabs_le. lra.
Qed.

(** For a collection of fewer than [2^45 / 20] records the two roundings
    of binary64 cannot carry the tenth past the nearest: a whole number
    of tenths within [0.05 + 2^-45] of the percentage is within [0.05]
    of it. *)
Lemma tenth_nearest (r t k : Z) :
  0 < t -> 20 * t < 2 ^ 45 ->
  (Rabs (IZR k / 10 - 100 * IZR r / IZR t) <= 5 / 100 + / IZR (2 ^ 45))%R ->
  2 * Z.abs (k * t - 1000 * r) <= t.
Proof.
  intros Ht Hsmall H.
  change (2 ^ 45) with 35184372088832 in *.
  assert (HT : (0 < IZR t)%R) by now apply IZR_lt.
  assert (HS : (20 * IZR t < 35184372088832)%R).
  { rewrite <- mult_IZR. now apply IZR_lt. }
  apply Rabs_le_between in H.
  assert (Hd : (IZR k / 10 - 100 * IZR r / IZR t
                = (IZR k * IZR t - 1000 * IZR r) / (10 * IZR t))%R)
    by (field; lra).
  rewrite Hd in H. clear Hd.
  set (d := (IZR k * IZR t - 1000 * IZR r)%R) in *.
  assert (Hpos : (0 < 10 * IZR t)%R) by lra.
  assert (Hup : (d <= (5 / 100 + / 35184372088832) * (10 * IZR t))%R).
  { apply Rmult_le_reg_r with (/ (10 * IZR t))%R;
      [now apply Rinv_0_lt_compat|].
    rewrite Rmult_assoc, Rinv_r, Rmult_1_r by lra. apply H. }
  assert (Hlo : (- ((5 / 100 + / 35184372088832) * (10 * IZR t)) <= d)%R).
  { apply Rmult_le_reg_r with (/ (10 * IZR t))%R;
      [now apply Rinv_0_lt_compat|].
    rewrite <- Ropp_mult_distr_l, Rmult_assoc, Rinv_r, Rmult_1_r by lra.
    apply H. }
  assert (Hd1 : (2 * d < IZR t + 1)%R) by lra.
  assert (Hd2 : (- (IZR t + 1) < 2 * d)%R) by lra.
  unfold d in Hd1, Hd2.
  assert (Z1 : 2 * (k * t - 1000 * r) < t + 1).
  { apply lt_IZR. rewrite mult_IZR, minus_IZR, !mult_IZR, plus_IZR. exact Hd1. }
  assert (Z2 : - (t + 1) < 2 * (k * t - 1000 * r)).
  { apply lt_IZR. rewrite opp_IZR, mult_IZR, minus_IZR, !mult_IZR, plus_IZR.
    exact Hd2. }
  lia.
Qed.

(** A nearest tenth is the rounded one, by every rule, when the
    percentage is not halfway between two tenths. *)
Lemma nearest_is_rounded (rule : tie) (r t k : Z) :
  0 < t ->
  2 * Z.abs (k * t - 1000 * r) <= t ->
  2 * ((1000 * r) mod t) <> t ->
  k = rounded_tenths rule r t.
Proof.
  intros Ht Hk Hmid. unfold rounded_tenths.
  pose proof (Z.div_mod (1000 * r) t ltac:(lia)) as Hdm.
  pose proof (Z.mod_pos_bound (1000 * r) t Ht) as Hm.
  set (lo := 1000 * r / t) in *. set (rem := (1000 * r) mod t) in *.
  assert (Hcases : k <= lo - 1 \/ k = lo \/ k = lo + 1 \/ lo + 2 <= k) by lia.
  destruct (Z.ltb_spec (2 * rem) t) as [Hlt|Hge].
  - destruct Hcases as [H|[H|[H|H]]]; [nia | exact H | nia | nia].
  - destruct (Z.ltb_spec t (2 * rem)) as [Hgt|Hle]; [|lia].
    destruct Hcases as [H|[H|[H|H]]]; [nia | nia | exact H | nia].
Qed.

(** ** Statistics *)

Section StatsFacts.
Context {RT : Runtime}.

Lemma book_shaped_fields b :
  book_shaped b = true ->
  exists g a r,
    getitem b k_genre = Ok (VStr g) /\ getitem b k_author = Ok (VStr a)
    /\ getitem b k_read_status = Ok (VBool r).
Proof.
  destruct b as [| | | | | |d]; try discriminate. simpl.
  rewrite !andb_true_iff. intros [[[_ Ha] Hg] Hr].
  destruct (dict_get d k_genre) as [[]|]; try discriminate.
  destruct (dict_get d k_author) as [[]|]; try discriminate.
  destruct (dict_get d k_read_status) as [[]|]; try discriminate.
  now eexists _, _, _.
Qed.

Lemma count_read_books l :
  Forall (fun b => book_shaped b = true) l ->
  count_read l = Ok (count_if is_read l).
Proof.
  induction 1 as [|b l Hb _ IH]; [reflexivity|].
  destruct (book_shaped_fields b Hb) as (g & a & r & _ & _ & Hr).
  simpl. rewrite Hr, IH. simpl. rewrite count_if_cons. unfold is_read.
  rewrite Hr. simpl. destruct r; reflexivity.
Qed.

(** On book-shaped records the loop never raises, and its three dicts are
    the tallies of the genres, of the authors, and of the decades of the
    records whose year reads as an integer. *)
Lemma stats_loop_books l gs aus ds :
  Forall (fun b => book_shaped b = true) l ->
  stats_loop l (gs, aus, ds) =
    Ok (tally key_eqb (field_values k_genre l) gs,
        tally key_eqb (field_values k_author l) aus,
        tally Z.eqb (decade_values l) ds).
Proof.
  intros Hl. revert gs aus ds.
  induction Hl as [|b l Hb _ IH]; intros gs aus ds; [reflexivity|].
  destruct (book_shaped_fields b Hb) as (g & a & r & Hg & Ha & _).
  cbn [stats_loop]. unfold stats_step. rewrite Hg, Ha. cbn -[decade_of].
  unfold field_values, decade_values. cbn [omap list_omap].
  rewrite Hg, Ha.
  destruct (decade_of b) as [d|e]; cbn -[decade_of]; now rewrite IH.
Qed.

Lemma field_values_text k l :
  Forall (fun b => exists s, getitem b k = Ok (VStr s)) l ->
  Forall (fun v => exists s, v = VStr s) (field_values k l)
  /\ length (field_values k l) = length l
  /\ forall s, count_if (fun v => key_eqb v (VStr s)) (field_values k l)
               = count_if (field_is k s) l.
Proof.
  unfold field_values.
  induction 1 as [|b l [t Hb] _ (IH1 & IH2 & IH3)]; cbn [omap list_omap].
  - split; [constructor | split; [reflexivity | intros s; reflexivity]].
  - rewrite Hb. split; [|split].
    + constructor; [now exists t | assumption].
    + simpl. now rewrite IH2.
    + intros s. rewrite !count_if_cons, IH3. unfold field_is.
      now rewrite Hb.
Qed.

Lemma decade_of_floor10 b d :
  decade_of b = Ok d <->
  exists y n, getitem b k_publication_year = Ok y /\ py_int y = Ok n
              /\ floor10 d n.
Proof.
  unfold decade_of. split.
  - destruct (getitem b k_publication_year) as [y|]; simpl; [|discriminate].
    destruct (py_int y) as [n|] eqn:Hn; simpl; [|discriminate].
    intros [= <-]. exists y, n.
    split; [reflexivity | split; [exact Hn | apply floor10_unique]].
  - intros (y & n & -> & Hn & Hf). simpl. rewrite Hn. simpl.
    apply floor10_eq in Hf. now rewrite Hf.
Qed.

Lemma in_decade_iff b d : in_decade d b = true <-> decade_of b = Ok d.
Proof.
  rewrite decade_of_floor10. unfold in_decade. split.
  - destruct (getitem b k_publication_year) as [y|]; [|discriminate].
    destruct (py_int y) as [n|] eqn:Hn; [|discriminate].
    intros H. apply bool_decide_eq_true in H. now exists y, n.
  - intros (y & n & -> & -> & Hf). now apply bool_decide_eq_true.
Qed.

Lemma year_readable_iff b : year_readable b = true <-> exists d, decade_of b = Ok d.
Proof.
  unfold year_readable, decade_of. split.
  - destruct (getitem b k_publication_year) as [y|]; [|discriminate]. simpl.
    destruct (py_int y) as [n|]; [|discriminate]. intros _. now eexists.
  - intros [d H]. destruct (getitem b k_publication_year) as [y|]; [|discriminate].
    simpl in H. now destruct (py_int y).
Qed.

Lemma decade_values_count l :
  Z.of_nat (length (decade_values l)) = count_if year_readable l
  /\ forall d, count_if (fun d' => d' =? d) (decade_values l)
               = count_if (in_decade d) l.
Proof.
  unfold decade_values. induction l as [|b l [IH1 IH2]]; cbn [omap list_omap].
  - split; reflexivity.
  - destruct (decade_of b) as [d0|e] eqn:Hd.
    + split.
      * rewrite count_if_cons, <- IH1.
        rewrite (proj2 (year_readable_iff b)) by eauto. simpl length. lia.
      * intros d. rewrite !count_if_cons, IH2. f_equal.
        destruct (Z.eqb_spec d0 d) as [->|Hne].
        -- now rewrite (proj2 (in_decade_iff b d)).
        -- destruct (in_decade d b) eqn:Hin; [|reflexivity].
           apply in_decade_iff in Hin. congruence.
    + split.
      * rewrite count_if_cons, <- IH1.
        destruct (year_readable b) eqn:Hy; [|lia].
        apply year_readable_iff in Hy as [d Hy]. congruence.
      * intros d. rewrite count_if_cons, IH2.
        destruct (in_decade d b) eqn:Hin; [|lia].
        apply in_decade_iff in Hin. congruence.
Qed.

Lemma percent_of_Ok (r t : Z) :
  0 <= r <= t ->
  exists pct, percent_of r t = Ok pct
    /\ (t = 0 -> pct = VInt 0)
    /\ (0 < t -> exists q, int_truediv r t = Ok q /\
                  pct = VFloat (float_round1 (float_mul q (float_of_int 100)))).
Proof.
  intros Hr. unfold percent_of. destruct (Z.ltb_spec 0 t) as [Ht|Ht].
  - destruct (int_truediv_unit r t Hr Ht) as (m & e & Hq). rewrite Hq. simpl.
    eexists. split; [reflexivity|]. split; [lia|].
    intros _. eexists. split; reflexivity.
  - eexists. split; [reflexivity|]. split; [reflexivity|lia].
Qed.

(** On a collection of book-shaped records [get_library_stats] returns,
    and this is what it returns. *)
Lemma get_library_stats_books w l :
  library w = VList l ->
  Forall (fun b => book_shaped b = true) l ->
  exists pct,
    percent_of (count_if is_read l) (Z.of_nat (length l)) = Ok pct
    /\ get_library_stats w =
         Ok (Stats (Z.of_nat (length l)) (count_if is_read l) pct
                   (tally key_eqb (field_values k_genre l) [])
                   (tally key_eqb (field_values k_author l) [])
                   (tally Z.eqb (decade_values l) [])).
Proof.
  intros Hl Hb.
  destruct (percent_of_Ok (count_if is_read l) (Z.of_nat (length l)))
    as (pct & Hp & _).
  { split; [apply count_if_nonneg | apply count_if_le]. }
  exists pct. split; [exact Hp|].
  unfold get_library_stats. rewrite Hl. simpl.
  rewrite (count_read_books l Hb). simpl.
  rewrite (stats_loop_books l [] [] [] Hb). simpl.
  now rewrite Hp.
Qed.

(** C8, as the code has it: on a collection of book-shaped records
    [get_library_stats] returns with [total] the number of records and
    [read] the number of them marked read.  With no record there is no
    division: the result is total 0, read 0, percent the integer 0 and
    three empty dicts.  Otherwise [percent] is a float, the binary64
    nearest to [k / 10] for a whole number [k] of tenths between 0 and
    1000, and [k / 10] is a tenth nearest to the percentage
    [100 * read / total]: within 0.05 of it, for a collection of fewer
    than [2^45 / 20] records (and within [0.05 + 2^-45] whatever the
    size).  So [percent] is the percentage rounded to one decimal, by
    every rule for ties, unless the percentage lies exactly halfway
    between two tenths; there the result is one of the two, whichever
    the binary64 quotient and product fall nearer to. *)
Theorem stats_percent (w : world) (l : list pyval) :
  library w = VList l ->
  Forall (fun b => book_shaped b = true) l ->
  exists st,
    get_library_stats w = Ok st
    /\ total st = Z.of_nat (length l)
    /\ read st = count_if is_read l
    /\ 0 <= read st <= total st
    /\ (l = [] -> st = Stats 0 0 (VInt 0) [] [] [])
    /\ (total st = 0 -> percent st = VInt 0)
    /\ (0 < total st ->
          exists k x,
            percent st = VFloat x
            /\ 0 <= k <= 1000
            /\ x = b64_round false k 10
            /\ (Rabs (float_value x - IZR k / 10) <= / IZR (2 ^ 47))%R
            /\ (Rabs (IZR k / 10 - 100 * IZR (read st) / IZR (total st))
                <= 5 / 100 + / IZR (2 ^ 45))%R
            /\ (20 * total st < 2 ^ 45 ->
                  2 * Z.abs (k * total st - 1000 * read st) <= total st
                  /\ forall rule,
                       2 * ((1000 * read st) mod total st) <> total st ->
                       k = rounded_tenths rule (read st) (total st))).
Proof.
  intros Hl Hb.
  destruct (get_library_stats_books w l Hl Hb) as (pct & Hp & Hst).
  assert (Hr : 0 <= count_if is_read l <= Z.of_nat (length l))
    by (split; [apply count_if_nonneg | apply count_if_le]).
  destruct (percent_of_Ok _ _ Hr) as (pct' & Hp' & H0 & _).
  rewrite Hp in Hp'. injection Hp' as <-.
  eexists. split; [exact Hst|]. simpl.
  split; [reflexivity|]. split; [reflexivity|]. split; [exact Hr|].
  split; [intros ->; simpl in *; now rewrite H0|].
  split; [exact H0|].
  intros Ht.
  destruct (percent_of_value _ _ Hr Ht) as (k & x & Hx & Hk & Hxk & Hnear & Hback).
  rewrite Hp in Hx. injection Hx as Hx.
  exists k, x. split; [exact Hx|]. split; [exact Hk|]. split; [exact Hxk|].
  split; [exact Hback|]. split; [exact Hnear|].
  intros Hsmall.
  pose proof (tenth_nearest _ _ k Ht Hsmall Hnear) as Hn.
  split; [exact Hn|].
  intros rule Hmid. now apply nearest_is_rounded.
Qed.

(** C9: on a collection of book-shaped records, whatever their years,
    [get_library_stats] returns.  Its [decades] dict holds, for each
    multiple of ten, the number of records whose year reads as an integer
    of that decade -- the greatest multiple of ten not above it -- and
    nothing else, so that its counts add up to the number of records
    whose year reads as an integer: the other records are passed over
    there.  They are counted everywhere else: [total] is the number of
    all records, [read] the number of all records marked read, and
    [genres] and [authors] hold for each text the number of all records
    with that genre or author, their counts adding up to [total]. *)
Theorem stats_decades (w : world) (l : list pyval) :
  library w = VList l ->
  Forall (fun b => book_shaped b = true) l ->
  exists st,
    get_library_stats w = Ok st
    /\ (forall d, counter_get Z.eqb (decades st) d
                  = some_positive (count_if (in_decade d) l))
    /\ counter_total (decades st) = count_if year_readable l
    /\ (forall b, b ∈ l -> year_readable b = false ->
                  forall d, in_decade d b = false)
    /\ total st = Z.of_nat (length l)
    /\ read st = count_if is_read l
    /\ (forall g, counter_get key_eqb (genres st) (VStr g)
                  = some_positive (count_if (field_is k_genre g) l))
    /\ counter_total (genres st) = Z.of_nat (length l)
    /\ (forall a, counter_get key_eqb (authors st) (VStr a)
                  = some_positive (count_if (field_is k_author a) l))
    /\ counter_total (authors st) = Z.of_nat (length l).
Proof.
  intros Hl Hb.
  destruct (get_library_stats_books w l Hl Hb) as (pct & _ & Hst).
  eexists. split; [exact Hst|]. simpl.
  assert (Htext : forall k, k = k_genre \/ k = k_author ->
            Forall (fun b => exists s, getitem b k = Ok (VStr s)) l).
  { intros k Hk. eapply Forall_impl; [exact Hb|]. intros b Hs.
    destruct (book_shaped_fields b Hs) as (g & a & r & Hg & Ha & _).
    destruct Hk as [->| ->]; eauto. }
  assert (Hfield : forall k, k = k_genre \/ k = k_author ->
            counter_total (tally key_eqb (field_values k l) []) = Z.of_nat (length l)
            /\ forall s, counter_get key_eqb (tally key_eqb (field_values k l) []) (VStr s)
                         = some_positive (count_if (field_is k s) l)).
  { intros k Hk.
    destruct (field_values_text k l (Htext k Hk)) as (Hv1 & Hv2 & Hv3).
    destruct (tally_spec key_eqb (fun v => exists s, v = VStr s) key_eqb_text
                (field_values k l) []) as (_ & Hpos & Htot & Hget);
      [constructor | exact Hv1 | constructor |].
    split; [rewrite Htot, Hv2; reflexivity|].
    intros s. rewrite (counter_get_positive key_eqb _ _ Hpos).
    rewrite Hget by eauto. simpl. now rewrite Hv3. }
  destruct (decade_values_count l) as [Hd1 Hd2].
  destruct (tally_spec Z.eqb (fun _ => True) Z_eqb_any (decade_values l) [])
    as (_ & Hpos & Htot & Hget);
    [constructor | now apply Forall_forall | constructor |].
  split.
  { intros d. rewrite (counter_get_positive Z.eqb _ _ Hpos).
    rewrite Hget by exact I. simpl. now rewrite Hd2. }
  split; [rewrite Htot, Hd1; reflexivity|].
  split.
  { intros b _ Hy d. destruct (in_decade d b) eqn:Hin; [|reflexivity].
    apply in_decade_iff in Hin.
    rewrite (proj2 (year_readable_iff b)) in Hy by eauto. discriminate. }
  split; [reflexivity|]. split; [reflexivity|].
  destruct (Hfield k_genre (or_introl eq_refl)) as [Hg1 Hg2].
  destruct (Hfield k_author (or_intror eq_refl)) as [Ha1 Ha2].
  repeat split; assumption.
Qed.

End StatsFacts.

(** * The program run on concrete collections

    Every statement above is here put to work on the reference runtime. *)

Example stats_dune :
  get_library_stats (RT := Ref.runtime) (shelf [dune]) =
    Ok (Stats 1 1 (VFloat (FFin false 25 2))
              [(VStr (lit "Science"), 1)] [(VStr (lit "Herbert"), 1)] [(1960, 1)]).
Proof. vm_compute. reflexivity. Qed.

Example stats_one_in_three :
  percent <$> get_library_stats (RT := Ref.runtime) (shelf [hobbit; dune; hobbit]) =
    Ok (VFloat (FFin false 2343279181116211 (-46))).
Proof. vm_compute. reflexivity. Qed.

Example dumps_empty : Ref.dumps (VList []) = lit "[]".
Proof. reflexivity. Qed.

Example loads_dumps_shelf :
  Ref.loads (Ref.dumps (VList [dune; hobbit; undated])) =
    Ok (VList [dune; hobbit; undated]).
Proof. vm_compute. reflexivity. Qed.

Example search_is_case_blind :
  search_books (RT := Ref.runtime) (lit "HOB") k_title (shelf [dune; hobbit]) =
    Ok [hobbit].
Proof. vm_compute. reflexivity. Qed.

Lemma mutation_persisted_witness :
  (exists w1,
     apply_mutation (RT := Ref.runtime) (MToggle 0) (shelf [dune]) = Ok w1
     /\ file w1 = Some (Ref.dumps (library w1)))
  /\ (exists w2,
        apply_mutation (RT := Ref.runtime) add_hobbit (shelf [dune]) = Ok w2
        /\ file w2 = Some (Ref.dumps (library w2)))
  /\ (exists w3,
        apply_mutation (RT := Ref.runtime) (MRemove (-2)) (shelf [dune; hobbit]) = Ok w3
        /\ file w3 = Some (Ref.dumps (library w3))).
Proof.
  split; [|split]; eexists; (split; [reflexivity|]).
  - apply (mutation_persisted (RT := Ref.runtime) (MToggle 0) (shelf [dune])).
    reflexivity.
  - apply (mutation_persisted (RT := Ref.runtime) add_hobbit (shelf [dune])).
    reflexivity.
  - apply (mutation_persisted (RT := Ref.runtime) (MRemove (-2))
             (shelf [dune; hobbit])).
    reflexivity.
Defined.

Lemma load_library_corrupted_witness :
  file (on_disk (lit "  {oops ")) = Some (lit "  {oops ")
  /\ blank (lit "  {oops ") = false
  /\ Ref.loads (strip (lit "  {oops ")) = Raise JSONDecodeError
  /\ load_library (RT := Ref.runtime) (on_disk (lit "  {oops ")) =
       Ok (World (VList []) (Some (lit "[]")) [ErrorCorrupted]).
Proof.
  split; [reflexivity|]. split; [reflexivity|]. split; [reflexivity|].
  apply (load_library_corrupted (RT := Ref.runtime) (on_disk (lit "  {oops "))
           (lit "  {oops ")); reflexivity.
Defined.

Lemma load_library_blank_witness :
  file (on_disk [32; 10; 9; 160]%N) = Some [32; 10; 9; 160]%N
  /\ blank [32; 10; 9; 160]%N = true
  /\ load_library (RT := Ref.runtime) (on_disk [32; 10; 9; 160]%N) =
       Ok (World (VList []) (Some [32; 10; 9; 160]%N) []).
Proof.
  split; [reflexivity|]. split; [reflexivity|].
  apply (load_library_blank (RT := Ref.runtime)); reflexivity.
Defined.

Lemma add_book_then_load_witness :
  library (shelf [dune]) = VList [dune]
  /\ blank (Ref.dumps (VList [dune; hobbit])) = false
  /\ Ref.loads (strip (Ref.dumps (VList [dune; hobbit]))) = Ok (VList [dune; hobbit])
  /\ exists w1,
       add_book (RT := Ref.runtime) (lit "2025-03-02 09:30:00")
         (VStr (lit "The Hobbit")) (VStr (lit "Tolkien")) (VInt 1937)
         (VStr (lit "Fantasy")) (VBool false) (shelf [dune]) = Ok w1
       /\ file w1 = Some (Ref.dumps (VList [dune; hobbit]))
       /\ (exists w2,
             load_library (RT := Ref.runtime)
               (on_disk (Ref.dumps (VList [dune; hobbit]))) = Ok w2
             /\ library w2 = VList [dune; hobbit])
       /\ (exists w2,
             load_library (RT := Ref.runtime)
               (World (VList [undated]) (Some (Ref.dumps (VList [dune; hobbit])))
                      [SuccessRemoved]) = Ok w2
             /\ library w2 = VList [dune; hobbit]
             /\ shown w2 = [SuccessRemoved])
       /\ getitem hobbit k_read_status = Ok (VBool false)
       /\ getitem hobbit k_added_date = Ok (VStr (lit "2025-03-02 09:30:00")).
Proof.
  split; [reflexivity|]. split; [vm_compute; reflexivity|].
  split; [vm_compute; reflexivity|].
  destruct (add_book_then_load (RT := Ref.runtime) (shelf [dune]) [dune]
              (lit "2025-03-02 09:30:00") (VStr (lit "The Hobbit"))
              (VStr (lit "Tolkien")) (VInt 1937) (VStr (lit "Fantasy"))
              (VBool false))
    as (w1 & H1 & _ & H2 & H3 & _ & _ & _ & _ & _ & H4 & H5);
    [reflexivity | vm_compute; reflexivity | vm_compute; reflexivity |].
  exists w1. split; [exact H1|]. split; [exact H2|].
  split.
  { destruct (H3 (on_disk (Ref.dumps (VList [dune; hobbit]))))
      as (w2 & L1 & L2 & _); [now rewrite H2|].
    exists w2. split; [exact L1 | exact L2]. }
  split.
  { destruct (H3 (World (VList [undated])
                        (Some (Ref.dumps (VList [dune; hobbit])))
                        [SuccessRemoved]))
      as (w2 & L1 & L2 & _ & L3); [now rewrite H2|].
    exists w2. split; [exact L1|]. split; [exact L2 | exact L3]. }
  split; [exact H4 | exact H5].
Defined.

Lemma remove_book_spec_witness :
  library (shelf [dune; hobbit; undated]) = VList [dune; hobbit; undated]
  /\ remove_book (RT := Ref.runtime) (-2) (shelf [dune; hobbit; undated]) =
       Ok (World (VList [dune; undated])
                 (Some (Ref.dumps (VList [dune; undated]))) [SuccessRemoved])
  /\ (remove_book (RT := Ref.runtime) 3 (shelf [dune; hobbit; undated])
        = Raise IndexError <-> ~ (- 3 <= 3 < 3)).
Proof.
  split; [reflexivity|].
  destruct (remove_book_spec (RT := Ref.runtime) (shelf [dune; hobbit; undated])
              [dune; hobbit; undated] (-2) eq_refl) as [Hin _].
  destruct (remove_book_spec (RT := Ref.runtime) (shelf [dune; hobbit; undated])
              [dune; hobbit; undated] 3 eq_refl) as [_ Hout].
  split; [apply Hin; simpl; lia | exact Hout].
Defined.

Lemma toggle_twice_witness :
  exists w1 w2,
    toggle_read_status (RT := Ref.runtime) 1 (shelf [dune; hobbit]) = Ok w1
    /\ toggle_read_status (RT := Ref.runtime) 1 w1 = Ok w2
    /\ library w2 = VList [dune; hobbit].
Proof.
  destruct (toggle_twice (RT := Ref.runtime) (shelf [dune; hobbit]) [dune; hobbit] 1
              _ false eq_refl eq_refl eq_refl)
    as (w1 & w2 & d1 & H1 & _ & _ & _ & _ & _ & _ & _ & H2 & H3 & _).
  now exists w1, w2.
Defined.

Lemma shelf_book_shaped :
  Forall (fun b => book_shaped b = true) [dune; hobbit; undated].
Proof. repeat constructor. Defined.

Lemma search_books_spec_witness :
  search_books (RT := Ref.runtime) (lit "HOB") k_title
    (shelf [dune; hobbit; undated]) = Ok [hobbit]
  /\ [hobbit] `sublist_of` [dune; hobbit; undated]
  /\ (hobbit ∈ [hobbit] <-> occurs_ci (lit "HOB") (lit "The Hobbit"))
  /\ (dune ∈ [hobbit] <-> occurs_ci (lit "HOB") (lit "Dune")).
Proof.
  destruct (search_books_spec (RT := Ref.runtime) (shelf [dune; hobbit; undated])
              [dune; hobbit; undated] (lit "HOB") k_title
              (fun s _ => eq_refl) eq_refl shelf_book_shaped)
    as (res & H1 & _ & _ & H2 & _ & H3).
  { apply list_elem_of_here. }
  assert (Hrun : search_books (RT := Ref.runtime) (lit "HOB") k_title
                   (shelf [dune; hobbit; undated]) = Ok [hobbit])
    by (vm_compute; reflexivity).
  rewrite Hrun in H1. injection H1 as <-.
  split; [exact Hrun|]. split; [exact H2|].
  assert (Hterm : is_ascii (lit "HOB")) by (repeat constructor).
  split.
  - apply (H3 Hterm hobbit (lit "The Hobbit")); [|reflexivity|repeat constructor].
    apply list_elem_of_further, list_elem_of_here.
  - apply (H3 Hterm dune (lit "Dune")); [|reflexivity|repeat constructor].
    apply list_elem_of_here.
Defined.

(** C5 as the specification words it does not hold: the title of Greek
    capitals contains the term, its first two letters, as it stands, and
    so with case set aside too; yet the search does not return the
    record.  [str.lower] ends the term in a final sigma, the sigma of
    the lowered title is not final, and the two differ.  The lowering
    used is the one of ASCII on ASCII text. *)
Lemma search_books_final_sigma :
  book_shaped astra = true
  /\ k_title ∈ recognized_fields
  /\ getitem astra k_title = Ok (VStr [913; 931; 932; 929; 913]%N)
  /\ str_contains [913; 931]%N [913; 931; 932; 929; 913]%N = true
  /\ occurs_ci [913; 931]%N [913; 931; 932; 929; 913]%N
  /\ Greek.lower [913; 931]%N = [945; 962]%N
  /\ Greek.lower [913; 931; 932; 929; 913]%N = [945; 963; 964; 961; 945]%N
  /\ (forall s, is_ascii s -> Greek.lower s = Ref.lower s)
  /\ search_books (RT := Greek.runtime) [913; 931]%N k_title (shelf [astra])
     = Ok [].
Proof.
  split; [reflexivity|]. split; [apply list_elem_of_here|].
  split; [reflexivity|]. split; [reflexivity|].
  split.
  { exists [], [913; 931]%N, [932; 929; 913]%N.
    split; [reflexivity | repeat constructor]. }
  split; [reflexivity|]. split; [reflexivity|].
  split; [exact Greek_lower_ascii|].
  vm_compute. reflexivity.
Qed.

Lemma search_books_other_field_witness :
  search_books (RT := Ref.runtime) (lit "1965") k_publication_year
    (shelf [dune; hobbit]) = Raise AttributeError
  /\ search_books (RT := Ref.runtime) (lit "x") (lit "isbn")
       (shelf [dune; hobbit]) = Raise KeyError.
Proof.
  split.
  - apply (search_books_other_field (RT := Ref.runtime) (shelf [dune; hobbit])
             [dune; hobbit] (lit "1965") k_publication_year eq_refl).
    + repeat constructor.
    + unfold text_fields. not_listed.
  - apply (search_books_other_field (RT := Ref.runtime) (shelf [dune; hobbit])
             [dune; hobbit] (lit "x") (lit "isbn") eq_refl).
    + repeat constructor.
    + unfold text_fields. not_listed.
Defined.

(** C6 as the specification words it does not hold: a search on a field
    that is none of title, author and genre returns normally on the empty
    collection, and returns the matches when the field is the date of
    addition. *)
Lemma search_books_unknown_field_returns :
  (lit "isbn" ∉ recognized_fields)
  /\ search_books (RT := Ref.runtime) (lit "dune") (lit "isbn") (shelf []) = Ok []
  /\ (k_added_date ∉ recognized_fields)
  /\ search_books (RT := Ref.runtime) (lit "03-02") k_added_date
       (shelf [dune; hobbit]) = Ok [hobbit].
Proof.
  unfold recognized_fields.
  split; [not_listed|]. split; [reflexivity|]. split; [not_listed|].
  vm_compute. reflexivity.
Qed.

Lemma stats_percent_witness :
  exists st,
    get_library_stats (RT := Ref.runtime) (shelf [dune; hobbit; undated]) = Ok st
    /\ total st = 3 /\ read st = 2
    /\ percent st = VFloat (b64_round false 667 10)
    /\ rounded_tenths TieEven 2 3 = 667.
Proof.
  destruct (stats_percent (RT := Ref.runtime) (shelf [dune; hobbit; undated])
              [dune; hobbit; undated] eq_refl shelf_book_shaped)
    as (st & H1 & H2 & H3 & _ & _ & _ & H4).
  exists st. split; [exact H1|]. split; [exact H2|]. split; [exact H3|].
  destruct H4 as (k & x & Hp & _ & Hx & _ & _ & Hk); [rewrite H2; reflexivity|].
  destruct Hk as [_ Hk]; [rewrite H2; reflexivity|].
  specialize (Hk TieEven). rewrite H2, H3 in Hk.
  split; [|reflexivity].
  rewrite Hp, Hx, Hk; [reflexivity|]. vm_compute. discriminate.
Defined.

(** C8 as the specification words it does not hold: no rule for ties
    gives what the code returns.  Of 16 books with 1 read the percentage
    is 6.25 and the code returns 6.2, where rounding ties up or to the
    odd tenth gives 6.3; with 3 read it is 18.75 and the code returns
    18.8, where rounding ties down gives 18.7; of 80 books with 23 read
    it is 28.75 and the code returns 28.7, where rounding ties up or to
    the even tenth gives 28.8. *)
Lemma stats_percent_halfway :
  Forall (fun b => book_shaped b = true) (read_and_unread 23 57)
  /\ percent <$> get_library_stats (RT := Ref.runtime)
                   (shelf (read_and_unread 1 15))
     = Ok (VFloat (b64_round false 62 10))
  /\ rounded_tenths TieUp 1 16 = 63
  /\ rounded_tenths TieOdd 1 16 = 63
  /\ percent <$> get_library_stats (RT := Ref.runtime)
                   (shelf (read_and_unread 3 13))
     = Ok (VFloat (b64_round false 188 10))
  /\ rounded_tenths TieDown 3 16 = 187
  /\ percent <$> get_library_stats (RT := Ref.runtime)
                   (shelf (read_and_unread 23 57))
     = Ok (VFloat (b64_round false 287 10))
  /\ rounded_tenths TieEven 23 80 = 288
  /\ rounded_tenths TieUp 23 80 = 288
  /\ b64_round false 62 10 <> b64_round false 63 10
  /\ b64_round false 188 10 <> b64_round false 187 10
  /\ b64_round false 287 10 <> b64_round false 288 10.
Proof.
  split; [vm_compute; repeat constructor|].
  repeat split; try (vm_compute; reflexivity); vm_compute; discriminate.
Qed.

Lemma stats_decades_witness :
  exists st,
    get_library_stats (RT := Ref.runtime) (shelf [dune; hobbit; undated]) = Ok st
    /\ counter_get Z.eqb (decades st) 1960 = Some 1
    /\ counter_get Z.eqb (decades st) 1930 = Some 1
    /\ counter_total (decades st) = 2
    /\ total st = 3
    /\ counter_total (genres st) = 3.
Proof.
  destruct (stats_decades (RT := Ref.runtime) (shelf [dune; hobbit; undated])
              [dune; hobbit; undated] eq_refl shelf_book_shaped)
    as (st & H1 & H2 & H3 & _ & H4 & _ & _ & H5 & _).
  exists st. split; [exact H1|].
  split; [rewrite H2; reflexivity|]. split; [rewrite H2; reflexivity|].
  split; [rewrite H3; reflexivity|]. split; [exact H4 | exact H5].
Defined.

(** * The rest of the script *)

(** ** Loading, again and again *)

Section LoadFacts.
Context {RT : Runtime}.

(** The four ways [load_library] can end normally. *)
Lemma load_library_Ok_inv (w w' : world) :
  load_library w = Ok w' ->
  (file w = None /\ w' = World (VList []) None (shown w))
  \/ (exists text, file w = Some text /\ blank text = true
                   /\ w' = World (VList []) (Some text) (shown w))
  \/ (exists text v, file w = Some text /\ blank text = false
                     /\ json_loads (strip text) = Ok v
                     /\ w' = World v (Some text) (shown w))
  \/ (exists text, file w = Some text /\ blank text = false
                   /\ json_loads (strip text) = Raise JSONDecodeError
                   /\ w' = World (VList []) (Some (json_dumps (VList [])))
                                 (shown w ++ [ErrorCorrupted])).
Proof.
  destruct (file w) as [text|] eqn:Hf.
  - destruct (blank text) eqn:Hb.
    + rewrite (load_library_blank_eq w text Hf Hb). intros [= <-].
      right. left. now exists text.
    + destruct (json_loads (strip text)) as [v|e] eqn:Hp.
      * rewrite (load_library_parsed w text v Hf Hb Hp). intros [= <-].
        right. right. left. now exists text, v.
      * unfold load_library. rewrite Hf.
        destruct (strip text) as [|c rest] eqn:Hs;
          [apply strip_nil_iff in Hs; congruence|].
        rewrite Hp. destruct e; try discriminate.
        intros [= <-]. right. right. right. exists text.
        repeat split; try assumption; try reflexivity. now rewrite Hs.
  - rewrite (load_library_absent w Hf). intros [= <-]. now left.
Qed.

(** X1: when [load_library] ends without showing the corruption notice,
    it has left the file as it was (a missing file stays missing), and a
    second [load_library] changes nothing more. *)
Theorem load_library_settles (w w1 : world) :
  load_library w = Ok w1 ->
  shown w1 = shown w ->
  file w1 = file w /\ load_library w1 = Ok w1.
Proof.
  intros Hload Hshown.
  destruct (load_library_Ok_inv w w1 Hload)
    as [[Hf ->] | [(text & Hf & Hb & ->) | [(text & v & Hf & Hb & Hp & ->)
       | (text & Hf & Hb & Hp & ->)]]].
  - split; [now rewrite Hf|]. exact (load_library_absent (World (VList []) None (shown w)) eq_refl).
  - split; [now rewrite Hf|]. exact (load_library_blank_eq (World (VList []) (Some text) (shown w)) text
             eq_refl Hb).
  - split; [now rewrite Hf|]. exact (load_library_parsed (World v (Some text) (shown w)) text v
             eq_refl Hb Hp).
  - simpl in Hshown. exfalso.
    apply (f_equal (@length notice)) in Hshown.
    rewrite length_app in Hshown. simpl in Hshown. lia.
Qed.

(** X3: what [save_library] wrote, [load_library] reads back, whenever
    the text [json.dump] writes for the library is not blank and parses
    to the library. *)
Theorem save_then_load (w : world) :
  blank (json_dumps (library w)) = false ->
  json_loads (strip (json_dumps (library w))) = Ok (library w) ->
  load_library (save_library w) = Ok (save_library w).
Proof.
  intros Hb Hp.
  now rewrite (load_library_parsed (save_library w) _ (library w) eq_refl Hb Hp).
Qed.

(** X4: a run of the script starts from the file alone: whatever the
    session held as [library] before the run makes no difference. *)
Theorem script_run_reads_file (now : str) (ev : event) (v : pyval) (w : world) :
  script_run now ev (set_library v w) = script_run now ev w.
Proof.
  assert (H : load_library (set_library v w) = load_library w).
  { unfold load_library, save_library, set_library, show. simpl.
    destruct (file w) as [text|]; [|reflexivity].
    destruct (strip text) as [|c rest]; [reflexivity|].
    now destruct (json_loads (c :: rest)) as [?|[]]. }
  unfold script_run. now rewrite H.
Qed.

End LoadFacts.

(** ** Mutations, one after another *)

Lemma dict_set_is_book d b :
  is_book (VDict d) = true ->
  is_book (VDict (dict_set d k_read_status (VBool b))) = true.
Proof.
  unfold is_book, book_shaped. rewrite !andb_true_iff.
  intros [[[[[[Ht Ha] Hg] Hr] Hk] Hy] Hd].
  assert (Hsome : exists x, dict_get d k_read_status = Some x).
  { destruct (dict_get d k_read_status) as [x|]; [eauto|discriminate]. }
  destruct Hsome as [x Hx].
  rewrite (dict_set_keys d k_read_status (VBool b) x Hx).
  rewrite (dict_get_set_eq d k_read_status (VBool b) x Hx).
  rewrite !dict_get_set_ne by discriminate.
  repeat split; assumption.
Qed.

Section RunFacts.
Context {RT : Runtime}.

Lemma remove_book_Ok w l index k :
  library w = VList l -> py_index index (length l) = Some k ->
  remove_book index w =
    Ok (World (VList (delete k l)) (Some (json_dumps (VList (delete k l))))
              (shown w ++ [SuccessRemoved])).
Proof. intros Hl Hk. unfold remove_book. rewrite Hl, Hk. reflexivity. Qed.

Lemma py_index_lt i n k : py_index i n = Some k -> (k < n)%nat.
Proof.
  unfold py_index.
  destruct (Z.leb_spec 0 i); destruct (Z.ltb_spec i (Z.of_nat n));
    destruct (Z.leb_spec (- Z.of_nat n) i); destruct (Z.ltb_spec i 0);
    simpl; intros [= <-]; lia.
Qed.

Lemma apply_mutation_saved m w w' :
  apply_mutation m w = Ok w' -> file w' = Some (json_dumps (library w')).
Proof.
  destruct m as [now t a y g r|index|i]; simpl.
  - apply add_book_Ok_inv.
  - apply remove_book_Ok_inv.
  - intros H. apply toggle_Ok_inv in H as (l & d & status & _ & _ & _ & ->).
    reflexivity.
Qed.

Lemma apply_mutation_books m w l w' :
  from_pages m = true ->
  library w = VList l ->
  Forall (fun b => is_book b = true) l ->
  apply_mutation m w = Ok w' ->
  exists l', library w' = VList l'
    /\ Forall (fun b => is_book b = true) l'
    /\ Z.of_nat (length l') = Z.of_nat (length l) + growth m.
Proof.
  intros Hm Hl Hb.
  destruct m as [now t a y g r|index|i]; simpl.
  - destruct t, a, y, g, r; try discriminate.
    rewrite (add_book_Ok w l) by assumption. intros [= <-].
    eexists. split; [reflexivity|]. split.
    + apply Forall_app. split; [assumption|]. now repeat constructor.
    + rewrite length_app. simpl. lia.
  - unfold remove_book. rewrite Hl.
    destruct (py_index index (length l)) as [k|] eqn:Hk; [|discriminate].
    simpl. intros [= <-]. eexists. split; [reflexivity|]. split.
    + now apply Forall_delete.
    + apply py_index_lt in Hk.
      rewrite length_delete by now apply lookup_lt_is_Some. lia.
  - intros H. apply toggle_Ok_inv in H as (l0 & d & status & Hl0 & Hi & Hs & ->).
    rewrite Hl in Hl0. injection Hl0 as <-.
    eexists. split; [reflexivity|]. split.
    + apply Forall_insert; [assumption|]. apply dict_set_is_book.
      rewrite Forall_forall in Hb. apply Hb.
      apply list_elem_of_lookup. eauto.
    + rewrite length_insert. lia.
Qed.

(** X5: a run of adds, removes and toggles started from the pages, on a
    collection of Book records, leaves a collection of Book records when
    it completes, with one record more for each add and one less for
    each remove. *)
Theorem apply_mutations_books (ms : list mutation) (w w' : world)
    (l : list pyval) :
  Forall (fun m => from_pages m = true) ms ->
  library w = VList l ->
  Forall (fun b => is_book b = true) l ->
  apply_mutations ms w = Ok w' ->
  exists l', library w' = VList l'
    /\ Forall (fun b => is_book b = true) l'
    /\ Z.of_nat (length l') =
       Z.of_nat (length l) + fold_right Z.add 0 (List.map growth ms).
Proof.
  intros Hms. revert w l.
  induction Hms as [|m ms Hm _ IH]; intros w l Hl Hb; simpl.
  - intros [= <-]. exists l. repeat split; [assumption..|lia].
  - destruct (apply_mutation m w) as [w1|e] eqn:H1; [|discriminate]. simpl.
    destruct (apply_mutation_books m w l w1 Hm Hl Hb H1) as (l1 & Hl1 & Hb1 & Hn1).
    intros H2. destruct (IH w1 l1 Hl1 Hb1 H2) as (l' & Hl' & Hb' & Hn').
    exists l'. repeat split; [assumption..|lia].
Qed.

(** X6: after any run of mutations that completes, the last of them has
    left in the file the collection as it stands; only the empty run
    leaves the file alone. *)
Theorem apply_mutations_persisted (ms : list mutation) (w w' : world) :
  ms <> [] ->
  apply_mutations ms w = Ok w' ->
  file w' = Some (json_dumps (library w')).
Proof.
  revert w. induction ms as [|m ms IH]; intros w Hne; [contradiction|]. simpl.
  destruct (apply_mutation m w) as [w1|e] eqn:H1; [|discriminate]. simpl.
  destruct ms as [|m' ms'].
  - intros [= <-]. exact (apply_mutation_saved m w w1 H1).
  - apply IH. discriminate.
Qed.

(** X7: adding a book and then removing the last record, by index -1 or
    by its position, brings back the collection there was, and the file
    holds it. *)
Theorem add_then_remove_last (w : world) (l : list pyval) (now : str)
    (t a y g r : pyval) (index : Z) :
  library w = VList l ->
  index = -1 \/ index = Z.of_nat (length l) ->
  exists w1 w2,
    add_book now t a y g r w = Ok w1
    /\ remove_book index w1 = Ok w2
    /\ library w2 = VList l
    /\ file w2 = Some (json_dumps (VList l)).
Proof.
  intros Hl Hi. eexists _, _. split; [exact (add_book_Ok w l now t a y g r Hl)|].
  assert (Hk : py_index index (length (l ++ [new_book now t a y g r]))
               = Some (length l)).
  { rewrite length_app. simpl. unfold py_index.
    destruct Hi as [-> | ->].
    - simpl. destruct (Z.leb_spec (- Z.of_nat (length l + 1)) (-1)); [|lia].
      simpl. f_equal. lia.
    - destruct (Z.leb_spec 0 (Z.of_nat (length l))); [|lia].
      destruct (Z.ltb_spec (Z.of_nat (length l)) (Z.of_nat (length l + 1))); [|lia].
      simpl. f_equal. lia. }
  set (l1 := l ++ [new_book now t a y g r]) in *.
  rewrite (remove_book_Ok (World (VList l1) (Some (json_dumps (VList l1)))
                                 (shown w ++ [SuccessAdded]))
             l1 index (length l) eq_refl Hk).
  unfold l1. rewrite (delete_middle l [] (new_book now t a y g r)), app_nil_r.
  repeat split.
Qed.

(** What the toggle does on a list, case by case: no record at the
    position is [IndexError], a record that is no dict is [TypeError], a
    dict without [read_status] is [KeyError]; otherwise [read_status]
    becomes the boolean opposite of the truth of what it held, and the
    file is rewritten. *)
Lemma toggle_read_status_cases (w : world) (l : list pyval) (i : nat) :
  library w = VList l ->
  toggle_read_status i w =
    match l !! i with
    | None => Raise IndexError
    | Some (VDict d) =>
        match dict_get d k_read_status with
        | None => Raise KeyError
        | Some status =>
            let d' := dict_set d k_read_status (VBool (negb (truthy status))) in
            Ok (World (VList (<[i:=VDict d']> l))
                      (Some (json_dumps (VList (<[i:=VDict d']> l)))) (shown w))
        end
    | Some _ => Raise TypeError
    end.
Proof.
  intros Hl. unfold toggle_read_status. rewrite Hl. simpl.
  destruct (l !! i) as [b|]; [|reflexivity]. simpl.
  destruct b as [| | | | | |d]; try reflexivity. simpl.
  now destruct (dict_get d k_read_status).
Qed.

(** X8: two presses of the toggle leave [read_status] as the truth of
    what it held, a boolean: the collection is the one there was exactly
    when [read_status] was a boolean to begin with. *)
Theorem toggle_twice_any (w : world) (l : list pyval) (i : nat)
    (d : list (str * pyval)) (status : pyval) :
  library w = VList l ->
  l !! i = Some (VDict d) ->
  dict_get d k_read_status = Some status ->
  exists w1 w2,
    toggle_read_status i w = Ok w1
    /\ toggle_read_status i w1 = Ok w2
    /\ library w2 =
       VList (<[i:=VDict (dict_set d k_read_status (VBool (truthy status)))]> l)
    /\ (library w2 = library w <-> exists b, status = VBool b).
Proof.
  intros Hl Hi Hs.
  pose proof (lookup_lt_Some _ _ _ Hi) as Hlt.
  set (d1 := dict_set d k_read_status (VBool (negb (truthy status)))).
  assert (Hs1 : dict_get d1 k_read_status = Some (VBool (negb (truthy status))))
    by (eapply dict_get_set_eq; eassumption).
  eexists _, _. split; [exact (toggle_Ok w l d status i Hl Hi Hs)|].
  split.
  { apply toggle_Ok with (l := <[i:=VDict d1]> l) (d := d1)
                         (status := VBool (negb (truthy status)));
      [reflexivity | now apply list_lookup_insert_eq | exact Hs1]. }
  simpl. rewrite list_insert_insert_eq. unfold d1. rewrite dict_set_set.
  rewrite negb_involutive. split; [reflexivity|].
  rewrite Hl. split.
  - intros [= H]. apply (f_equal (fun l => l !! i)) in H.
    rewrite list_lookup_insert_eq, Hi in H by assumption.
    injection H as H. apply (f_equal (fun d => dict_get d k_read_status)) in H.
    rewrite (dict_get_set_eq _ _ _ _ Hs), Hs in H. injection H as <-. eauto.
  - intros [b ->]. simpl. rewrite (dict_set_same _ _ _ Hs).
    now rewrite list_insert_id.
Qed.

End RunFacts.

(** ** The pages and the operations *)

Lemma drawable_fields b :
  drawable b = true ->
  render_card b = Ok tt /\ exists status, getitem b k_read_status = Ok status.
Proof.
  unfold drawable, render_card.
  destruct (getitem b k_title); simpl; [|discriminate].
  destruct (getitem b k_author); simpl; [|discriminate].
  destruct (getitem b k_publication_year); simpl; [|discriminate].
  destruct (getitem b k_genre); simpl; [|discriminate].
  destruct (getitem b k_read_status) as [status|]; simpl; [|discriminate].
  intros _. split; [reflexivity | now exists status].
Qed.

Lemma is_book_drawable b : is_book b = true -> drawable b = true.
Proof.
  destruct b as [| | | | | |d]; try discriminate.
  unfold is_book, book_shaped, drawable, render_card. rewrite !andb_true_iff.
  intros [[[[[[Ht Ha] Hg] Hr] _] Hy] _]. simpl.
  destruct (dict_get d k_title); [|discriminate].
  destruct (dict_get d k_author); [|discriminate].
  destruct (dict_get d k_publication_year); [|discriminate].
  destruct (dict_get d k_genre); [|discriminate].
  destruct (dict_get d k_read_status); [|discriminate]. reflexivity.
Qed.

Section PageFacts.
Context {RT : Runtime}.

Lemma view_cards_remove items i j w :
  Forall (fun b => drawable b = true) items ->
  (j < length items)%nat ->
  view_cards (Some (RemoveButton (i + j))) i items w
  = remove_book (Z.of_nat (i + j)) w.
Proof.
  intros Hd. revert i j.
  induction Hd as [|b rest Hb _ IH]; intros i j Hj; [simpl in Hj; lia|].
  destruct (drawable_fields b Hb) as [Hr [status Hs]].
  cbn [view_cards]. rewrite Hr. cbn [mbind result_bind]. unfold is_remove.
  destruct j as [|j].
  - rewrite Nat.add_0_r, Nat.eqb_refl. reflexivity.
  - destruct (Nat.eqb_spec i (i + S j)) as [|_]; [lia|].
    rewrite Hs. cbn [mbind result_bind is_toggle].
    replace (i + S j)%nat with (S i + j)%nat by lia.
    apply IH. simpl in Hj. lia.
Qed.

Lemma view_cards_toggle items i j w b status :
  Forall (fun b => drawable b = true) items ->
  items !! j = Some b ->
  getitem b k_read_status = Ok status ->
  view_cards (Some (ToggleButton (i + j))) i items w
  = assign_read_status (i + j) (VBool (negb (truthy status))) w.
Proof.
  intros Hd. revert i j.
  induction Hd as [|b0 rest Hb0 _ IH]; intros i j Hj Hst; [discriminate|].
  destruct (drawable_fields b0 Hb0) as [Hr [status0 Hs0]].
  cbn [view_cards]. rewrite Hr. cbn [mbind result_bind is_remove].
  rewrite Hs0. cbn [mbind result_bind]. unfold is_toggle.
  destruct j as [|j].
  - simpl in Hj. injection Hj as ->. rewrite Hst in Hs0. injection Hs0 as <-.
    rewrite Nat.add_0_r, Nat.eqb_refl. reflexivity.
  - destruct (Nat.eqb_spec i (i + S j)) as [|_]; [lia|].
    replace (i + S j)%nat with (S i + j)%nat by lia.
    now apply IH.
Qed.

Lemma view_cards_idle items i w w' :
  view_cards None i items w = Ok w' ->
  Forall (fun b => drawable b = true) items /\ w' = w.
Proof.
  revert i. induction items as [|b rest IH]; intros i; cbn [view_cards].
  - intros [= <-]. split; [constructor | reflexivity].
  - unfold drawable at 1.
    destruct (render_card b) as [u|e] eqn:Hr; [|discriminate].
    cbn [mbind result_bind is_remove].
    destruct (getitem b k_read_status) as [status|]; [|discriminate].
    cbn [mbind result_bind is_toggle].
    intros H. destruct (IH _ H) as [Hd ->]. split; [|reflexivity].
    constructor; [|assumption]. unfold drawable. now rewrite Hr.
Qed.

Lemma view_cards_idle_Ok items i w :
  Forall (fun b => drawable b = true) items ->
  view_cards None i items w = Ok w.
Proof.
  intros Hd. revert i. induction Hd as [|b rest Hb _ IH]; intros i; [reflexivity|].
  destruct (drawable_fields b Hb) as [Hr [status Hs]].
  cbn [view_cards]. rewrite Hr. cbn [mbind result_bind is_remove].
  rewrite Hs. cbn [mbind result_bind is_toggle]. apply IH.
Qed.

Lemma assign_is_toggle w l i b status :
  library w = VList l -> l !! i = Some b ->
  getitem b k_read_status = Ok status ->
  assign_read_status i (VBool (negb (truthy status))) w = toggle_read_status i w.
Proof.
  intros Hl Hi Hs. unfold assign_read_status, toggle_read_status.
  rewrite Hl. simpl. rewrite Hi. simpl. now rewrite Hs.
Qed.

(** X9: on a list of records whose cards can all be drawn, pressing
    Remove on card [i] is [remove_book(i)] and pressing the other button
    of card [i] is the toggle of record [i]. *)
Theorem view_library_press (w : world) (l : list pyval) (i : nat) :
  library w = VList l ->
  Forall (fun b => drawable b = true) l ->
  (i < length l)%nat ->
  view_library (Some (RemoveButton i)) w = remove_book (Z.of_nat i) w
  /\ view_library (Some (ToggleButton i)) w = toggle_read_status i w.
Proof.
  intros Hl Hd Hi. unfold view_library. rewrite Hl.
  destruct l as [|b0 l0] eqn:El; [simpl in Hi; lia|]. rewrite <- El in *.
  assert (Ht : truthy (VList l) = true) by now rewrite El.
  rewrite Ht. cbn [py_iter mbind result_bind]. split.
  - exact (view_cards_remove l 0 i w Hd Hi).
  - destruct (lookup_lt_is_Some_2 l i Hi) as [b Hb].
    assert (Hdb : drawable b = true).
    { rewrite Forall_forall in Hd. apply Hd, list_elem_of_lookup. eauto. }
    destruct (drawable_fields b Hdb) as [_ [status Hs]].
    pose proof (view_cards_toggle l 0 i w b status Hd Hb Hs) as Hv.
    cbn [Nat.add] in Hv. rewrite Hv.
    now apply assign_is_toggle with (l := l) (b := b).
Qed.

(** X10: with no button pressed the "View Library" page changes
    nothing, and on a list it gets to its end exactly when the card of
    every record can be drawn: one record without one of the five fields
    shown stops the page. *)
Theorem view_library_idle (w : world) (l : list pyval) :
  library w = VList l ->
  (view_library None w = Ok w <-> Forall (fun b => drawable b = true) l)
  /\ (forall w', view_library None w = Ok w' -> w' = w).
Proof.
  intros Hl. unfold view_library. rewrite Hl.
  destruct l as [|b0 l0] eqn:El.
  - simpl. split; [split; [constructor | reflexivity]|]. now intros w' [= <-].
  - rewrite <- El in *.
    assert (Ht : truthy (VList l) = true) by now rewrite El.
    rewrite Ht. cbn [py_iter mbind result_bind]. split.
    + split; [intros H; now apply view_cards_idle in H
             | apply view_cards_idle_Ok].
    + intros w' H. now apply view_cards_idle in H.
Qed.

(** X11: the "Add Book" form adds a book exactly when it was submitted
    with a title and an author that are not empty -- white space alone
    counts as a title -- and otherwise leaves the world alone.  The
    record added is a Book record, read exactly when the status chosen
    is "Read", and the file is rewritten with it. *)
Theorem add_form_outcome (w : world) (l : list pyval) (submit : bool)
    (now title author : str) (year : Z) (genre status : str) :
  library w = VList l ->
  exists w',
    add_form submit now title author year genre status w = Ok w'
    /\ (submit = true /\ title <> [] /\ author <> [] ->
          exists b, library w' = VList (l ++ [b])
            /\ is_book b = true
            /\ (getitem b k_read_status = Ok (VBool true) <-> status = lit "Read")
            /\ file w' = Some (json_dumps (VList (l ++ [b]))))
    /\ (~ (submit = true /\ title <> [] /\ author <> []) -> w' = w).
Proof.
  intros Hl. unfold add_form.
  destruct submit, title as [|c t], author as [|c' a]; simpl;
    try (exists w; split; [reflexivity|];
         split; [intros (H1 & H2 & H3); congruence | reflexivity]).
  rewrite (add_book_Ok w l) by assumption.
  eexists. split; [reflexivity|]. split.
  - intros _. eexists. split; [reflexivity|]. split; [reflexivity|].
    split; [|reflexivity]. simpl. unfold str_eqb. split.
    + intros [= H]. now apply bool_decide_eq_true in H.
    + intros ->. reflexivity.
  - intros H. exfalso. apply H. repeat split; discriminate.
Qed.

(** X12: a run of the script on a corrupted file with the form filled in
    ends with the file holding the new book and nothing else: what the
    file held is gone, and the user has seen the corruption notice and
    then the notice of success. *)
Theorem script_run_add_on_corrupted (w : world) (text now title author : str)
    (year : Z) (genre status : str) :
  file w = Some text ->
  blank text = false ->
  json_loads (strip text) = Raise JSONDecodeError ->
  title <> [] -> author <> [] ->
  let book := new_book now (VStr title) (VStr author) (VInt year) (VStr genre)
                       (VBool (str_eqb status (lit "Read"))) in
  script_run now (AddBookPage true title author year genre status) w
  = Ok (World (VList [book]) (Some (json_dumps (VList [book])))
              (shown w ++ [ErrorCorrupted; SuccessAdded])).
Proof.
  intros Hf Hb Hp Ht Ha book. unfold script_run.
  assert (Hload : load_library w =
            Ok (World (VList []) (Some (json_dumps (VList [])))
                      (shown w ++ [ErrorCorrupted]))).
  { unfold load_library. rewrite Hf.
    destruct (strip text) as [|c rest] eqn:Hs;
      [apply strip_nil_iff in Hs; congruence|].
    now rewrite Hp. }
  rewrite Hload. cbn [mbind result_bind]. unfold add_form.
  destruct title as [|c t]; [contradiction|].
  destruct author as [|c' a]; [contradiction|].
  simpl. unfold add_book, show, save_library, set_library. simpl.
  rewrite <- app_assoc. reflexivity.
Qed.

(** X13: [load_library] takes whatever the file parses to.  When that
    is not a list, the run of a filled-in form raises [AttributeError],
    for [add_book] appends to it. *)
Theorem script_run_add_on_other_json (w : world) (text now title author : str)
    (v : pyval) (year : Z) (genre status : str) :
  file w = Some text ->
  blank text = false ->
  json_loads (strip text) = Ok v ->
  (forall l, v <> VList l) ->
  title <> [] -> author <> [] ->
  script_run now (AddBookPage true title author year genre status) w
  = Raise AttributeError.
Proof.
  intros Hf Hb Hp Hv Ht Ha. unfold script_run.
  rewrite (load_library_parsed w text v Hf Hb Hp). cbn [mbind result_bind].
  unfold add_form.
  destruct title as [|c t]; [contradiction|].
  destruct author as [|c' a]; [contradiction|].
  simpl. unfold add_book. simpl.
  destruct v; try reflexivity. now destruct (Hv l).
Qed.

End PageFacts.

(** ** Searching on any field *)

Lemma filter_result_Ok_inv {A} (p : A -> result bool) (l : list A) r :
  filter_result p l = Ok r -> Forall (fun x => exists b, p x = Ok b) l.
Proof.
  revert r. induction l as [|x l IH]; intros r; [constructor|]. simpl.
  destruct (p x) as [b|] eqn:Hp; [|discriminate]. simpl.
  destruct (filter_result p l) as [r'|]; [|discriminate]. simpl.
  intros _. constructor; [eauto | now apply (IH r')].
Qed.

Lemma filter_all {A} (P : A -> Prop) (H : forall x, Decision (P x)) (l : list A) :
  Forall P l -> filter P l = l.
Proof.
  induction 1 as [|x l Hx _ IH]; [reflexivity|].
  rewrite filter_cons_True by assumption. now rewrite IH.
Qed.

Section SearchMore.
Context {RT : Runtime}.

Lemma search_hit_Ok term by_ b r :
  search_hit term by_ b = Ok r -> text_under by_ b.
Proof.
  unfold search_hit, text_under.
  destruct (getitem b by_) as [v|]; [|discriminate]. simpl.
  destruct v; try discriminate. eauto.
Qed.

Lemma search_books_text w l term by_ :
  library w = VList l ->
  Forall (text_under by_) l ->
  search_books term by_ w = Ok (filter (contains_ci term by_) l).
Proof.
  intros Hl Ht. unfold search_books. rewrite Hl. simpl.
  apply filter_result_filter. intros b Hb.
  rewrite Forall_forall in Ht. destruct (Ht b Hb) as [v Hv].
  now apply search_hit_text with (v := v).
Qed.

(** X14: on a list, whatever the field, [search_books] returns exactly
    when every record holds a text under that field -- one record
    without the key, or with a number or a boolean under it, makes the
    whole search raise -- and what it returns is the records that
    match, in order. *)
Theorem search_books_any_field (w : world) (l : list pyval) (term by_ : str) :
  library w = VList l ->
  ((exists res, search_books term by_ w = Ok res) <-> Forall (text_under by_) l)
  /\ (forall res, search_books term by_ w = Ok res ->
                  res = filter (contains_ci term by_) l).
Proof.
  intros Hl.
  assert (Hinv : forall res, search_books term by_ w = Ok res ->
                             Forall (text_under by_) l).
  { intros res H. unfold search_books in H. rewrite Hl in H. simpl in H.
    apply filter_result_Ok_inv in H. eapply Forall_impl; [exact H|].
    intros b [r Hr]. now apply search_hit_Ok in Hr. }
  split; [split|].
  - intros [res H]. now apply (Hinv res).
  - intros Ht. eexists. exact (search_books_text w l term by_ Hl Ht).
  - intros res H. rewrite (search_books_text w l term by_ Hl (Hinv res H)) in H.
    now injection H.
Qed.

(** X15: a search never returns more records than the collection
    holds, and searching its result again with the same term and field
    returns that result unchanged. *)
Theorem search_books_again (w : world) (l res : list pyval) (term by_ : str) :
  library w = VList l ->
  search_books term by_ w = Ok res ->
  (length res <= length l)%nat
  /\ search_books term by_ (set_library (VList res) w) = Ok res.
Proof.
  intros Hl H.
  assert (Ht : Forall (text_under by_) l).
  { unfold search_books in H. rewrite Hl in H. simpl in H.
    apply filter_result_Ok_inv in H. eapply Forall_impl; [exact H|].
    intros b [r Hr]. now apply search_hit_Ok in Hr. }
  rewrite (search_books_text w l term by_ Hl Ht) in H. injection H as <-.
  split; [apply length_filter|].
  rewrite (search_books_text
             (set_library (VList (filter (contains_ci term by_) l)) w)
             (filter (contains_ci term by_) l) term by_ eq_refl).
  - f_equal. apply filter_all. apply Forall_forall.
    intros b Hb. now apply list_elem_of_filter in Hb as [Hb _].
  - apply Forall_forall. intros b Hb.
    apply list_elem_of_filter in Hb as [_ Hb].
    rewrite Forall_forall in Ht. now apply Ht.
Qed.

(** X16: the empty term matches every record: when lowering the empty
    text gives the empty text, a search for it returns the whole
    collection. *)
Theorem search_books_empty_term (w : world) (l : list pyval) (by_ : str) :
  str_lower [] = [] ->
  library w = VList l ->
  Forall (text_under by_) l ->
  search_books [] by_ w = Ok l.
Proof.
  intros Hlow Hl Ht. rewrite (search_books_text w l [] by_ Hl Ht).
  f_equal. apply filter_all. eapply Forall_impl; [exact Ht|].
  intros b [v Hv]. exists v, [], (str_lower v). now rewrite Hlow.
Qed.

End SearchMore.

(** ** Statistics on any records *)

Lemma counter_incr_keys_seen {K} (eqb : K -> K -> bool) c k :
  List.map fst (counter_incr eqb c k) =
    if existsb (fun k' => eqb k' k) (List.map fst c)
    then List.map fst c else List.map fst c ++ [k].
Proof.
  induction c as [|[k0 n] c IH]; simpl; [reflexivity|].
  destruct (eqb k0 k); simpl; [reflexivity|].
  rewrite IH. now destruct (existsb _ _).
Qed.

Lemma tally_keys {K} (eqb : K -> K -> bool) ks c :
  List.map fst (tally eqb ks c) = first_seen eqb (List.map fst c) ks.
Proof.
  unfold tally. revert c. induction ks as [|k ks IH]; intros c; simpl;
    [reflexivity|].
  now rewrite IH, counter_incr_keys_seen.
Qed.

Lemma tally_nil {K} (eqb : K -> K -> bool) ks c :
  tally eqb ks c = [] -> c = [] /\ ks = [].
Proof.
  unfold tally. revert c. induction ks as [|k ks IH]; intros c; simpl;
    [now intros ->|].
  intros H. apply IH in H as [H _]. destruct c as [|[k0 n] c]; simpl in H.
  - discriminate.
  - now destruct (eqb k0 k).
Qed.

Lemma first_seen_NoDup {K} (eqb : K -> K -> bool) (P : K -> Prop) seen ks :
  (forall a b, P a -> P b -> (eqb a b = true <-> a = b)) ->
  Forall P seen -> Forall P ks -> NoDup seen ->
  NoDup (first_seen eqb seen ks).
Proof.
  intros Heq Hs Hk. revert seen Hs.
  induction Hk as [|k ks Hk _ IH]; intros seen Hs Hnd; simpl; [assumption|].
  destruct (existsb (fun k' => eqb k' k) seen) eqn:He; [now apply IH|].
  apply IH.
  - apply Forall_app. split; [assumption | now constructor].
  - apply NoDup_app. split; [assumption|]. split; [|apply NoDup_singleton].
    intros x Hx Hxk. apply list_elem_of_singleton in Hxk. subst x.
    assert (existsb (fun k' => eqb k' k) seen = true); [|congruence].
    apply existsb_exists. exists k. split; [now apply list_elem_of_In|].
    apply Heq; try assumption; reflexivity.
Qed.

Section StatsMore.
Context {RT : Runtime}.

Lemma count_read_bounds l n :
  count_read l = Ok n -> 0 <= n <= Z.of_nat (length l).
Proof.
  revert n. induction l as [|b l IH]; intros n; simpl.
  - intros [= <-]. lia.
  - destruct (getitem b k_read_status) as [v|]; [|discriminate]. simpl.
    destruct (count_read l) as [m|]; [|discriminate]. simpl.
    specialize (IH m eq_refl). destruct (truthy v); intros [= <-]; lia.
Qed.

Lemma count_read_Ok_iff l :
  (exists n, count_read l = Ok n)
  <-> Forall (fun b => exists v, getitem b k_read_status = Ok v) l.
Proof.
  induction l as [|b l IH]; simpl.
  - split; [constructor | eauto].
  - split.
    + intros [n H].
      destruct (getitem b k_read_status) as [v|] eqn:Hg; [|discriminate].
      simpl in H.
      destruct (count_read l) as [m|]; [|discriminate].
      constructor; [now exists v | apply IH; now exists m].
    + intros H. apply Forall_cons in H as [[v ->] H]. simpl.
      apply IH in H as [m ->]. simpl. now eexists.
Qed.

Lemma stats_step_Ok_iff b acc :
  (exists acc', stats_step b acc = Ok acc') <-> tally_ready b.
Proof.
  destruct acc as [[gs aus] ds]. unfold stats_step, tally_ready, count_key.
  destruct (getitem b k_genre) as [g|] eqn:Eg; simpl;
    [|split; [intros [? [=]] | intros (? & ? & [=] & _)]].
  destruct (hashable g) eqn:Hg; simpl;
    [|split; [intros [? [=]] | intros (? & ? & [= <-] & ? & _); congruence]].
  destruct (getitem b k_author) as [a|] eqn:Ea; simpl;
    [|split; [intros [? [=]] | intros (? & ? & _ & _ & [=] & _)]].
  destruct (hashable a) eqn:Ha; simpl;
    [|split; [intros [? [=]]
             | intros (? & ? & _ & _ & [= <-] & ?); congruence]].
  split; [intros _; now exists g, a|].
  intros _. destruct (decade_of b); now eexists.
Qed.

Lemma stats_loop_Ok_iff l acc :
  (exists acc', stats_loop l acc = Ok acc') <-> Forall tally_ready l.
Proof.
  revert acc. induction l as [|b l IH]; intros acc; simpl.
  - split; [constructor | eauto].
  - split.
    + intros [acc' H].
      destruct (stats_step b acc) as [acc1|] eqn:H1; [|discriminate].
      simpl in H. constructor.
      * apply (stats_step_Ok_iff b acc). eauto.
      * apply (IH acc1). eauto.
    + intros H. apply Forall_cons in H as [Hb H].
      apply (stats_step_Ok_iff b acc) in Hb as [acc1 ->]. simpl.
      now apply IH.
Qed.

Lemma countable_iff b :
  countable b = true
  <-> (exists v, getitem b k_read_status = Ok v) /\ tally_ready b.
Proof.
  unfold countable, tally_ready.
  destruct (getitem b k_read_status) as [v|];
    [|split; [discriminate | intros [[? [=]] _]]].
  destruct (getitem b k_genre) as [g|];
    [|split; [discriminate | intros [_ (? & ? & [=] & _)]]].
  destruct (getitem b k_author) as [a|];
    [|split; [discriminate | intros [_ (? & ? & _ & _ & [=] & _)]]].
  rewrite andb_true_iff. split.
  - intros [Hg Ha]. split; [eauto | now exists g, a].
  - intros [_ (g' & a' & [= <-] & Hg & [= <-] & Ha)]. now split.
Qed.

(** X17: on a list, [get_library_stats] returns exactly when every
    record has a read status, a genre and an author, the last two fit to
    be dict keys.  The year plays no part: a record without one, or with
    one [int] cannot read, never makes the statistics fail. *)
Theorem get_library_stats_returns_iff (w : world) (l : list pyval) :
  library w = VList l ->
  (exists st, get_library_stats w = Ok st)
  <-> Forall (fun b => countable b = true) l.
Proof.
  intros Hl. unfold get_library_stats. rewrite Hl. cbn [py_len py_iter].
  cbn [mbind result_bind]. split.
  - intros [st H].
    destruct (count_read l) as [n|] eqn:Hn; [|discriminate].
    cbn [mbind result_bind] in H.
    destruct (stats_loop l ([], [], [])) as [acc|] eqn:Hacc; [|discriminate].
    assert (H1 : Forall (fun b => exists v, getitem b k_read_status = Ok v) l)
      by (apply count_read_Ok_iff; eauto).
    assert (H2 : Forall tally_ready l)
      by (apply (stats_loop_Ok_iff l ([], [], [])); eauto).
    rewrite Forall_forall in H1, H2. apply Forall_forall. intros b Hb.
    apply countable_iff. split; [now apply H1 | now apply H2].
  - intros Hc.
    assert (H1 : Forall (fun b => exists v, getitem b k_read_status = Ok v) l).
    { eapply Forall_impl; [exact Hc|]. intros b Hb. now apply countable_iff in Hb. }
    assert (H2 : Forall tally_ready l).
    { eapply Forall_impl; [exact Hc|]. intros b Hb. now apply countable_iff in Hb. }
    apply count_read_Ok_iff in H1 as [n Hn]. rewrite Hn.
    cbn [mbind result_bind].
    apply (stats_loop_Ok_iff l ([], [], [])) in H2 as [[[gs aus] ds] ->].
    cbn [mbind result_bind].
    destruct (percent_of_Ok n (Z.of_nat (length l)) (count_read_bounds l n Hn))
      as (pct & -> & _). simpl. eauto.
Qed.

Lemma key_text_field_values k l :
  Forall (fun b => book_shaped b = true) l ->
  k = k_genre \/ k = k_author ->
  Forall (fun v => exists s, v = VStr s) (field_values k l).
Proof.
  intros Hb Hk. apply field_values_text.
  eapply Forall_impl; [exact Hb|]. intros b Hs.
  destruct (book_shaped_fields b Hs) as (g & a & r & Hg & Ha & _).
  destruct Hk as [-> | ->]; eauto.
Qed.

(** X18: the dicts of genres, authors and decades hold each value met
    once, in the order the collection first shows it: this is the order
    the bar chart and the line chart follow. *)
Theorem stats_keys_first_seen (w : world) (l : list pyval) :
  library w = VList l ->
  Forall (fun b => book_shaped b = true) l ->
  exists st,
    get_library_stats w = Ok st
    /\ List.map fst (genres st) = first_seen key_eqb [] (field_values k_genre l)
    /\ List.map fst (authors st) = first_seen key_eqb [] (field_values k_author l)
    /\ List.map fst (decades st) = first_seen Z.eqb [] (decade_values l)
    /\ NoDup (List.map fst (genres st))
    /\ NoDup (List.map fst (authors st))
    /\ NoDup (List.map fst (decades st)).
Proof.
  intros Hl Hb.
  destruct (get_library_stats_books w l Hl Hb) as (pct & _ & Hst).
  eexists. split; [exact Hst|]. simpl.
  rewrite !tally_keys. simpl.
  split; [reflexivity|]. split; [reflexivity|]. split; [reflexivity|].
  split; [|split].
  - apply (first_seen_NoDup key_eqb (fun v => exists s, v = VStr s));
      [exact key_eqb_text | constructor | | constructor].
    apply key_text_field_values; auto.
  - apply (first_seen_NoDup key_eqb (fun v => exists s, v = VStr s));
      [exact key_eqb_text | constructor | | constructor].
    apply key_text_field_values; auto.
  - apply (first_seen_NoDup Z.eqb (fun _ => True));
      [exact Z_eqb_any | constructor | now apply Forall_forall | constructor].
Qed.

End StatsMore.

(** ** The extremes of the percentage *)

Lemma b64_round_same (t : Z) : 0 < t -> b64_round false t t = FFin false 1 0.
Proof.
  intros Ht. unfold b64_round.
  destruct (Z.eqb_spec t 0) as [|_]; [lia|].
  cbv zeta. rewrite Z.sub_diag.
  change (0 <=? 0) with true. cbv iota.
  rewrite Z.pow_0_r, Z.mul_1_r, Z.leb_refl.
  change (Z.max (0 - 52) (-1074)) with (-52).
  change (-52 <? 0) with true. cbv iota.
  change (- -52) with 52.
  rewrite (Z.mul_comm t (2 ^ 52)), Z.div_mul, Z.mod_mul by lia.
  change (2 * 0) with 0. destruct (Z.ltb_spec 0 t); [|lia].
  reflexivity.
Qed.

Lemma percent_of_all (t : Z) :
  0 < t -> percent_of t t = Ok (VFloat (FFin false 25 2)).
Proof.
  intros Ht. unfold percent_of, int_truediv.
  destruct (Z.ltb_spec 0 t); [|lia].
  destruct (Z.eqb_spec t 0); [lia|].
  destruct (Z.ltb_spec t 0); [lia|]. simpl xorb.
  rewrite Z.abs_eq by lia. rewrite (b64_round_same t Ht). reflexivity.
Qed.

Lemma percent_of_none (t : Z) :
  0 < t -> percent_of 0 t = Ok (VFloat (FFin false 0 0)).
Proof.
  intros Ht. unfold percent_of, int_truediv.
  destruct (Z.ltb_spec 0 t); [|lia].
  destruct (Z.eqb_spec t 0); [lia|].
  destruct (Z.ltb_spec t 0); [lia|]. reflexivity.
Qed.

Lemma count_if_all {A} (p : A -> bool) (l : list A) :
  Forall (fun x => p x = true) l -> count_if p l = Z.of_nat (length l).
Proof.
  induction 1 as [|x l Hx _ IH]; [reflexivity|].
  rewrite count_if_cons, Hx, IH. simpl length. lia.
Qed.

Lemma count_if_none {A} (p : A -> bool) (l : list A) :
  Forall (fun x => p x = false) l -> count_if p l = 0.
Proof.
  induction 1 as [|x l Hx _ IH]; [reflexivity|].
  rewrite count_if_cons, Hx, IH. reflexivity.
Qed.

Lemma count_if_negb {A} (p : A -> bool) (l : list A) :
  count_if p l + count_if (fun x => negb (p x)) l = Z.of_nat (length l).
Proof.
  induction l as [|x l IH]; [reflexivity|].
  rewrite !count_if_cons. simpl length. destruct (p x); simpl; lia.
Qed.

Section ChartFacts.
Context {RT : Runtime}.

(** X19: on a collection that is not empty, [percent] is exactly the float
    100.0 when every record is marked read and exactly 0.0 when none
    is. *)
Theorem stats_percent_extremes (w : world) (l : list pyval) :
  library w = VList l ->
  Forall (fun b => book_shaped b = true) l ->
  l <> [] ->
  exists st,
    get_library_stats w = Ok st
    /\ (Forall (fun b => is_read b = true) l ->
          percent st = VFloat (FFin false 25 2)
          /\ float_value (FFin false 25 2) = 100%R)
    /\ (Forall (fun b => is_read b = false) l ->
          percent st = VFloat (FFin false 0 0)).
Proof.
  intros Hl Hb Hne.
  destruct (get_library_stats_books w l Hl Hb) as (pct & Hp & Hst).
  assert (Hlen : 0 < Z.of_nat (length l)) by (destruct l; [congruence | simpl; lia]).
  eexists. split; [exact Hst|]. simpl. split.
  - intros Hall. rewrite (count_if_all is_read l Hall) in Hp.
    rewrite (percent_of_all _ Hlen) in Hp. injection Hp as <-.
    split; [reflexivity|]. unfold float_value, scale2.
    change (0 <=? 2) with true. cbv iota.
    change (Z.of_N 25) with 25. change (2 ^ 2) with 4. lra.
  - intros Hnone. rewrite (count_if_none is_read l Hnone) in Hp.
    rewrite (percent_of_none _ Hlen) in Hp. now injection Hp as <-.
Qed.

(** X20: the charts of a collection of book-shaped records.  The pie has
    the number of records read and the number of the others, which add
    up to the collection; the bar chart of genres is drawn unless the
    collection is empty; the line chart of decades is drawn unless no
    record has a year that reads as an integer, and its points are the
    decades in the order first met, each labelled by its number and an
    "s". *)
Theorem create_visualizations_books (w : world) (l : list pyval) :
  library w = VList l ->
  Forall (fun b => book_shaped b = true) l ->
  exists st,
    get_library_stats w = Ok st
    /\ create_visualizations st =
         [Pie [lit "Read"; lit "Unread"]
              [count_if is_read l; count_if (fun b => negb (is_read b)) l]]
         ++ match l with
            | [] => []
            | _ :: _ => [Bar (List.map fst (genres st)) (List.map snd (genres st))]
            end
         ++ (if count_if year_readable l =? 0 then []
             else [Line (List.map (fun d => py_str_int d ++ lit "s")
                                  (first_seen Z.eqb [] (decade_values l)))
                        (List.map snd (decades st))])
    /\ count_if is_read l + count_if (fun b => negb (is_read b)) l
       = Z.of_nat (length l).
Proof.
  intros Hl Hb.
  destruct (get_library_stats_books w l Hl Hb) as (pct & _ & Hst).
  eexists. split; [exact Hst|]. split; [|apply count_if_negb].
  unfold create_visualizations. cbn [read total genres decades].
  pose proof (count_if_negb is_read l) as Hsum.
  replace (Z.of_nat (length l) - count_if is_read l)
    with (count_if (fun b => negb (is_read b)) l) by lia.
  f_equal. f_equal.
  - destruct l as [|b l']; [reflexivity|].
    apply Forall_cons in Hb as [Hb0 _].
    destruct (book_shaped_fields b Hb0) as (g & a & r & Hg & _).
    unfold field_values. cbn [omap list_omap]. rewrite Hg.
    fold (field_values k_genre l').
    destruct (tally key_eqb (VStr g :: field_values k_genre l') []) eqn:Et;
      [|reflexivity].
    now apply tally_nil in Et as [_ Et].
  - destruct (decade_values_count l) as [Hlen _].
    destruct (Z.eqb_spec (count_if year_readable l) 0) as [Hz|Hnz].
    + assert (Hnil : decade_values l = []) by (apply length_zero_iff_nil; lia).
      now rewrite Hnil.
    + destruct (tally Z.eqb (decade_values l) []) as [|kv ds] eqn:Et.
      * apply tally_nil in Et as [_ Et]. rewrite Et in Hlen. simpl in Hlen. lia.
      * rewrite <- Et. f_equal. f_equal.
        rewrite <- (tally_keys Z.eqb (decade_values l) []).
        now rewrite List.map_map.
Qed.

End ChartFacts.

(** ** The top authors *)

Lemma insert_desc_perm {K} (x : K * Z) l : insert_desc x l ≡ₚ x :: l.
Proof.
  induction l as [|y l IH]; simpl; [reflexivity|].
  destruct (snd y <=? snd x); [reflexivity|].
  rewrite IH. apply Permutation_swap.
Qed.

Lemma sorted_desc_perm {K} (l : list (K * Z)) : sorted_desc l ≡ₚ l.
Proof.
  induction l as [|x l IH]; simpl; [reflexivity|].
  now rewrite insert_desc_perm, IH.
Qed.

Lemma insert_desc_descending {K} (x : K * Z) l :
  descending l -> descending (insert_desc x l).
Proof.
  unfold descending. induction l as [|y l IH]; intros Hs; simpl.
  - repeat constructor.
  - apply StronglySorted_cons in Hs as [Hy Hs].
    destruct (Z.leb_spec (snd y) (snd x)) as [Hle|Hgt].
    + apply StronglySorted_cons. split.
      * constructor; [assumption|].
        eapply Forall_impl; [exact Hy|]. intros z Hz. simpl in Hz. lia.
      * apply StronglySorted_cons. now split.
    + apply StronglySorted_cons. split; [|now apply IH].
      rewrite insert_desc_perm. constructor; [lia | assumption].
Qed.

Lemma sorted_desc_descending {K} (l : list (K * Z)) : descending (sorted_desc l).
Proof.
  induction l as [|x l IH]; simpl; [constructor|].
  now apply insert_desc_descending.
Qed.

(** The sort is stable: the items of one count stand as they stood. *)
Lemma insert_desc_stable {K} (x : K * Z) l (n : Z) :
  filter (fun z => snd z = n) (insert_desc x l)
  = filter (fun z => snd z = n) (x :: l).
Proof.
  induction l as [|y l IH]; simpl; [reflexivity|].
  destruct (Z.leb_spec (snd y) (snd x)) as [Hle|Hgt]; [reflexivity|].
  rewrite (filter_cons _ y), IH, !filter_cons.
  destruct (decide (snd x = n)) as [Hx|Hx]; [|reflexivity].
  destruct (decide (snd y = n)) as [Hy|Hy]; [lia | reflexivity].
Qed.

Lemma sorted_desc_stable {K} (l : list (K * Z)) (n : Z) :
  filter (fun z => snd z = n) (sorted_desc l) = filter (fun z => snd z = n) l.
Proof.
  induction l as [|x l IH]; simpl; [reflexivity|].
  now rewrite insert_desc_stable, !filter_cons, IH.
Qed.

Lemma pairs_set_fresh d k n :
  Forall (fun kv => key_eqb (fst kv) k = false) d ->
  pairs_set d k n = d ++ [(k, n)].
Proof.
  induction 1 as [|[k0 n0] d Hk _ IH]; simpl; [reflexivity|].
  simpl in Hk. now rewrite Hk, IH.
Qed.

Lemma dict_of_pairs_from acc ps :
  Forall (fun kv => exists s, fst kv = VStr s) (acc ++ ps) ->
  NoDup (List.map fst (acc ++ ps)) ->
  fold_left (fun d kn => pairs_set d (fst kn) (snd kn)) ps acc = acc ++ ps.
Proof.
  revert acc. induction ps as [|[k n] ps IH]; intros acc Ht Hnd; simpl.
  - now rewrite app_nil_r.
  - assert (Hfresh : Forall (fun kv => key_eqb (fst kv) k = false) acc).
    { apply Forall_forall. intros [k0 n0] Hin. simpl.
      destruct (key_eqb k0 k) eqn:E; [|reflexivity]. exfalso.
      rewrite Forall_forall in Ht.
      apply key_eqb_text in E;
        [| apply (Ht (k0, n0)), elem_of_app; now left
         | apply (Ht (k, n)), elem_of_app; right; apply list_elem_of_here ].
      subst k0. rewrite List.map_app in Hnd. simpl in Hnd.
      apply NoDup_app in Hnd as (_ & Hdis & _).
      apply (Hdis k).
      - apply (list_elem_of_fmap_2 fst _ (k, n0)), Hin.
      - apply list_elem_of_here. }
    rewrite (pairs_set_fresh acc k n Hfresh).
    rewrite IH; rewrite <- app_assoc; simpl; [reflexivity | assumption..].
Qed.

Section TopAuthors.
Context {RT : Runtime}.

(** X21: the top authors of a collection of book-shaped records are at
    most five of the authors, those of the highest counts, highest
    first: none left out has more books than one that is shown.  The
    sort that picks them keeps authors of equal count in the order the
    collection first shows them, and every count is at least 1. *)
Theorem top_authors_spec (w : world) (l : list pyval) :
  library w = VList l ->
  Forall (fun b => book_shaped b = true) l ->
  exists st,
    get_library_stats w = Ok st
    /\ top_authors st = take 5 (sorted_desc (authors st))
    /\ length (top_authors st) = Nat.min 5 (length (authors st))
    /\ descending (top_authors st)
    /\ (forall x, x ∈ top_authors st -> x ∈ authors st /\ 1 <= snd x)
    /\ (forall x y, x ∈ authors st -> x ∉ top_authors st ->
                    y ∈ top_authors st -> snd x <= snd y)
    /\ (forall n, filter (fun z => snd z = n) (sorted_desc (authors st))
                  = filter (fun z => snd z = n) (authors st)).
Proof.
  intros Hl Hb.
  destruct (get_library_stats_books w l Hl Hb) as (pct & _ & Hst).
  eexists. split; [exact Hst|]. cbn [authors].
  set (aus := tally key_eqb (field_values k_author l) []).
  pose proof (key_text_field_values k_author l Hb (or_intror eq_refl)) as Htext.
  destruct (tally_spec key_eqb (fun v => exists s, v = VStr s) key_eqb_text
              (field_values k_author l) []) as (Hkeys & Hpos & _ & _);
    [constructor | exact Htext | constructor |]. fold aus in Hkeys, Hpos.
  assert (Hnd : NoDup (List.map fst aus)).
  { unfold aus. rewrite tally_keys.
    apply (first_seen_NoDup key_eqb (fun v => exists s, v = VStr s));
      [exact key_eqb_text | constructor | exact Htext | constructor]. }
  pose proof (sorted_desc_perm aus) as Hperm.
  pose proof (sorted_desc_descending aus) as Hdesc.
  assert (Htop : top_authors (Stats (Z.of_nat (length l)) (count_if is_read l) pct
                   (tally key_eqb (field_values k_genre l) []) aus
                   (tally Z.eqb (decade_values l) []))
                 = take 5 (sorted_desc aus)).
  { unfold top_authors, dict_of_pairs. cbn [authors].
    apply (dict_of_pairs_from [] (take 5 (sorted_desc aus))); simpl.
    - apply Forall_forall. intros kv Hin.
      apply (subseteq_take 5) in Hin. rewrite Hperm in Hin.
      unfold keys_in in Hkeys. rewrite Forall_forall in Hkeys. now apply Hkeys.
    - apply (sublist_NoDup _ (List.map fst (sorted_desc aus))).
      + now rewrite Hperm.
      + apply fmap_sublist, sublist_take. }
  rewrite Htop.
  split; [reflexivity|].
  split; [rewrite length_take; now rewrite Hperm|].
  split.
  { unfold descending in *. rewrite <- (take_drop 5 (sorted_desc aus)) in Hdesc.
    now apply StronglySorted_app_1_l in Hdesc. }
  split.
  { intros x Hx.
    apply (subseteq_take 5) in Hx. rewrite Hperm in Hx.
    split; [assumption|].
    unfold counts_positive in Hpos. rewrite Forall_forall in Hpos.
    specialize (Hpos x Hx). simpl in Hpos. lia. }
  split; [|intros n; apply sorted_desc_stable].
  intros x y Hx Hnot Hy.
  rewrite <- Hperm in Hx.
  rewrite <- (take_drop 5 (sorted_desc aus)) in Hx, Hdesc.
  apply elem_of_app in Hx as [Hx|Hx]; [contradiction|].
  exact (StronglySorted_app_1_elem_of _ _ _ y x Hdesc Hy Hx).
Qed.

End TopAuthors.

(** ** Whole runs of the script *)

Section ScriptFacts.
Context {RT : Runtime}.

(** X22: a run in which the user pressed Remove on card [i], on a file
    that parses to a list of records whose cards can be drawn: the file
    is rewritten with the list it held less its record [i], and the
    user sees the notice of removal. *)
Theorem script_run_remove (w : world) (text now : str) (l : list pyval) (i : nat) :
  file w = Some text ->
  blank text = false ->
  json_loads (strip text) = Ok (VList l) ->
  Forall (fun b => drawable b = true) l ->
  (i < length l)%nat ->
  script_run now (ViewLibraryPage (Some (RemoveButton i))) w
  = Ok (World (VList (delete i l)) (Some (json_dumps (VList (delete i l))))
              (shown w ++ [SuccessRemoved])).
Proof.
  intros Hf Hb Hp Hd Hi. unfold script_run.
  rewrite (load_library_parsed w text (VList l) Hf Hb Hp).
  cbn [mbind result_bind]. unfold view_library.
  assert (Ht : truthy (VList l) = true) by (destruct l; [simpl in Hi; lia | reflexivity]).
  cbn [library]. rewrite Ht. cbn [py_iter mbind result_bind].
  rewrite (view_cards_remove l 0 i _ Hd Hi). cbn [Nat.add].
  assert (Hk : py_index (Z.of_nat i) (length l) = Some i).
  { unfold py_index.
    destruct (Z.leb_spec 0 (Z.of_nat i)); [|lia].
    destruct (Z.ltb_spec (Z.of_nat i) (Z.of_nat (length l))); [|lia].
    simpl. now rewrite Nat2Z.id. }
  exact (remove_book_Ok (World (VList l) (Some text) (shown w)) l (Z.of_nat i) i
           eq_refl Hk).
Qed.

(** X23: a run in which the user submitted no form and pressed no
    button of a card ends, when it ends normally, in the world
    [load_library] made: the search page, the statistics page and the
    list of books write nothing. *)
Theorem script_run_read_only (now : str) (ev : event) (w w' : world) :
  read_only ev = true ->
  script_run now ev w = Ok w' ->
  load_library w = Ok w'.
Proof.
  intros Hro. unfold script_run.
  destruct (load_library w) as [w1|e]; [|discriminate].
  cbn [mbind result_bind].
  destruct ev as [submit title author year genre status|pressed|clicked term by_|].
  - simpl in Hro. apply negb_true_iff in Hro as ->. unfold add_form. simpl.
    now intros [= <-].
  - destruct pressed; [discriminate|]. unfold view_library.
    destruct (truthy (library w1)); [|now intros [= <-]].
    destruct (py_iter (library w1)) as [items|]; [|discriminate].
    cbn [mbind result_bind]. intros H. apply view_cards_idle in H as [_ ->].
    reflexivity.
  - destruct (search_page clicked term by_ w1); [|discriminate].
    cbn [mbind result_bind]. now intros [= <-].
  - destruct (stats_page w1); [|discriminate].
    cbn [mbind result_bind]. now intros [= <-].
Qed.

End ScriptFacts.

(** ** The rest of the script run on concrete collections *)

Lemma shelf_drawable : Forall (fun b => drawable b = true) [dune; hobbit].
Proof. repeat constructor. Defined.

Lemma load_library_settles_witness :
  load_library (RT := Ref.runtime) (on_disk (Ref.dumps (VList [dune])))
  = Ok (World (VList [dune]) (Some (Ref.dumps (VList [dune]))) [])
  /\ load_library (RT := Ref.runtime)
       (World (VList [dune]) (Some (Ref.dumps (VList [dune]))) [])
     = Ok (World (VList [dune]) (Some (Ref.dumps (VList [dune]))) []).
Proof.
  split; [vm_compute; reflexivity|].
  apply (load_library_settles (RT := Ref.runtime)
           (on_disk (Ref.dumps (VList [dune])))
           (World (VList [dune]) (Some (Ref.dumps (VList [dune]))) []));
    [vm_compute; reflexivity | reflexivity].
Defined.

Lemma save_then_load_witness :
  load_library (RT := Ref.runtime)
    (save_library (RT := Ref.runtime) (shelf [dune; hobbit; undated]))
  = Ok (save_library (RT := Ref.runtime) (shelf [dune; hobbit; undated])).
Proof.
  apply (save_then_load (RT := Ref.runtime) (shelf [dune; hobbit; undated]));
    vm_compute; reflexivity.
Defined.

Lemma apply_mutations_books_witness :
  apply_mutations (RT := Ref.runtime)
    [add_hobbit; MToggle 0; MRemove 0; add_hobbit] (shelf [dune])
  = Ok (World (VList [hobbit; hobbit]) (Some (Ref.dumps (VList [hobbit; hobbit])))
              [SuccessAdded; SuccessRemoved; SuccessAdded])
  /\ exists l',
       VList [hobbit; hobbit] = VList l'
       /\ Forall (fun b => is_book b = true) l'
       /\ Z.of_nat (length l') = 2.
Proof.
  split; [vm_compute; reflexivity|].
  apply (apply_mutations_books (RT := Ref.runtime)
           [add_hobbit; MToggle 0; MRemove 0; add_hobbit] (shelf [dune])
           (World (VList [hobbit; hobbit])
                  (Some (Ref.dumps (VList [hobbit; hobbit])))
                  [SuccessAdded; SuccessRemoved; SuccessAdded])
           [dune]);
    [repeat constructor | reflexivity | repeat constructor
     | vm_compute; reflexivity].
Defined.

Lemma apply_mutations_persisted_witness :
  exists w',
    apply_mutations (RT := Ref.runtime) [MToggle 0; add_hobbit] (shelf [dune]) = Ok w'
    /\ file w' = Some (Ref.dumps (library w')).
Proof.
  eexists. split; [reflexivity|].
  apply (apply_mutations_persisted (RT := Ref.runtime) [MToggle 0; add_hobbit]
           (shelf [dune])); [intros H; discriminate H | reflexivity].
Defined.

Lemma add_then_remove_last_witness :
  exists w1 w2,
    add_book (RT := Ref.runtime) (lit "2025-03-02 09:30:00")
      (VStr (lit "The Hobbit")) (VStr (lit "Tolkien")) (VInt 1937)
      (VStr (lit "Fantasy")) (VBool false) (shelf [dune]) = Ok w1
    /\ remove_book (RT := Ref.runtime) (-1) w1 = Ok w2
    /\ library w2 = VList [dune]
    /\ file w2 = Some (Ref.dumps (VList [dune])).
Proof.
  apply (add_then_remove_last (RT := Ref.runtime) (shelf [dune]) [dune]);
    [reflexivity | left; reflexivity].
Defined.

Lemma toggle_twice_any_witness :
  exists w1 w2,
    toggle_read_status (RT := Ref.runtime) 0
      (shelf [new_book (lit "2025-03-04 07:00:00") (VStr (lit "Emma"))
                (VStr (lit "Austen")) (VInt 1815) (VStr (lit "Fiction"))
                (VInt 1)]) = Ok w1
    /\ toggle_read_status (RT := Ref.runtime) 0 w1 = Ok w2
    /\ library w2 =
       VList [new_book (lit "2025-03-04 07:00:00") (VStr (lit "Emma"))
                (VStr (lit "Austen")) (VInt 1815) (VStr (lit "Fiction"))
                (VBool true)].
Proof.
  destruct (toggle_twice_any (RT := Ref.runtime)
              (shelf [new_book (lit "2025-03-04 07:00:00") (VStr (lit "Emma"))
                        (VStr (lit "Austen")) (VInt 1815) (VStr (lit "Fiction"))
                        (VInt 1)])
              _ 0 _ (VInt 1) eq_refl eq_refl eq_refl)
    as (w1 & w2 & H1 & H2 & H3 & _).
  exists w1, w2. split; [exact H1|]. split; [exact H2|].
  rewrite H3. reflexivity.
Defined.

Lemma view_library_press_witness :
  view_library (RT := Ref.runtime) (Some (RemoveButton 1)) (shelf [dune; hobbit])
  = remove_book (RT := Ref.runtime) 1 (shelf [dune; hobbit])
  /\ view_library (RT := Ref.runtime) (Some (ToggleButton 1)) (shelf [dune; hobbit])
     = toggle_read_status (RT := Ref.runtime) 1 (shelf [dune; hobbit]).
Proof.
  apply (view_library_press (RT := Ref.runtime) (shelf [dune; hobbit])
           [dune; hobbit] 1 eq_refl shelf_drawable).
  simpl. lia.
Defined.

Lemma view_library_idle_witness :
  view_library (RT := Ref.runtime) None (shelf [dune; hobbit])
  = Ok (shelf [dune; hobbit]).
Proof.
  destruct (view_library_idle (RT := Ref.runtime) (shelf [dune; hobbit])
              [dune; hobbit] eq_refl) as [[_ H] _].
  exact (H shelf_drawable).
Defined.

Lemma add_form_outcome_witness :
  exists w',
    add_form (RT := Ref.runtime) true (lit "2025-03-04 07:00:00") (lit "Emma")
      (lit "Austen") 1815 (lit "Fiction") (lit "Unread") (shelf [dune]) = Ok w'
    /\ exists b, library w' = VList ([dune] ++ [b])
         /\ is_book b = true
         /\ file w' = Some (Ref.dumps (VList ([dune] ++ [b]))).
Proof.
  destruct (add_form_outcome (RT := Ref.runtime) (shelf [dune]) [dune] true
              (lit "2025-03-04 07:00:00") (lit "Emma") (lit "Austen") 1815
              (lit "Fiction") (lit "Unread") eq_refl)
    as (w' & H1 & H2 & _).
  exists w'. split; [exact H1|].
  destruct H2 as (b & Hb1 & Hb2 & _ & Hb3).
  { split; [reflexivity|]. split; intros H; discriminate H. }
  exists b. split; [exact Hb1|]. split; [exact Hb2 | exact Hb3].
Defined.

Lemma script_run_add_on_corrupted_witness :
  script_run (RT := Ref.runtime) (lit "2025-03-02 09:30:00")
    (AddBookPage true (lit "The Hobbit") (lit "Tolkien") 1937 (lit "Fantasy")
       (lit "Unread"))
    (on_disk (lit "  {oops "))
  = Ok (World (VList [hobbit]) (Some (Ref.dumps (VList [hobbit])))
              [ErrorCorrupted; SuccessAdded]).
Proof.
  apply (script_run_add_on_corrupted (RT := Ref.runtime) (on_disk (lit "  {oops "))
           (lit "  {oops "));
    try reflexivity; intros H; discriminate H.
Defined.

Lemma script_run_add_on_other_json_witness :
  script_run (RT := Ref.runtime) (lit "2025-03-02 09:30:00")
    (AddBookPage true (lit "The Hobbit") (lit "Tolkien") 1937 (lit "Fantasy")
       (lit "Unread"))
    (on_disk (lit "{}"))
  = Raise AttributeError.
Proof.
  apply (script_run_add_on_other_json (RT := Ref.runtime) (on_disk (lit "{}"))
           (lit "{}") _ _ _ (VDict []));
    try reflexivity; intros; intros H; discriminate H.
Defined.

Lemma search_books_any_field_witness :
  (exists res,
     search_books (RT := Ref.runtime) (lit "03-02") k_added_date
       (shelf [dune; hobbit]) = Ok res)
  /\ forall res,
       search_books (RT := Ref.runtime) (lit "03-02") k_added_date
         (shelf [dune; hobbit]) = Ok res ->
       res = filter (contains_ci (RT := Ref.runtime) (lit "03-02") k_added_date)
               [dune; hobbit].
Proof.
  destruct (search_books_any_field (RT := Ref.runtime) (shelf [dune; hobbit])
              [dune; hobbit] (lit "03-02") k_added_date eq_refl) as [[_ H1] H2].
  split; [|exact H2].
  apply H1. repeat constructor; eexists; reflexivity.
Defined.

Lemma search_books_again_witness :
  (length [hobbit] <= length [dune; hobbit])%nat
  /\ search_books (RT := Ref.runtime) (lit "HOB") k_title
       (set_library (VList [hobbit]) (shelf [dune; hobbit])) = Ok [hobbit].
Proof.
  apply (search_books_again (RT := Ref.runtime) (shelf [dune; hobbit])
           [dune; hobbit] [hobbit] (lit "HOB") k_title);
    [reflexivity | vm_compute; reflexivity].
Defined.

Lemma search_books_empty_term_witness :
  search_books (RT := Ref.runtime) [] k_genre (shelf [dune; hobbit; undated])
  = Ok [dune; hobbit; undated].
Proof.
  apply (search_books_empty_term (RT := Ref.runtime)
           (shelf [dune; hobbit; undated]) [dune; hobbit; undated] k_genre);
    [reflexivity | reflexivity |].
  repeat constructor; eexists; reflexivity.
Defined.

Lemma get_library_stats_returns_iff_witness :
  (exists st,
     get_library_stats (RT := Ref.runtime) (shelf [dune; hobbit; undated]) = Ok st)
  /\ ~ (exists st,
          get_library_stats (RT := Ref.runtime) (shelf [dune; VInt 7]) = Ok st).
Proof.
  split.
  - apply (get_library_stats_returns_iff (RT := Ref.runtime)
             (shelf [dune; hobbit; undated]) [dune; hobbit; undated] eq_refl).
    repeat constructor.
  - intros H.
    apply (get_library_stats_returns_iff (RT := Ref.runtime)
             (shelf [dune; VInt 7]) [dune; VInt 7] eq_refl) in H.
    apply Forall_cons in H as [_ H]. apply Forall_cons in H as [H _].
    discriminate H.
Defined.

Lemma stats_keys_first_seen_witness :
  exists st,
    get_library_stats (RT := Ref.runtime) (shelf [dune; hobbit; dune; undated])
    = Ok st
    /\ List.map fst (genres st)
       = [VStr (lit "Science"); VStr (lit "Fantasy"); VStr (lit "Poetry")]
    /\ List.map fst (decades st) = [1960; 1930]
    /\ NoDup (List.map fst (authors st)).
Proof.
  destruct (stats_keys_first_seen (RT := Ref.runtime)
              (shelf [dune; hobbit; dune; undated]) [dune; hobbit; dune; undated]
              eq_refl)
    as (st & H1 & H2 & _ & H3 & _ & H4 & _); [repeat constructor|].
  exists st. split; [exact H1|].
  split; [rewrite H2; reflexivity|]. split; [rewrite H3; reflexivity | exact H4].
Defined.

Lemma stats_percent_extremes_witness :
  (exists st,
     get_library_stats (RT := Ref.runtime) (shelf [dune; undated]) = Ok st
     /\ percent st = VFloat (FFin false 25 2))
  /\ (exists st,
        get_library_stats (RT := Ref.runtime) (shelf [hobbit]) = Ok st
        /\ percent st = VFloat (FFin false 0 0)).
Proof.
  split.
  - destruct (stats_percent_extremes (RT := Ref.runtime) (shelf [dune; undated])
                [dune; undated] eq_refl) as (st & H1 & H2 & _);
      [repeat constructor | intros H; discriminate H |].
    exists st. split; [exact H1|]. apply H2. repeat constructor.
  - destruct (stats_percent_extremes (RT := Ref.runtime) (shelf [hobbit])
                [hobbit] eq_refl) as (st & H1 & _ & H2);
      [repeat constructor | intros H; discriminate H |].
    exists st. split; [exact H1|]. apply H2. repeat constructor.
Defined.

Lemma create_visualizations_books_witness :
  exists st,
    get_library_stats (RT := Ref.runtime) (shelf [dune; hobbit; undated]) = Ok st
    /\ create_visualizations st =
         [Pie [lit "Read"; lit "Unread"] [2; 1];
          Bar [VStr (lit "Science"); VStr (lit "Fantasy"); VStr (lit "Poetry")]
              [1; 1; 1];
          Line [lit "1960s"; lit "1930s"] [1; 1]].
Proof.
  destruct (create_visualizations_books (RT := Ref.runtime)
              (shelf [dune; hobbit; undated]) [dune; hobbit; undated] eq_refl
              shelf_book_shaped) as (st & H1 & H2 & _).
  exists st. split; [exact H1|]. rewrite H2.
  vm_compute in H1. injection H1 as <-. vm_compute. reflexivity.
Defined.

Lemma top_authors_spec_witness :
  exists st,
    get_library_stats (RT := Ref.runtime)
      (shelf [dune; hobbit; undated; hobbit]) = Ok st
    /\ top_authors st = take 5 (sorted_desc (authors st))
    /\ descending (top_authors st)
    /\ length (top_authors st) = 3%nat.
Proof.
  destruct (top_authors_spec (RT := Ref.runtime)
              (shelf [dune; hobbit; undated; hobbit])
              [dune; hobbit; undated; hobbit] eq_refl)
    as (st & H1 & H2 & H3 & H4 & _); [repeat constructor|].
  exists st. split; [exact H1|]. split; [exact H2|]. split; [exact H4|].
  rewrite H3. vm_compute in H1. injection H1 as <-. reflexivity.
Defined.

Lemma script_run_remove_witness :
  script_run (RT := Ref.runtime) (lit "2025-03-05 12:00:00")
    (ViewLibraryPage (Some (RemoveButton 0)))
    (on_disk (Ref.dumps (VList [dune; hobbit])))
  = Ok (World (VList [hobbit]) (Some (Ref.dumps (VList [hobbit])))
              [SuccessRemoved]).
Proof.
  apply (script_run_remove (RT := Ref.runtime)
           (on_disk (Ref.dumps (VList [dune; hobbit])))
           (Ref.dumps (VList [dune; hobbit])) _ [dune; hobbit] 0);
    [reflexivity | vm_compute; reflexivity | vm_compute; reflexivity
     | exact shelf_drawable | simpl; lia].
Defined.

Lemma script_run_read_only_witness :
  load_library (RT := Ref.runtime) (on_disk (lit "  {oops "))
  = Ok (World (VList []) (Some (lit "[]")) [ErrorCorrupted]).
Proof.
  apply (script_run_read_only (RT := Ref.runtime) (lit "2025-03-05 12:00:00")
           (SearchBooksPage true (lit "dune") k_title));
    [reflexivity | vm_compute; reflexivity].
Defined.
